(** * ISDOC codec and validator: a shallow embedding of github.com/xseman/isdoc

    The development follows the layout of the Go repository:
    - [types]   : the scalar types Decimal, Date, Bool and UUID (package types);
    - [schema]  : the document model (package schema);
    - decoding  : DecodeBytes and resolveReferences (decode.go);
    - encoding  : the reflective encoder of encode.go over a universe of
                  reflected values;
    - validation: ValidateInvoiceWithOptions and its rules (validate.go).

    Go strings are byte strings; they are modelled by [string] (a list of
    8-bit [ascii]).  Go [int] is modelled by [Z], [float64] by the IEEE 754
    binary64 instance of [spec_float]. *)

From Stdlib Require Import ZArith String Ascii List Bool Lia.
From Stdlib Require Import Floats.SpecFloat.
From stdpp Require Import base decidable option list gmap strings pretty.



(* ===================================================================== *)
(** * Byte-string helpers *)
(* ===================================================================== *)

Definition byte_val (c : ascii) : Z := Z.of_N (N_of_ascii c).

(** [lo <= c <= hi] on bytes. *)
Definition in_range (lo hi c : ascii) : bool :=
  ((byte_val lo <=? byte_val c) && (byte_val c <=? byte_val hi))%Z.

Definition isDigit (c : ascii) : bool := in_range "0" "9" c.

Definition digit_val (c : ascii) : Z := (byte_val c - byte_val "0")%Z.

Definition eqb_ascii (a b : ascii) : bool := Ascii.eqb a b.

Fixpoint chars (s : string) : list ascii :=
  match s with
  | EmptyString => []
  | String c r => c :: chars r
  end.

Fixpoint unchars (l : list ascii) : string :=
  match l with
  | [] => EmptyString
  | c :: r => String c (unchars r)
  end.

(** [strings.Repeat s n]. *)
Fixpoint Repeat (s : string) (n : nat) : string :=
  match n with
  | O => ""
  | S k => s +:+ Repeat s k
  end.

(** [strings.HasPrefix s p]. *)
Definition HasPrefix (s p : string) : bool := String.prefix p s.

(** [len(s)] as a Go [int]. *)
Definition len (s : string) : Z := Z.of_nat (String.length s).

(** [fmt.Sprintf("%d", n)] for a Go [int]. *)
Definition fmt_d (n : Z) : string := pretty n.

(* ===================================================================== *)
(** * Regular expressions (package regexp, the fragment the code uses)

    The two patterns of package types are anchored with [^...$] and use
    only ASCII classes, concatenation, alternation, [?], [*], [+] and
    [{n}].  [MatchString] below decides whether the whole string is in the
    language, by Brzozowski derivatives. *)
(* ===================================================================== *)

Module regexp.

Inductive re : Type :=
| Void
| Eps
| Class (p : ascii -> bool)
| Cat (a b : re)
| Alt (a b : re)
| Star (a : re).

Definition Lit (c : ascii) : re := Class (eqb_ascii c).
Definition Opt (a : re) : re := Alt a Eps.
Definition Plus (a : re) : re := Cat a (Star a).

Fixpoint Times (n : nat) (a : re) : re :=
  match n with
  | O => Eps
  | S k => Cat a (Times k a)
  end.

Fixpoint nullable (r : re) : bool :=
  match r with
  | Void => false
  | Eps => true
  | Class _ => false
  | Cat a b => nullable a && nullable b
  | Alt a b => nullable a || nullable b
  | Star _ => true
  end.

Fixpoint deriv (c : ascii) (r : re) : re :=
  match r with
  | Void => Void
  | Eps => Void
  | Class p => if p c then Eps else Void
  | Cat a b =>
      if nullable a then Alt (Cat (deriv c a) b) (deriv c b)
      else Cat (deriv c a) b
  | Alt a b => Alt (deriv c a) (deriv c b)
  | Star a => Cat (deriv c a) (Star a)
  end.

(** Derivatives of [Void] stay [Void]; pruning them keeps the terms small. *)
Fixpoint prune (r : re) : re :=
  match r with
  | Cat a b =>
      match prune a, prune b with
      | Void, _ => Void
      | _, Void => Void
      | Eps, b' => b'
      | a', b' => Cat a' b'
      end
  | Alt a b =>
      match prune a, prune b with
      | Void, b' => b'
      | a', Void => a'
      | a', b' => Alt a' b'
      end
  | _ => r
  end.

Fixpoint MatchString (r : re) (s : string) : bool :=
  match s with
  | EmptyString => nullable r
  | String c rest => MatchString (prune (deriv c r)) rest
  end.

End regexp.

(* ===================================================================== *)
(** * Go errors and float64 *)
(* ===================================================================== *)

(** A Go [error] value.  [fmt.Errorf(format, args...)] is kept symbolic (the
    format string and its operands); [External] is an error produced by a
    package outside the repository (encoding/xml). *)
#[local] Unset Elimination Schemes.

Inductive error : Type :=
| Errorf (format : string) (args : list fmt_arg)
| External (msg : string)
with fmt_arg : Type :=
| ArgString (s : string)
| ArgInt (n : Z)
| ArgFloat (f : spec_float)
| ArgStrings (l : list string)
| ArgError (e : error).

#[local] Set Elimination Schemes.

(** [fmt.Sprintf(format, args...)] used for human-readable messages, kept
    symbolic in the same way. *)
Inductive message : Type :=
| Sprintf (format : string) (args : list fmt_arg).

Definition Text (s : string) : message := Sprintf s [].

(** IEEE 754 binary64. *)
Module float64.

Definition t : Type := spec_float.

Definition prec : Z := 53.
Definition emax : Z := 1024.

Definition zero : t := S754_zero false.
Definition add : t -> t -> t := SFadd prec emax.
Definition sub : t -> t -> t := SFsub prec emax.
Definition neg : t -> t := SFopp.
Definition eqb : t -> t -> bool := SFeqb.
Definition ltb : t -> t -> bool := SFltb.
Definition gtb (x y : t) : bool := SFltb y x.

Definition is_inf (x : t) : bool :=
  match x with S754_infinity _ => true | _ => false end.

(** Number of binary digits of a non-negative integer. *)
Definition bits (n : Z) : Z := Z.log2 n + 1.

(** The binary64 nearest to [(-1)^neg * m * 2^e] (ties to even). *)
Definition of_binary (neg : bool) (m e : Z) : t :=
  match m with
  | Zpos p => binary_round prec emax neg p e
  | _ => S754_zero neg
  end.

(** The binary64 nearest to [(-1)^neg * num / den] for [num, den > 0]:
    the quotient is computed with at least 55 significant bits and the
    position of the remainder relative to one half is handed to the
    rounding function. *)
Definition of_ratio (neg : bool) (num den : Z) : t :=
  let s := Z.max 0 (bits den + 55 - bits num) in
  let n := (num * 2 ^ s)%Z in
  let q := (n / den)%Z in
  let r := (n mod den)%Z in
  let loc := if (r =? 0)%Z then loc_Exact
             else loc_Inexact (Z.compare (2 * r) den) in
  binary_round_aux prec emax neg q (- s) loc.

(** The binary64 nearest to [(-1)^neg * m * 10^e].  Magnitudes that are
    out of range whatever the digits are decided first, as
    strconv's decimal conversion does. *)
Definition of_decimal (neg : bool) (m e : Z) : t :=
  match m with
  | Zpos _ =>
      let dp := (Z.of_nat (String.length (pretty m)) + e)%Z in
      if (310 <? dp)%Z then S754_infinity neg
      else if (dp <? -330)%Z then S754_zero neg
      else if (0 <=? e)%Z then of_binary neg (m * 10 ^ e) 0
      else of_ratio neg m (10 ^ (- e))
  | _ => S754_zero neg
  end.

End float64.

(* ===================================================================== *)
(** * Package strconv: ParseFloat(s, 64)

    [ParseFloat] accepts the special values (inf, infinity, nan, any case,
    inf with an optional sign), decimal mantissas with an optional
    exponent, hexadecimal mantissas with a mandatory [p] exponent, and
    underscores between digits.  The result is the correctly rounded
    binary64; a value that overflows is returned as an infinity together
    with [ErrRange]. *)
(* ===================================================================== *)

Module strconv.

Inductive NumError : Type := ErrSyntax | ErrRange.

(** [lower(c) = c | ('x' - 'X')]. *)
Definition lower (c : ascii) : ascii :=
  ascii_of_N (N.lor (N_of_ascii c) 32).

Definition toLowerAZ (c : ascii) : ascii :=
  if in_range "A" "Z" c then ascii_of_N (N_of_ascii c + 32) else c.

Fixpoint commonPrefixLenIgnoreCase (s prefix : list ascii) : nat :=
  match s, prefix with
  | c :: s', p :: prefix' =>
      if eqb_ascii (toLowerAZ c) p
      then S (commonPrefixLenIgnoreCase s' prefix') else O
  | _, _ => O
  end.

(** [special]: the value and the number of bytes consumed. *)
Definition special (s : list ascii) : option (float64.t * nat) :=
  let inf (sign : bool) (nsign : nat) (s' : list ascii) :=
    let n := commonPrefixLenIgnoreCase s' (chars "infinity") in
    let n := if (3 <? n)%nat && (n <? 8)%nat then 3%nat else n in
    if (n =? 3)%nat || (n =? 8)%nat
    then Some (S754_infinity sign, (nsign + n)%nat) else None in
  match s with
  | [] => None
  | c :: s' =>
      if eqb_ascii c "+" then inf false 1%nat s'
      else if eqb_ascii c "-" then inf true 1%nat s'
      else if eqb_ascii c "i" || eqb_ascii c "I" then inf false 0%nat s
      else if eqb_ascii c "n" || eqb_ascii c "N" then
        if (commonPrefixLenIgnoreCase s (chars "nan") =? 3)%nat
        then Some (S754_nan, 3%nat) else None
      else None
  end.

(** [underscoreOK]: underscores only between digits, or between a base
    prefix and a digit. *)
Inductive saw : Type := SawDigit | SawUnderscore | SawOther | SawStart.

Fixpoint underscoreOK_go (hex : bool) (sw : saw) (s : list ascii) : bool :=
  match s with
  | [] => match sw with SawUnderscore => false | _ => true end
  | c :: r =>
      if isDigit c || (hex && in_range "a" "f" (lower c))
      then underscoreOK_go hex SawDigit r
      else if eqb_ascii c "_" then
        match sw with
        | SawDigit => underscoreOK_go hex SawUnderscore r
        | _ => false
        end
      else
        match sw with
        | SawUnderscore => false
        | _ => underscoreOK_go hex SawOther r
        end
  end.

Definition underscoreOK (s : list ascii) : bool :=
  let s := match s with
           | c :: r => if eqb_ascii c "-" || eqb_ascii c "+" then r else s
           | [] => s
           end in
  match s with
  | c0 :: c1 :: r =>
      if eqb_ascii c0 "0" &&
         (eqb_ascii (lower c1) "b" || eqb_ascii (lower c1) "o"
          || eqb_ascii (lower c1) "x")
      then underscoreOK_go (eqb_ascii (lower c1) "x") SawDigit r
      else underscoreOK_go false SawStart s
  | _ => underscoreOK_go false SawStart s
  end.

(** The mantissa scan of [readFloat]: the digits read as one integer,
    the number of digits after the point, and the flags. *)
Record mantissa : Type := {
  sawdot : bool;
  sawdigits : bool;
  digits : Z;
  fraction : Z;
  underscores : bool
}.

Fixpoint readMantissa (hex : bool) (m : mantissa) (s : list ascii)
  : mantissa * list ascii :=
  match s with
  | [] => (m, [])
  | c :: r =>
      if eqb_ascii c "_" then
        readMantissa hex
          {| sawdot := sawdot m; sawdigits := sawdigits m;
             digits := digits m; fraction := fraction m;
             underscores := true |} r
      else if eqb_ascii c "." then
        if sawdot m then (m, s)
        else readMantissa hex
               {| sawdot := true; sawdigits := sawdigits m;
                  digits := digits m; fraction := fraction m;
                  underscores := underscores m |} r
      else if isDigit c then
        readMantissa hex
          {| sawdot := sawdot m; sawdigits := true;
             digits := (digits m * (if hex then 16 else 10) + digit_val c)%Z;
             fraction := if sawdot m then (fraction m + 1)%Z else fraction m;
             underscores := underscores m |} r
      else if hex && in_range "a" "f" (lower c) then
        readMantissa hex
          {| sawdot := sawdot m; sawdigits := true;
             digits := (digits m * 16
                        + (byte_val (lower c) - byte_val "a" + 10))%Z;
             fraction := if sawdot m then (fraction m + 1)%Z else fraction m;
             underscores := underscores m |} r
      else (m, s)
  end.

(** The exponent digits: [e] stops growing once it has reached 10000. *)
Fixpoint readExponent (e : Z) (us : bool) (s : list ascii)
  : Z * bool * list ascii :=
  match s with
  | c :: r =>
      if eqb_ascii c "_" then readExponent e true r
      else if isDigit c then
        readExponent (if (e <? 10000)%Z then (e * 10 + digit_val c)%Z else e)
                     us r
      else (e, us, s)
  | [] => (e, us, [])
  end.

Record number : Type := {
  neg : bool;
  hex : bool;
  mant : Z;        (* all mantissa digits as one integer *)
  exp : Z;         (* power of ten, or of two for a hexadecimal mantissa *)
  rest : list ascii
}.

(** [readFloat]: [None] when the prefix of [s] is not a number. *)
Definition readFloat (s : list ascii) : option number :=
  match s with
  | [] => None
  | c0 :: s0 =>
      let '(ng, s1) :=
        if eqb_ascii c0 "+" then (false, s0)
        else if eqb_ascii c0 "-" then (true, s0)
        else (false, s) in
      let '(hx, s2) :=
        match s1 with
        | z :: x :: (_ :: _) as r =>
            if eqb_ascii z "0" && eqb_ascii (lower x) "x"
            then (true, r) else (false, s1)
        | _ => (false, s1)
        end in
      let '(m, s3) :=
        readMantissa hx
          {| sawdot := false; sawdigits := false; digits := 0;
             fraction := 0; underscores := false |} s2 in
      if negb (sawdigits m) then None else
      let dp := if hx then (- (4 * fraction m))%Z else (- fraction m)%Z in
      let finish (e : Z) (us : bool) (s4 : list ascii) :=
        let consumed := take (length s - length s4) s in
        if us && negb (underscoreOK consumed) then None
        else Some {| neg := ng; hex := hx; mant := digits m;
                     exp := (dp + e)%Z; rest := s4 |} in
      match s3 with
      | c :: r =>
          if eqb_ascii (lower c) (if hx then "p" else "e")%char then
            match r with
            | [] => None
            | d :: r' =>
                let '(esign, r1) :=
                  if eqb_ascii d "+" then (1%Z, r')
                  else if eqb_ascii d "-" then ((-1)%Z, r')
                  else (1%Z, r) in
                match r1 with
                | d1 :: _ =>
                    if isDigit d1 then
                      let '(e, us, s4) :=
                        readExponent 0 (underscores m) r1 in
                      finish (e * esign)%Z us s4
                    else None
                | [] => None
                end
            end
          else if hx then None
          else finish 0%Z (underscores m) s3
      | [] => if hx then None else finish 0%Z (underscores m) s3
      end
  end.

(** [ParseFloat(s, 64)]: the value and the error. *)
Definition ParseFloat (s : string) : float64.t * option NumError :=
  let cs := chars s in
  match special cs with
  | Some (f, n) =>
      if (n =? length cs)%nat then (f, None)
      else (float64.zero, Some ErrSyntax)
  | None =>
      match readFloat cs with
      | None => (float64.zero, Some ErrSyntax)
      | Some n =>
          match rest n with
          | _ :: _ => (float64.zero, Some ErrSyntax)
          | [] =>
              let f := if hex n
                       then float64.of_binary (neg n) (mant n) (exp n)
                       else float64.of_decimal (neg n) (mant n) (exp n) in
              if float64.is_inf f then (f, Some ErrRange) else (f, None)
          end
      end
  end.

End strconv.


(* ===================================================================== *)
(** * Package strings and package time (the functions the code calls) *)
(* ===================================================================== *)

Module strings.

(** The UTF-8 encodings of the code points for which [unicode.IsSpace]
    holds. *)
Definition spaces : list (list ascii) :=
  map (map ascii_of_nat)
    [ [9]; [10]; [11]; [12]; [13]; [32];
      [194; 133]; [194; 160];
      [225; 154; 128];
      [226; 128; 128]; [226; 128; 129]; [226; 128; 130]; [226; 128; 131];
      [226; 128; 132]; [226; 128; 133]; [226; 128; 134]; [226; 128; 135];
      [226; 128; 136]; [226; 128; 137]; [226; 128; 138];
      [226; 128; 168]; [226; 128; 169]; [226; 128; 175]; [226; 129; 159];
      [227; 128; 128] ]%nat.

Fixpoint is_prefix (p s : list ascii) : bool :=
  match p, s with
  | [], _ => true
  | a :: p', b :: s' => eqb_ascii a b && is_prefix p' s'
  | _ :: _, [] => false
  end.

(** The length of the white-space rune [s] starts with, if any. *)
Definition leading_space (s : list ascii) : option nat :=
  length <$> List.find (fun sp => is_prefix sp s) spaces.

Fixpoint trim_left (fuel : nat) (s : list ascii) : list ascii :=
  match fuel with
  | O => s
  | S k =>
      match leading_space s with
      | Some n => trim_left k (drop n s)
      | None => s
      end
  end.

(** Trailing white space: a white-space encoding is a suffix of [s] when
    its reversal is a prefix of the reversal of [s]. *)
Definition trailing_space (r : list ascii) : option nat :=
  length <$> List.find (fun sp => is_prefix (rev sp) r) spaces.

Fixpoint trim_right (fuel : nat) (r : list ascii) : list ascii :=
  match fuel with
  | O => r
  | S k =>
      match trailing_space r with
      | Some n => trim_right k (drop n r)
      | None => r
      end
  end.

(** [strings.Split(s, sep)] for a one-byte separator. *)
Fixpoint Split (s : string) (sep : ascii) : list string :=
  match s with
  | EmptyString => [""]
  | String c r =>
      if eqb_ascii c sep then "" :: Split r sep
      else
        match Split r sep with
        | w :: ws => String c w :: ws
        | [] => [String c ""]
        end
  end.

(** [strings.Contains(s, substr)]. *)
Fixpoint Contains (s substr : string) : bool :=
  String.prefix substr s ||
  match s with
  | EmptyString => false
  | String _ r => Contains r substr
  end.

(** [strings.TrimSpace]. *)
Definition TrimSpace (s : string) : string :=
  let l := trim_left (String.length s) (chars s) in
  unchars (rev (trim_right (length l) (rev l))).

End strings.

Module time.

Definition isLeap (year : Z) : bool :=
  ((year mod 4 =? 0) && (negb (year mod 100 =? 0) || (year mod 400 =? 0)))%Z.

Definition daysIn (month year : Z) : Z :=
  if (month =? 2)%Z then (if isLeap year then 29 else 28)%Z
  else if ((month =? 4) || (month =? 6) || (month =? 9) || (month =? 11))%Z
       then 30%Z else 31%Z.

(** [time.Parse("2006-01-02", s)]: four digits, a dash, two digits, a
    dash, two digits and nothing else; the month is in 1..12 and the day
    exists in that month.  The result is the calendar day at midnight
    UTC, given by year, month and day; [None] is a parse error. *)
Definition Parse_2006_01_02 (s : string) : option (Z * Z * Z) :=
  match chars s with
  | [y1; y2; y3; y4; d1; m1; m2; d2; a1; a2] =>
      if isDigit y1 && isDigit y2 && isDigit y3 && isDigit y4
         && eqb_ascii d1 "-" && isDigit m1 && isDigit m2
         && eqb_ascii d2 "-" && isDigit a1 && isDigit a2
      then
        let year := (((digit_val y1 * 10 + digit_val y2) * 10
                      + digit_val y3) * 10 + digit_val y4)%Z in
        let month := (digit_val m1 * 10 + digit_val m2)%Z in
        let day := (digit_val a1 * 10 + digit_val a2)%Z in
        if ((1 <=? month) && (month <=? 12)
            && (1 <=? day) && (day <=? daysIn month year))%Z
        then Some (year, month, day) else None
      else None
  | _ => None
  end.

(** Two-digit and four-digit zero-padded fields of [Format]. *)
Definition pad (width : nat) (n : Z) : string :=
  let d := pretty n in
  Repeat "0" (width - String.length d) +:+ d.

(** [t.Format("2006-01-02")] for a year in 0..9999. *)
Definition Format_2006_01_02 (year month day : Z) : string :=
  pad 4 year +:+ "-" +:+ pad 2 month +:+ "-" +:+ pad 2 day.

End time.

(* ===================================================================== *)
(** * Package types: Decimal, Date, Bool, UUID *)
(* ===================================================================== *)

Module types.

Import regexp.

Definition digit : re := Class isDigit.
Definition hexdigit : re :=
  Class (fun c => isDigit c || in_range "A" "F" c || in_range "a" "f" c).

(** [^-?(\d+\.?\d*|\d*\.?\d+)$] *)
Definition decimalPattern : re :=
  Cat (Opt (Lit "-"))
      (Alt (Cat (Plus digit) (Cat (Opt (Lit ".")) (Star digit)))
           (Cat (Star digit) (Cat (Opt (Lit ".")) (Plus digit)))).

(** Decimal is a string type. *)
Definition Decimal : Type := string.

Definition NewDecimal (s : string) : Decimal * option error :=
  if negb (MatchString decimalPattern s)
  then ("", Some (Errorf "invalid decimal format: %q" [ArgString s]))
  else (s, None).

(** [MustDecimal] panics on an invalid format: [None] is the panic. *)
Definition MustDecimal (s : string) : option Decimal :=
  match NewDecimal s with
  | (d, None) => Some d
  | (_, Some _) => None
  end.

Definition Decimal_String (d : Decimal) : string := d.

Definition Decimal_IsZero (d : Decimal) : bool := String.eqb d "".

Definition Decimal_Float64 (d : Decimal) : float64.t :=
  if String.eqb d "" then float64.zero
  else
    match strconv.ParseFloat d with
    | (_, Some _) => float64.zero
    | (f, None) => f
    end.

Definition Decimal_Equal (d other : Decimal) : bool :=
  float64.eqb (Decimal_Float64 d) (Decimal_Float64 other).

(** Date wraps a [time.Time]; the constructors of the package only build
    calendar days at midnight UTC, which are given by year, month and
    day.  The zero [time.Time] is January 1 of year 1. *)
Record Date : Type := { year : Z; month : Z; day : Z }.

Definition Date_zero : Date := {| year := 1; month := 1; day := 1 |}.

Definition ParseDate (s : string) : Date * option error :=
  if String.eqb s "" then (Date_zero, None)
  else
    match time.Parse_2006_01_02 s with
    | None =>
        (Date_zero,
         Some (Errorf "invalid date format %q: expected YYYY-MM-DD"
                      [ArgString s]))
    | Some (y, m, d) => ({| year := y; month := m; day := d |}, None)
    end.

Definition Date_IsZero (d : Date) : bool :=
  ((year d =? 1) && (month d =? 1) && (day d =? 1))%Z.

Definition Date_String (d : Date) : string :=
  if Date_IsZero d then ""
  else time.Format_2006_01_02 (year d) (month d) (day d).

(** Bool is a bool type. *)
Definition Bool : Type := bool.

Definition ParseBool (s : string) : Bool * option error :=
  if String.eqb s "true" then (true, None)
  else if String.eqb s "false" then (false, None)
  else if String.eqb s "" then (false, None)
  else (false,
        Some (Errorf "invalid boolean %q: must be 'true' or 'false'"
                     [ArgString s])).

Definition Bool_String (b : Bool) : string :=
  if b then "true" else "false".

Definition Bool_Bool (b : Bool) : bool := b.

(** [^[0-9A-Fa-f]{8}-[0-9A-Fa-f]{4}-[0-9A-Fa-f]{4}-[0-9A-Fa-f]{4}-[0-9A-Fa-f]{12}$] *)
Definition uuidPattern : re :=
  Cat (Times 8 hexdigit) (Cat (Lit "-")
  (Cat (Times 4 hexdigit) (Cat (Lit "-")
  (Cat (Times 4 hexdigit) (Cat (Lit "-")
  (Cat (Times 4 hexdigit) (Cat (Lit "-")
  (Times 12 hexdigit)))))))).

(** UUID is a string type. *)
Definition UUID : Type := string.

Definition NewUUID (s : string) : UUID * option error :=
  let s := strings.TrimSpace s in
  if String.eqb s "" then ("", None)
  else if negb (MatchString uuidPattern s)
  then ("", Some (Errorf "invalid UUID format: %q" [ArgString s]))
  else (s, None).

Definition UUID_String (u : UUID) : string := u.

Definition UUID_IsZero (u : UUID) : bool := String.eqb u "".

End types.


(* ===================================================================== *)
(** * Package schema: the document model

    One record per Go struct, fields in declaration order.  A pointer field
    is an [option], a slice field a [list] (the code only ever asks a slice
    for its length and its elements, so nil and empty are not told apart),
    [[]byte] a [string]. *)
(* ===================================================================== *)

Module xml.

(** [xml.Name]. *)
Record Name : Type := { Space : string; Local : string }.

Definition Name_zero : Name := {| Space := ""; Local := "" |}.

End xml.

Module schema.

Definition Namespace : string := "http://isdoc.cz/namespace/2013".

Record EgovClassifier : Type := {
  EgovClassifier_Value : string
}.

Definition EgovClassifier_zero : EgovClassifier :=
  {| EgovClassifier_Value := "" |}.

Record EgovClassifiers : Type := {
  EgovClassifiers_EgovClassifier : list EgovClassifier
}.

Definition EgovClassifiers_zero : EgovClassifiers :=
  {| EgovClassifiers_EgovClassifier := [] |}.

Record Note : Type := {
  Note_Value : string;
  Note_LanguageID : string
}.

Definition Note_zero : Note :=
  {| Note_Value := "";
     Note_LanguageID := "" |}.

Record Extensions : Type := {
  Extensions_Raw : string
}.

Definition Extensions_zero : Extensions :=
  {| Extensions_Raw := "" |}.

Record PartyIdentification : Type := {
  PartyIdentification_UserID : string;
  PartyIdentification_CatalogFirmIdentification : string;
  PartyIdentification_ID : string
}.

Definition PartyIdentification_zero : PartyIdentification :=
  {| PartyIdentification_UserID := "";
     PartyIdentification_CatalogFirmIdentification := "";
     PartyIdentification_ID := "" |}.

Record PartyName : Type := {
  PartyName_Name : string
}.

Definition PartyName_zero : PartyName :=
  {| PartyName_Name := "" |}.

Record Country : Type := {
  Country_IdentificationCode : string;
  Country_Name : string
}.

Definition Country_zero : Country :=
  {| Country_IdentificationCode := "";
     Country_Name := "" |}.

Record PostalAddress : Type := {
  PostalAddress_StreetName : string;
  PostalAddress_BuildingNumber : string;
  PostalAddress_CityName : string;
  PostalAddress_PostalZone : string;
  PostalAddress_Country : Country
}.

Definition PostalAddress_zero : PostalAddress :=
  {| PostalAddress_StreetName := "";
     PostalAddress_BuildingNumber := "";
     PostalAddress_CityName := "";
     PostalAddress_PostalZone := "";
     PostalAddress_Country := Country_zero |}.

Record PartyTaxScheme : Type := {
  PartyTaxScheme_CompanyID : string;
  PartyTaxScheme_TaxScheme : string
}.

Definition PartyTaxScheme_zero : PartyTaxScheme :=
  {| PartyTaxScheme_CompanyID := "";
     PartyTaxScheme_TaxScheme := "" |}.

Record RegisterIdentification : Type := {
  RegisterIdentification_Preformatted : string;
  RegisterIdentification_RegisterKeptAt : string;
  RegisterIdentification_RegisterFileRef : string;
  RegisterIdentification_RegisterDate : types.Date
}.

Definition RegisterIdentification_zero : RegisterIdentification :=
  {| RegisterIdentification_Preformatted := "";
     RegisterIdentification_RegisterKeptAt := "";
     RegisterIdentification_RegisterFileRef := "";
     RegisterIdentification_RegisterDate := types.Date_zero |}.

Record Contact : Type := {
  Contact_Name : string;
  Contact_Telephone : string;
  Contact_ElectronicMail : string
}.

Definition Contact_zero : Contact :=
  {| Contact_Name := "";
     Contact_Telephone := "";
     Contact_ElectronicMail := "" |}.

Record Party : Type := {
  Party_PartyIdentification : PartyIdentification;
  Party_PartyName : PartyName;
  Party_PostalAddress : PostalAddress;
  Party_PartyTaxScheme : list PartyTaxScheme;
  Party_RegisterIdentification : option RegisterIdentification;
  Party_Contact : option Contact
}.

Definition Party_zero : Party :=
  {| Party_PartyIdentification := PartyIdentification_zero;
     Party_PartyName := PartyName_zero;
     Party_PostalAddress := PostalAddress_zero;
     Party_PartyTaxScheme := [];
     Party_RegisterIdentification := None;
     Party_Contact := None |}.

Record AccountingSupplierParty : Type := {
  AccountingSupplierParty_Party : Party
}.

Definition AccountingSupplierParty_zero : AccountingSupplierParty :=
  {| AccountingSupplierParty_Party := Party_zero |}.

Record SellerSupplierParty : Type := {
  SellerSupplierParty_Party : Party
}.

Definition SellerSupplierParty_zero : SellerSupplierParty :=
  {| SellerSupplierParty_Party := Party_zero |}.

Record AnonymousCustomerParty : Type := {
  AnonymousCustomerParty_ID : string;
  AnonymousCustomerParty_IDScheme : string
}.

Definition AnonymousCustomerParty_zero : AnonymousCustomerParty :=
  {| AnonymousCustomerParty_ID := "";
     AnonymousCustomerParty_IDScheme := "" |}.

Record AccountingCustomerParty : Type := {
  AccountingCustomerParty_Party : Party
}.

Definition AccountingCustomerParty_zero : AccountingCustomerParty :=
  {| AccountingCustomerParty_Party := Party_zero |}.

Record BuyerCustomerParty : Type := {
  BuyerCustomerParty_Party : Party
}.

Definition BuyerCustomerParty_zero : BuyerCustomerParty :=
  {| BuyerCustomerParty_Party := Party_zero |}.

Record OrderReference : Type := {
  OrderReference_ID : string;
  OrderReference_SalesOrderID : string;
  OrderReference_ExternalOrderID : string;
  OrderReference_IssueDate : types.Date;
  OrderReference_ExternalOrderIssueDate : types.Date;
  OrderReference_UUID : types.UUID;
  OrderReference_ISDS_ID : string;
  OrderReference_FileReference : string;
  OrderReference_ReferenceNumber : string
}.

Definition OrderReference_zero : OrderReference :=
  {| OrderReference_ID := "";
     OrderReference_SalesOrderID := "";
     OrderReference_ExternalOrderID := "";
     OrderReference_IssueDate := types.Date_zero;
     OrderReference_ExternalOrderIssueDate := types.Date_zero;
     OrderReference_UUID := "";
     OrderReference_ISDS_ID := "";
     OrderReference_FileReference := "";
     OrderReference_ReferenceNumber := "" |}.

Record OrderReferences : Type := {
  OrderReferences_OrderReference : list OrderReference
}.

Definition OrderReferences_zero : OrderReferences :=
  {| OrderReferences_OrderReference := [] |}.

Record DeliveryNoteReference : Type := {
  DeliveryNoteReference_ID : string;
  DeliveryNoteReference_DeliveryNoteID : string;
  DeliveryNoteReference_IssueDate : types.Date;
  DeliveryNoteReference_UUID : types.UUID
}.

Definition DeliveryNoteReference_zero : DeliveryNoteReference :=
  {| DeliveryNoteReference_ID := "";
     DeliveryNoteReference_DeliveryNoteID := "";
     DeliveryNoteReference_IssueDate := types.Date_zero;
     DeliveryNoteReference_UUID := "" |}.

Record DeliveryNoteReferences : Type := {
  DeliveryNoteReferences_DeliveryNoteReference : list DeliveryNoteReference
}.

Definition DeliveryNoteReferences_zero : DeliveryNoteReferences :=
  {| DeliveryNoteReferences_DeliveryNoteReference := [] |}.

Record OriginalDocumentReference : Type := {
  OriginalDocumentReference_ID : string;
  OriginalDocumentReference_OriginalDocumentID : string;
  OriginalDocumentReference_IssueDate : types.Date;
  OriginalDocumentReference_UUID : types.UUID
}.

Definition OriginalDocumentReference_zero : OriginalDocumentReference :=
  {| OriginalDocumentReference_ID := "";
     OriginalDocumentReference_OriginalDocumentID := "";
     OriginalDocumentReference_IssueDate := types.Date_zero;
     OriginalDocumentReference_UUID := "" |}.

Record OriginalDocumentReferences : Type := {
  OriginalDocumentReferences_OriginalDocumentReference : list OriginalDocumentReference
}.

Definition OriginalDocumentReferences_zero : OriginalDocumentReferences :=
  {| OriginalDocumentReferences_OriginalDocumentReference := [] |}.

Record ContractReference : Type := {
  ContractReference_ID : string;
  ContractReference_ContractID : string;
  ContractReference_UUID : types.UUID;
  ContractReference_IssueDate : types.Date;
  ContractReference_LastValidDate : types.Date;
  ContractReference_LastValidDateUnbounded : types.Bool;
  ContractReference_ISDS_ID : string;
  ContractReference_FileReference : string;
  ContractReference_ReferenceNumber : string
}.

Definition ContractReference_zero : ContractReference :=
  {| ContractReference_ID := "";
     ContractReference_ContractID := "";
     ContractReference_UUID := "";
     ContractReference_IssueDate := types.Date_zero;
     ContractReference_LastValidDate := types.Date_zero;
     ContractReference_LastValidDateUnbounded := false;
     ContractReference_ISDS_ID := "";
     ContractReference_FileReference := "";
     ContractReference_ReferenceNumber := "" |}.

Record ContractReferences : Type := {
  ContractReferences_ContractReference : list ContractReference
}.

Definition ContractReferences_zero : ContractReferences :=
  {| ContractReferences_ContractReference := [] |}.

Record Delivery : Type := {
  Delivery_Party : Party
}.

Definition Delivery_zero : Delivery :=
  {| Delivery_Party := Party_zero |}.

Record OrderLineReference : Type := {
  OrderLineReference_Ref : string;
  OrderLineReference_LineID : string
}.

Definition OrderLineReference_zero : OrderLineReference :=
  {| OrderLineReference_Ref := "";
     OrderLineReference_LineID := "" |}.

Record DeliveryNoteLineReference : Type := {
  DeliveryNoteLineReference_Ref : string;
  DeliveryNoteLineReference_LineID : string
}.

Definition DeliveryNoteLineReference_zero : DeliveryNoteLineReference :=
  {| DeliveryNoteLineReference_Ref := "";
     DeliveryNoteLineReference_LineID := "" |}.

Record OriginalDocumentLineReference : Type := {
  OriginalDocumentLineReference_Ref : string;
  OriginalDocumentLineReference_LineID : string
}.

Definition OriginalDocumentLineReference_zero : OriginalDocumentLineReference :=
  {| OriginalDocumentLineReference_Ref := "";
     OriginalDocumentLineReference_LineID := "" |}.

Record ContractLineReference : Type := {
  ContractLineReference_Ref : string;
  ContractLineReference_ParagraphID : string
}.

Definition ContractLineReference_zero : ContractLineReference :=
  {| ContractLineReference_Ref := "";
     ContractLineReference_ParagraphID := "" |}.

Record Quantity : Type := {
  Quantity_Value : types.Decimal;
  Quantity_UnitCode : string
}.

Definition Quantity_zero : Quantity :=
  {| Quantity_Value := "";
     Quantity_UnitCode := "" |}.

Record LocalReverseCharge : Type := {
  LocalReverseCharge_LocalReverseChargeCode : string;
  LocalReverseCharge_LocalReverseChargeQuantity : types.Decimal
}.

Definition LocalReverseCharge_zero : LocalReverseCharge :=
  {| LocalReverseCharge_LocalReverseChargeCode := "";
     LocalReverseCharge_LocalReverseChargeQuantity := "" |}.

Record ClassifiedTaxCategory : Type := {
  ClassifiedTaxCategory_Percent : types.Decimal;
  ClassifiedTaxCategory_VATCalculationMethod : Z;
  ClassifiedTaxCategory_VATApplicable : types.Bool;
  ClassifiedTaxCategory_LocalReverseCharge : option LocalReverseCharge
}.

Definition ClassifiedTaxCategory_zero : ClassifiedTaxCategory :=
  {| ClassifiedTaxCategory_Percent := "";
     ClassifiedTaxCategory_VATCalculationMethod := 0%Z;
     ClassifiedTaxCategory_VATApplicable := false;
     ClassifiedTaxCategory_LocalReverseCharge := None |}.

Record ItemIdentification : Type := {
  ItemIdentification_ID : string
}.

Definition ItemIdentification_zero : ItemIdentification :=
  {| ItemIdentification_ID := "" |}.

Record StoreBatch : Type := {
  StoreBatch_Name : string;
  StoreBatch_Note : string;
  StoreBatch_ExpirationDate : types.Date;
  StoreBatch_Specification : string;
  StoreBatch_Quantity : Quantity;
  StoreBatch_BatchOrSerialNumber : string;
  StoreBatch_SealSeriesID : string
}.

Definition StoreBatch_zero : StoreBatch :=
  {| StoreBatch_Name := "";
     StoreBatch_Note := "";
     StoreBatch_ExpirationDate := types.Date_zero;
     StoreBatch_Specification := "";
     StoreBatch_Quantity := Quantity_zero;
     StoreBatch_BatchOrSerialNumber := "";
     StoreBatch_SealSeriesID := "" |}.

Record StoreBatches : Type := {
  StoreBatches_StoreBatch : list StoreBatch
}.

Definition StoreBatches_zero : StoreBatches :=
  {| StoreBatches_StoreBatch := [] |}.

Record Item : Type := {
  Item_Description : string;
  Item_CatalogueItemIdentification : option ItemIdentification;
  Item_SellersItemIdentification : option ItemIdentification;
  Item_SecondarySellersItemIdentification : option ItemIdentification;
  Item_TertiarySellersItemIdentification : option ItemIdentification;
  Item_BuyersItemIdentification : option ItemIdentification;
  Item_StoreBatches : option StoreBatches
}.

Definition Item_zero : Item :=
  {| Item_Description := "";
     Item_CatalogueItemIdentification := None;
     Item_SellersItemIdentification := None;
     Item_SecondarySellersItemIdentification := None;
     Item_TertiarySellersItemIdentification := None;
     Item_BuyersItemIdentification := None;
     Item_StoreBatches := None |}.

Record InvoiceLine : Type := {
  InvoiceLine_ID : string;
  InvoiceLine_OrderReference : option OrderLineReference;
  InvoiceLine_DeliveryNoteReference : option DeliveryNoteLineReference;
  InvoiceLine_OriginalDocumentReference : option OriginalDocumentLineReference;
  InvoiceLine_ContractReference : option ContractLineReference;
  InvoiceLine_EgovClassifier : string;
  InvoiceLine_InvoicedQuantity : Quantity;
  InvoiceLine_LineExtensionAmountCurr : types.Decimal;
  InvoiceLine_LineExtensionAmount : types.Decimal;
  InvoiceLine_LineExtensionAmountBeforeDiscount : types.Decimal;
  InvoiceLine_LineExtensionAmountTaxInclusiveCurr : types.Decimal;
  InvoiceLine_LineExtensionAmountTaxInclusive : types.Decimal;
  InvoiceLine_LineExtensionAmountTaxInclusiveBeforeDiscount : types.Decimal;
  InvoiceLine_LineExtensionTaxAmount : types.Decimal;
  InvoiceLine_UnitPrice : types.Decimal;
  InvoiceLine_UnitPriceTaxInclusive : types.Decimal;
  InvoiceLine_ClassifiedTaxCategory : ClassifiedTaxCategory;
  InvoiceLine_Note : string;
  InvoiceLine_VATNote : string;
  InvoiceLine_Item : Item;
  InvoiceLine_Extensions : option Extensions
}.

Definition InvoiceLine_zero : InvoiceLine :=
  {| InvoiceLine_ID := "";
     InvoiceLine_OrderReference := None;
     InvoiceLine_DeliveryNoteReference := None;
     InvoiceLine_OriginalDocumentReference := None;
     InvoiceLine_ContractReference := None;
     InvoiceLine_EgovClassifier := "";
     InvoiceLine_InvoicedQuantity := Quantity_zero;
     InvoiceLine_LineExtensionAmountCurr := "";
     InvoiceLine_LineExtensionAmount := "";
     InvoiceLine_LineExtensionAmountBeforeDiscount := "";
     InvoiceLine_LineExtensionAmountTaxInclusiveCurr := "";
     InvoiceLine_LineExtensionAmountTaxInclusive := "";
     InvoiceLine_LineExtensionAmountTaxInclusiveBeforeDiscount := "";
     InvoiceLine_LineExtensionTaxAmount := "";
     InvoiceLine_UnitPrice := "";
     InvoiceLine_UnitPriceTaxInclusive := "";
     InvoiceLine_ClassifiedTaxCategory := ClassifiedTaxCategory_zero;
     InvoiceLine_Note := "";
     InvoiceLine_VATNote := "";
     InvoiceLine_Item := Item_zero;
     InvoiceLine_Extensions := None |}.

Record InvoiceLines : Type := {
  InvoiceLines_InvoiceLine : list InvoiceLine
}.

Definition InvoiceLines_zero : InvoiceLines :=
  {| InvoiceLines_InvoiceLine := [] |}.

Record NonTaxedDeposit : Type := {
  NonTaxedDeposit_ID : string;
  NonTaxedDeposit_VariableSymbol : string;
  NonTaxedDeposit_DepositAmountCurr : types.Decimal;
  NonTaxedDeposit_DepositAmount : types.Decimal
}.

Definition NonTaxedDeposit_zero : NonTaxedDeposit :=
  {| NonTaxedDeposit_ID := "";
     NonTaxedDeposit_VariableSymbol := "";
     NonTaxedDeposit_DepositAmountCurr := "";
     NonTaxedDeposit_DepositAmount := "" |}.

Record NonTaxedDeposits : Type := {
  NonTaxedDeposits_NonTaxedDeposit : list NonTaxedDeposit
}.

Definition NonTaxedDeposits_zero : NonTaxedDeposits :=
  {| NonTaxedDeposits_NonTaxedDeposit := [] |}.

Record TaxedDeposit : Type := {
  TaxedDeposit_ID : string;
  TaxedDeposit_VariableSymbol : string;
  TaxedDeposit_TaxableDepositAmountCurr : types.Decimal;
  TaxedDeposit_TaxableDepositAmount : types.Decimal;
  TaxedDeposit_TaxInclusiveDepositAmountCurr : types.Decimal;
  TaxedDeposit_TaxInclusiveDepositAmount : types.Decimal;
  TaxedDeposit_ClassifiedTaxCategory : ClassifiedTaxCategory
}.

Definition TaxedDeposit_zero : TaxedDeposit :=
  {| TaxedDeposit_ID := "";
     TaxedDeposit_VariableSymbol := "";
     TaxedDeposit_TaxableDepositAmountCurr := "";
     TaxedDeposit_TaxableDepositAmount := "";
     TaxedDeposit_TaxInclusiveDepositAmountCurr := "";
     TaxedDeposit_TaxInclusiveDepositAmount := "";
     TaxedDeposit_ClassifiedTaxCategory := ClassifiedTaxCategory_zero |}.

Record TaxedDeposits : Type := {
  TaxedDeposits_TaxedDeposit : list TaxedDeposit
}.

Definition TaxedDeposits_zero : TaxedDeposits :=
  {| TaxedDeposits_TaxedDeposit := [] |}.

Record TaxCategory : Type := {
  TaxCategory_Percent : types.Decimal;
  TaxCategory_TaxScheme : string;
  TaxCategory_VATApplicable : types.Bool;
  TaxCategory_LocalReverseChargeFlag : types.Bool
}.

Definition TaxCategory_zero : TaxCategory :=
  {| TaxCategory_Percent := "";
     TaxCategory_TaxScheme := "";
     TaxCategory_VATApplicable := false;
     TaxCategory_LocalReverseChargeFlag := false |}.

Record TaxSubTotal : Type := {
  TaxSubTotal_TaxableAmountCurr : types.Decimal;
  TaxSubTotal_TaxableAmount : types.Decimal;
  TaxSubTotal_TaxAmountCurr : types.Decimal;
  TaxSubTotal_TaxAmount : types.Decimal;
  TaxSubTotal_TaxInclusiveAmountCurr : types.Decimal;
  TaxSubTotal_TaxInclusiveAmount : types.Decimal;
  TaxSubTotal_AlreadyClaimedTaxableAmountCurr : types.Decimal;
  TaxSubTotal_AlreadyClaimedTaxableAmount : types.Decimal;
  TaxSubTotal_AlreadyClaimedTaxAmountCurr : types.Decimal;
  TaxSubTotal_AlreadyClaimedTaxAmount : types.Decimal;
  TaxSubTotal_AlreadyClaimedTaxInclusiveAmountCurr : types.Decimal;
  TaxSubTotal_AlreadyClaimedTaxInclusiveAmount : types.Decimal;
  TaxSubTotal_DifferenceTaxableAmountCurr : types.Decimal;
  TaxSubTotal_DifferenceTaxableAmount : types.Decimal;
  TaxSubTotal_DifferenceTaxAmountCurr : types.Decimal;
  TaxSubTotal_DifferenceTaxAmount : types.Decimal;
  TaxSubTotal_DifferenceTaxInclusiveAmountCurr : types.Decimal;
  TaxSubTotal_DifferenceTaxInclusiveAmount : types.Decimal;
  TaxSubTotal_TaxCategory : TaxCategory
}.

Definition TaxSubTotal_zero : TaxSubTotal :=
  {| TaxSubTotal_TaxableAmountCurr := "";
     TaxSubTotal_TaxableAmount := "";
     TaxSubTotal_TaxAmountCurr := "";
     TaxSubTotal_TaxAmount := "";
     TaxSubTotal_TaxInclusiveAmountCurr := "";
     TaxSubTotal_TaxInclusiveAmount := "";
     TaxSubTotal_AlreadyClaimedTaxableAmountCurr := "";
     TaxSubTotal_AlreadyClaimedTaxableAmount := "";
     TaxSubTotal_AlreadyClaimedTaxAmountCurr := "";
     TaxSubTotal_AlreadyClaimedTaxAmount := "";
     TaxSubTotal_AlreadyClaimedTaxInclusiveAmountCurr := "";
     TaxSubTotal_AlreadyClaimedTaxInclusiveAmount := "";
     TaxSubTotal_DifferenceTaxableAmountCurr := "";
     TaxSubTotal_DifferenceTaxableAmount := "";
     TaxSubTotal_DifferenceTaxAmountCurr := "";
     TaxSubTotal_DifferenceTaxAmount := "";
     TaxSubTotal_DifferenceTaxInclusiveAmountCurr := "";
     TaxSubTotal_DifferenceTaxInclusiveAmount := "";
     TaxSubTotal_TaxCategory := TaxCategory_zero |}.

Record TaxTotal : Type := {
  TaxTotal_TaxSubTotal : list TaxSubTotal;
  TaxTotal_TaxAmountCurr : types.Decimal;
  TaxTotal_TaxAmount : types.Decimal
}.

Definition TaxTotal_zero : TaxTotal :=
  {| TaxTotal_TaxSubTotal := [];
     TaxTotal_TaxAmountCurr := "";
     TaxTotal_TaxAmount := "" |}.

Record LegalMonetaryTotal : Type := {
  LegalMonetaryTotal_TaxExclusiveAmount : types.Decimal;
  LegalMonetaryTotal_TaxExclusiveAmountCurr : types.Decimal;
  LegalMonetaryTotal_TaxInclusiveAmount : types.Decimal;
  LegalMonetaryTotal_TaxInclusiveAmountCurr : types.Decimal;
  LegalMonetaryTotal_AlreadyClaimedTaxExclusiveAmount : types.Decimal;
  LegalMonetaryTotal_AlreadyClaimedTaxExclusiveAmountCurr : types.Decimal;
  LegalMonetaryTotal_AlreadyClaimedTaxInclusiveAmount : types.Decimal;
  LegalMonetaryTotal_AlreadyClaimedTaxInclusiveAmountCurr : types.Decimal;
  LegalMonetaryTotal_DifferenceTaxExclusiveAmount : types.Decimal;
  LegalMonetaryTotal_DifferenceTaxExclusiveAmountCurr : types.Decimal;
  LegalMonetaryTotal_DifferenceTaxInclusiveAmount : types.Decimal;
  LegalMonetaryTotal_DifferenceTaxInclusiveAmountCurr : types.Decimal;
  LegalMonetaryTotal_PayableRoundingAmount : types.Decimal;
  LegalMonetaryTotal_PayableRoundingAmountCurr : types.Decimal;
  LegalMonetaryTotal_PaidDepositsAmount : types.Decimal;
  LegalMonetaryTotal_PaidDepositsAmountCurr : types.Decimal;
  LegalMonetaryTotal_PayableAmount : types.Decimal;
  LegalMonetaryTotal_PayableAmountCurr : types.Decimal
}.

Definition LegalMonetaryTotal_zero : LegalMonetaryTotal :=
  {| LegalMonetaryTotal_TaxExclusiveAmount := "";
     LegalMonetaryTotal_TaxExclusiveAmountCurr := "";
     LegalMonetaryTotal_TaxInclusiveAmount := "";
     LegalMonetaryTotal_TaxInclusiveAmountCurr := "";
     LegalMonetaryTotal_AlreadyClaimedTaxExclusiveAmount := "";
     LegalMonetaryTotal_AlreadyClaimedTaxExclusiveAmountCurr := "";
     LegalMonetaryTotal_AlreadyClaimedTaxInclusiveAmount := "";
     LegalMonetaryTotal_AlreadyClaimedTaxInclusiveAmountCurr := "";
     LegalMonetaryTotal_DifferenceTaxExclusiveAmount := "";
     LegalMonetaryTotal_DifferenceTaxExclusiveAmountCurr := "";
     LegalMonetaryTotal_DifferenceTaxInclusiveAmount := "";
     LegalMonetaryTotal_DifferenceTaxInclusiveAmountCurr := "";
     LegalMonetaryTotal_PayableRoundingAmount := "";
     LegalMonetaryTotal_PayableRoundingAmountCurr := "";
     LegalMonetaryTotal_PaidDepositsAmount := "";
     LegalMonetaryTotal_PaidDepositsAmountCurr := "";
     LegalMonetaryTotal_PayableAmount := "";
     LegalMonetaryTotal_PayableAmountCurr := "" |}.

Record BankAccount : Type := {
  BankAccount_ID : string;
  BankAccount_BankCode : string;
  BankAccount_Name : string;
  BankAccount_IBAN : string;
  BankAccount_BIC : string
}.

Definition BankAccount_zero : BankAccount :=
  {| BankAccount_ID := "";
     BankAccount_BankCode := "";
     BankAccount_Name := "";
     BankAccount_IBAN := "";
     BankAccount_BIC := "" |}.

Record PaymentDetails : Type := {
  PaymentDetails_DocumentID : string;
  PaymentDetails_IssueDate : types.Date;
  PaymentDetails_PaymentDueDate : types.Date;
  PaymentDetails_VariableSymbol : string;
  PaymentDetails_ConstantSymbol : string;
  PaymentDetails_SpecificSymbol : string;
  PaymentDetails_BankAccount : option BankAccount
}.

Definition PaymentDetails_zero : PaymentDetails :=
  {| PaymentDetails_DocumentID := "";
     PaymentDetails_IssueDate := types.Date_zero;
     PaymentDetails_PaymentDueDate := types.Date_zero;
     PaymentDetails_VariableSymbol := "";
     PaymentDetails_ConstantSymbol := "";
     PaymentDetails_SpecificSymbol := "";
     PaymentDetails_BankAccount := None |}.

Record Payment : Type := {
  Payment_PaidAmount : types.Decimal;
  Payment_PaymentMeansCode : Z;
  Payment_Details : option PaymentDetails
}.

Definition Payment_zero : Payment :=
  {| Payment_PaidAmount := "";
     Payment_PaymentMeansCode := 0%Z;
     Payment_Details := None |}.

Record AlternateBankAccounts : Type := {
  AlternateBankAccounts_AlternateBankAccount : list BankAccount
}.

Definition AlternateBankAccounts_zero : AlternateBankAccounts :=
  {| AlternateBankAccounts_AlternateBankAccount := [] |}.

Record PaymentMeans : Type := {
  PaymentMeans_Payment : list Payment;
  PaymentMeans_AlternateBankAccounts : option AlternateBankAccounts
}.

Definition PaymentMeans_zero : PaymentMeans :=
  {| PaymentMeans_Payment := [];
     PaymentMeans_AlternateBankAccounts := None |}.

Record Supplement : Type := {
  Supplement_Filename : string;
  Supplement_DigestMethod : string;
  Supplement_DigestValue : string;
  Supplement_Preview : types.Bool
}.

Definition Supplement_zero : Supplement :=
  {| Supplement_Filename := "";
     Supplement_DigestMethod := "";
     Supplement_DigestValue := "";
     Supplement_Preview := false |}.

Record SupplementsList : Type := {
  SupplementsList_Supplement : list Supplement
}.

Definition SupplementsList_zero : SupplementsList :=
  {| SupplementsList_Supplement := [] |}.

Record Invoice : Type := {
  Invoice_XMLName : xml.Name;
  Invoice_Version : string;
  Invoice_DocumentType : Z;
  Invoice_SubDocumentType : string;
  Invoice_SubDocumentTypeOrigin : string;
  Invoice_TargetConsolidator : string;
  Invoice_ClientOnTargetConsolidator : string;
  Invoice_ClientBankAccount : string;
  Invoice_ID : string;
  Invoice_UUID : types.UUID;
  Invoice_EgovFlag : types.Bool;
  Invoice_ISDS_ID : string;
  Invoice_FileReference : string;
  Invoice_ReferenceNumber : string;
  Invoice_EgovClassifiers : option EgovClassifiers;
  Invoice_IssuingSystem : string;
  Invoice_IssueDate : types.Date;
  Invoice_TaxPointDate : types.Date;
  Invoice_VATApplicable : types.Bool;
  Invoice_ElectronicPossibilityAgreementReference : Note;
  Invoice_Note : option Note;
  Invoice_LocalCurrencyCode : string;
  Invoice_ForeignCurrencyCode : string;
  Invoice_CurrRate : types.Decimal;
  Invoice_RefCurrRate : types.Decimal;
  Invoice_Extensions : option Extensions;
  Invoice_AccountingSupplierParty : AccountingSupplierParty;
  Invoice_SellerSupplierParty : option SellerSupplierParty;
  Invoice_AnonymousCustomerParty : option AnonymousCustomerParty;
  Invoice_AccountingCustomerParty : option AccountingCustomerParty;
  Invoice_BuyerCustomerParty : option BuyerCustomerParty;
  Invoice_OrderReferences : option OrderReferences;
  Invoice_DeliveryNoteReferences : option DeliveryNoteReferences;
  Invoice_OriginalDocumentReferences : option OriginalDocumentReferences;
  Invoice_ContractReferences : option ContractReferences;
  Invoice_Delivery : option Delivery;
  Invoice_InvoiceLines : InvoiceLines;
  Invoice_NonTaxedDeposits : option NonTaxedDeposits;
  Invoice_TaxedDeposits : option TaxedDeposits;
  Invoice_TaxTotal : TaxTotal;
  Invoice_LegalMonetaryTotal : LegalMonetaryTotal;
  Invoice_PaymentMeans : option PaymentMeans;
  Invoice_SupplementsList : option SupplementsList
}.

Definition Invoice_zero : Invoice :=
  {| Invoice_XMLName := xml.Name_zero;
     Invoice_Version := "";
     Invoice_DocumentType := 0%Z;
     Invoice_SubDocumentType := "";
     Invoice_SubDocumentTypeOrigin := "";
     Invoice_TargetConsolidator := "";
     Invoice_ClientOnTargetConsolidator := "";
     Invoice_ClientBankAccount := "";
     Invoice_ID := "";
     Invoice_UUID := "";
     Invoice_EgovFlag := false;
     Invoice_ISDS_ID := "";
     Invoice_FileReference := "";
     Invoice_ReferenceNumber := "";
     Invoice_EgovClassifiers := None;
     Invoice_IssuingSystem := "";
     Invoice_IssueDate := types.Date_zero;
     Invoice_TaxPointDate := types.Date_zero;
     Invoice_VATApplicable := false;
     Invoice_ElectronicPossibilityAgreementReference := Note_zero;
     Invoice_Note := None;
     Invoice_LocalCurrencyCode := "";
     Invoice_ForeignCurrencyCode := "";
     Invoice_CurrRate := "";
     Invoice_RefCurrRate := "";
     Invoice_Extensions := None;
     Invoice_AccountingSupplierParty := AccountingSupplierParty_zero;
     Invoice_SellerSupplierParty := None;
     Invoice_AnonymousCustomerParty := None;
     Invoice_AccountingCustomerParty := None;
     Invoice_BuyerCustomerParty := None;
     Invoice_OrderReferences := None;
     Invoice_DeliveryNoteReferences := None;
     Invoice_OriginalDocumentReferences := None;
     Invoice_ContractReferences := None;
     Invoice_Delivery := None;
     Invoice_InvoiceLines := InvoiceLines_zero;
     Invoice_NonTaxedDeposits := None;
     Invoice_TaxedDeposits := None;
     Invoice_TaxTotal := TaxTotal_zero;
     Invoice_LegalMonetaryTotal := LegalMonetaryTotal_zero;
     Invoice_PaymentMeans := None;
     Invoice_SupplementsList := None |}.

Record CommonDocument : Type := {
  CommonDocument_XMLName : xml.Name;
  CommonDocument_Version : string;
  CommonDocument_SubDocumentType : string;
  CommonDocument_SubDocumentTypeOrigin : string;
  CommonDocument_TargetConsolidator : string;
  CommonDocument_ClientOnTargetConsolidator : string;
  CommonDocument_ClientBankAccount : string;
  CommonDocument_ID : string;
  CommonDocument_UUID : types.UUID;
  CommonDocument_IssueDate : types.Date;
  CommonDocument_LastValidDate : types.Date;
  CommonDocument_Note : option Note;
  CommonDocument_Extensions : option Extensions;
  CommonDocument_AccountingSupplierParty : AccountingSupplierParty;
  CommonDocument_AccountingCustomerParty : AccountingCustomerParty;
  CommonDocument_SupplementsList : option SupplementsList
}.

Definition CommonDocument_zero : CommonDocument :=
  {| CommonDocument_XMLName := xml.Name_zero;
     CommonDocument_Version := "";
     CommonDocument_SubDocumentType := "";
     CommonDocument_SubDocumentTypeOrigin := "";
     CommonDocument_TargetConsolidator := "";
     CommonDocument_ClientOnTargetConsolidator := "";
     CommonDocument_ClientBankAccount := "";
     CommonDocument_ID := "";
     CommonDocument_UUID := "";
     CommonDocument_IssueDate := types.Date_zero;
     CommonDocument_LastValidDate := types.Date_zero;
     CommonDocument_Note := None;
     CommonDocument_Extensions := None;
     CommonDocument_AccountingSupplierParty := AccountingSupplierParty_zero;
     CommonDocument_AccountingCustomerParty := AccountingCustomerParty_zero;
     CommonDocument_SupplementsList := None |}.

End schema.

(* ===================================================================== *)
(** * Package reflect: the values the encoder walks

    A [value] is what [reflect.ValueOf] shows of a Go value: its kind, and
    for a struct the name of its type, the methods the encoder asks for and
    the fields with their [xml] tags, in declaration order. *)
(* ===================================================================== *)

Module reflect.

(** The methods of a struct type that the encoder looks for. *)
Record methods : Type := {
  method_IsZero : option bool;      (* the result of [IsZero() bool], if declared *)
  implements_Marshaler : bool;      (* the type implements [xml.Marshaler] *)
  method_String : option string     (* the result of [String()], if declared *)
}.

Definition no_methods : methods :=
  {| method_IsZero := None; implements_Marshaler := false;
     method_String := None |}.

#[local] Unset Elimination Schemes.

Inductive value : Type :=
| VPtr (elem : option value)          (* reflect.Ptr: nil or the pointee *)
| VInterface (elem : option value)    (* reflect.Interface *)
| VString (s : string)                (* reflect.String *)
| VInt (n : Z)                        (* reflect.Int .. reflect.Int64 *)
| VBool (b : bool)                    (* reflect.Bool *)
| VSlice (elems : list value)         (* reflect.Slice *)
| VMap (size : nat)                   (* reflect.Map, by its length *)
| VStruct (type_name : string) (m : methods)
          (fields : list (string * value))   (* reflect.Struct: tag, field *)
| VUint (n : Z).                      (* reflect.Uint .. reflect.Uint64 *)

#[local] Set Elimination Schemes.

(** [[]byte]. *)
Definition reflect_bytes (s : string) : list value :=
  (fun c => VUint (byte_val c)) <$> chars s.

(** [time.Time] prints as [2006-01-02 15:04:05 -0700 MST]; its fields are
    unexported and untagged. *)
Definition reflect_Time (d : types.Date) : value :=
  VStruct "Time"
    {| method_IsZero := Some (types.Date_IsZero d);
       implements_Marshaler := false;
       method_String :=
         Some (time.Format_2006_01_02 (types.year d) (types.month d)
                                      (types.day d)
               +:+ " 00:00:00 +0000 UTC") |}
    [].

(** [types.Date] embeds a [time.Time] and declares [IsZero], [MarshalXML]
    and [String]. *)
Definition reflect_Date (d : types.Date) : value :=
  VStruct "Date"
    {| method_IsZero := Some (types.Date_IsZero d);
       implements_Marshaler := true;
       method_String := Some (types.Date_String d) |}
    [ ("", reflect_Time d) ].

Definition reflect_Name (x : xml.Name) : value :=
  VStruct "Name" no_methods
    [ ("", VString (xml.Space x)); ("", VString (xml.Local x)) ].

Definition reflect_EgovClassifier (x : schema.EgovClassifier) : value :=
  VStruct "EgovClassifier" no_methods
    [ (",chardata", VString (schema.EgovClassifier_Value x)) ].

Definition reflect_EgovClassifiers (x : schema.EgovClassifiers) : value :=
  VStruct "EgovClassifiers" no_methods
    [ ("EgovClassifier", VSlice (reflect_EgovClassifier <$> schema.EgovClassifiers_EgovClassifier x)) ].

Definition reflect_Note (x : schema.Note) : value :=
  VStruct "Note" no_methods
    [ (",chardata", VString (schema.Note_Value x));
      ("languageID,attr,omitempty", VString (schema.Note_LanguageID x)) ].

Definition reflect_Extensions (x : schema.Extensions) : value :=
  VStruct "Extensions" no_methods
    [ (",innerxml", VSlice (reflect_bytes (schema.Extensions_Raw x))) ].

Definition reflect_PartyIdentification (x : schema.PartyIdentification) : value :=
  VStruct "PartyIdentification" no_methods
    [ ("UserID,omitempty", VString (schema.PartyIdentification_UserID x));
      ("CatalogFirmIdentification,omitempty", VString (schema.PartyIdentification_CatalogFirmIdentification x));
      ("ID", VString (schema.PartyIdentification_ID x)) ].

Definition reflect_PartyName (x : schema.PartyName) : value :=
  VStruct "PartyName" no_methods
    [ ("Name", VString (schema.PartyName_Name x)) ].

Definition reflect_Country (x : schema.Country) : value :=
  VStruct "Country" no_methods
    [ ("IdentificationCode", VString (schema.Country_IdentificationCode x));
      ("Name,omitempty", VString (schema.Country_Name x)) ].

Definition reflect_PostalAddress (x : schema.PostalAddress) : value :=
  VStruct "PostalAddress" no_methods
    [ ("StreetName", VString (schema.PostalAddress_StreetName x));
      ("BuildingNumber,omitempty", VString (schema.PostalAddress_BuildingNumber x));
      ("CityName", VString (schema.PostalAddress_CityName x));
      ("PostalZone", VString (schema.PostalAddress_PostalZone x));
      ("Country", reflect_Country (schema.PostalAddress_Country x)) ].

Definition reflect_PartyTaxScheme (x : schema.PartyTaxScheme) : value :=
  VStruct "PartyTaxScheme" no_methods
    [ ("CompanyID", VString (schema.PartyTaxScheme_CompanyID x));
      ("TaxScheme", VString (schema.PartyTaxScheme_TaxScheme x)) ].

Definition reflect_RegisterIdentification (x : schema.RegisterIdentification) : value :=
  VStruct "RegisterIdentification" no_methods
    [ ("Preformatted,omitempty", VString (schema.RegisterIdentification_Preformatted x));
      ("RegisterKeptAt,omitempty", VString (schema.RegisterIdentification_RegisterKeptAt x));
      ("RegisterFileRef,omitempty", VString (schema.RegisterIdentification_RegisterFileRef x));
      ("RegisterDate,omitempty", reflect_Date (schema.RegisterIdentification_RegisterDate x)) ].

Definition reflect_Contact (x : schema.Contact) : value :=
  VStruct "Contact" no_methods
    [ ("Name,omitempty", VString (schema.Contact_Name x));
      ("Telephone,omitempty", VString (schema.Contact_Telephone x));
      ("ElectronicMail,omitempty", VString (schema.Contact_ElectronicMail x)) ].

Definition reflect_Party (x : schema.Party) : value :=
  VStruct "Party" no_methods
    [ ("PartyIdentification", reflect_PartyIdentification (schema.Party_PartyIdentification x));
      ("PartyName", reflect_PartyName (schema.Party_PartyName x));
      ("PostalAddress", reflect_PostalAddress (schema.Party_PostalAddress x));
      ("PartyTaxScheme,omitempty", VSlice (reflect_PartyTaxScheme <$> schema.Party_PartyTaxScheme x));
      ("RegisterIdentification,omitempty", VPtr (reflect_RegisterIdentification <$> schema.Party_RegisterIdentification x));
      ("Contact,omitempty", VPtr (reflect_Contact <$> schema.Party_Contact x)) ].

Definition reflect_AccountingSupplierParty (x : schema.AccountingSupplierParty) : value :=
  VStruct "AccountingSupplierParty" no_methods
    [ ("Party", reflect_Party (schema.AccountingSupplierParty_Party x)) ].

Definition reflect_SellerSupplierParty (x : schema.SellerSupplierParty) : value :=
  VStruct "SellerSupplierParty" no_methods
    [ ("Party", reflect_Party (schema.SellerSupplierParty_Party x)) ].

Definition reflect_AnonymousCustomerParty (x : schema.AnonymousCustomerParty) : value :=
  VStruct "AnonymousCustomerParty" no_methods
    [ ("ID", VString (schema.AnonymousCustomerParty_ID x));
      ("IDScheme,omitempty", VString (schema.AnonymousCustomerParty_IDScheme x)) ].

Definition reflect_AccountingCustomerParty (x : schema.AccountingCustomerParty) : value :=
  VStruct "AccountingCustomerParty" no_methods
    [ ("Party", reflect_Party (schema.AccountingCustomerParty_Party x)) ].

Definition reflect_BuyerCustomerParty (x : schema.BuyerCustomerParty) : value :=
  VStruct "BuyerCustomerParty" no_methods
    [ ("Party", reflect_Party (schema.BuyerCustomerParty_Party x)) ].

Definition reflect_OrderReference (x : schema.OrderReference) : value :=
  VStruct "OrderReference" no_methods
    [ ("id,attr,omitempty", VString (schema.OrderReference_ID x));
      ("SalesOrderID", VString (schema.OrderReference_SalesOrderID x));
      ("ExternalOrderID,omitempty", VString (schema.OrderReference_ExternalOrderID x));
      ("IssueDate,omitempty", reflect_Date (schema.OrderReference_IssueDate x));
      ("ExternalOrderIssueDate,omitempty", reflect_Date (schema.OrderReference_ExternalOrderIssueDate x));
      ("UUID,omitempty", VString (schema.OrderReference_UUID x));
      ("ISDS_ID,omitempty", VString (schema.OrderReference_ISDS_ID x));
      ("FileReference,omitempty", VString (schema.OrderReference_FileReference x));
      ("ReferenceNumber,omitempty", VString (schema.OrderReference_ReferenceNumber x)) ].

Definition reflect_OrderReferences (x : schema.OrderReferences) : value :=
  VStruct "OrderReferences" no_methods
    [ ("OrderReference", VSlice (reflect_OrderReference <$> schema.OrderReferences_OrderReference x)) ].

Definition reflect_DeliveryNoteReference (x : schema.DeliveryNoteReference) : value :=
  VStruct "DeliveryNoteReference" no_methods
    [ ("id,attr,omitempty", VString (schema.DeliveryNoteReference_ID x));
      ("ID", VString (schema.DeliveryNoteReference_DeliveryNoteID x));
      ("IssueDate,omitempty", reflect_Date (schema.DeliveryNoteReference_IssueDate x));
      ("UUID,omitempty", VString (schema.DeliveryNoteReference_UUID x)) ].

Definition reflect_DeliveryNoteReferences (x : schema.DeliveryNoteReferences) : value :=
  VStruct "DeliveryNoteReferences" no_methods
    [ ("DeliveryNoteReference", VSlice (reflect_DeliveryNoteReference <$> schema.DeliveryNoteReferences_DeliveryNoteReference x)) ].

Definition reflect_OriginalDocumentReference (x : schema.OriginalDocumentReference) : value :=
  VStruct "OriginalDocumentReference" no_methods
    [ ("id,attr,omitempty", VString (schema.OriginalDocumentReference_ID x));
      ("ID", VString (schema.OriginalDocumentReference_OriginalDocumentID x));
      ("IssueDate,omitempty", reflect_Date (schema.OriginalDocumentReference_IssueDate x));
      ("UUID,omitempty", VString (schema.OriginalDocumentReference_UUID x)) ].

Definition reflect_OriginalDocumentReferences (x : schema.OriginalDocumentReferences) : value :=
  VStruct "OriginalDocumentReferences" no_methods
    [ ("OriginalDocumentReference", VSlice (reflect_OriginalDocumentReference <$> schema.OriginalDocumentReferences_OriginalDocumentReference x)) ].

Definition reflect_ContractReference (x : schema.ContractReference) : value :=
  VStruct "ContractReference" no_methods
    [ ("id,attr,omitempty", VString (schema.ContractReference_ID x));
      ("ID", VString (schema.ContractReference_ContractID x));
      ("UUID,omitempty", VString (schema.ContractReference_UUID x));
      ("IssueDate", reflect_Date (schema.ContractReference_IssueDate x));
      ("LastValidDate,omitempty", reflect_Date (schema.ContractReference_LastValidDate x));
      ("LastValidDateUnbounded,omitempty", VBool (schema.ContractReference_LastValidDateUnbounded x));
      ("ISDS_ID,omitempty", VString (schema.ContractReference_ISDS_ID x));
      ("FileReference,omitempty", VString (schema.ContractReference_FileReference x));
      ("ReferenceNumber,omitempty", VString (schema.ContractReference_ReferenceNumber x)) ].

Definition reflect_ContractReferences (x : schema.ContractReferences) : value :=
  VStruct "ContractReferences" no_methods
    [ ("ContractReference", VSlice (reflect_ContractReference <$> schema.ContractReferences_ContractReference x)) ].

Definition reflect_Delivery (x : schema.Delivery) : value :=
  VStruct "Delivery" no_methods
    [ ("Party", reflect_Party (schema.Delivery_Party x)) ].

Definition reflect_OrderLineReference (x : schema.OrderLineReference) : value :=
  VStruct "OrderLineReference" no_methods
    [ ("ref,attr,omitempty", VString (schema.OrderLineReference_Ref x));
      ("LineID,omitempty", VString (schema.OrderLineReference_LineID x)) ].

Definition reflect_DeliveryNoteLineReference (x : schema.DeliveryNoteLineReference) : value :=
  VStruct "DeliveryNoteLineReference" no_methods
    [ ("ref,attr,omitempty", VString (schema.DeliveryNoteLineReference_Ref x));
      ("LineID,omitempty", VString (schema.DeliveryNoteLineReference_LineID x)) ].

Definition reflect_OriginalDocumentLineReference (x : schema.OriginalDocumentLineReference) : value :=
  VStruct "OriginalDocumentLineReference" no_methods
    [ ("ref,attr,omitempty", VString (schema.OriginalDocumentLineReference_Ref x));
      ("LineID,omitempty", VString (schema.OriginalDocumentLineReference_LineID x)) ].

Definition reflect_ContractLineReference (x : schema.ContractLineReference) : value :=
  VStruct "ContractLineReference" no_methods
    [ ("ref,attr,omitempty", VString (schema.ContractLineReference_Ref x));
      ("ParagraphID,omitempty", VString (schema.ContractLineReference_ParagraphID x)) ].

Definition reflect_Quantity (x : schema.Quantity) : value :=
  VStruct "Quantity" no_methods
    [ (",chardata", VString (schema.Quantity_Value x));
      ("unitCode,attr,omitempty", VString (schema.Quantity_UnitCode x)) ].

Definition reflect_LocalReverseCharge (x : schema.LocalReverseCharge) : value :=
  VStruct "LocalReverseCharge" no_methods
    [ ("LocalReverseChargeCode", VString (schema.LocalReverseCharge_LocalReverseChargeCode x));
      ("LocalReverseChargeQuantity,omitempty", VString (schema.LocalReverseCharge_LocalReverseChargeQuantity x)) ].

Definition reflect_ClassifiedTaxCategory (x : schema.ClassifiedTaxCategory) : value :=
  VStruct "ClassifiedTaxCategory" no_methods
    [ ("Percent", VString (schema.ClassifiedTaxCategory_Percent x));
      ("VATCalculationMethod,omitempty", VInt (schema.ClassifiedTaxCategory_VATCalculationMethod x));
      ("VATApplicable,omitempty", VBool (schema.ClassifiedTaxCategory_VATApplicable x));
      ("LocalReverseCharge,omitempty", VPtr (reflect_LocalReverseCharge <$> schema.ClassifiedTaxCategory_LocalReverseCharge x)) ].

Definition reflect_ItemIdentification (x : schema.ItemIdentification) : value :=
  VStruct "ItemIdentification" no_methods
    [ ("ID", VString (schema.ItemIdentification_ID x)) ].

Definition reflect_StoreBatch (x : schema.StoreBatch) : value :=
  VStruct "StoreBatch" no_methods
    [ ("Name,omitempty", VString (schema.StoreBatch_Name x));
      ("Note,omitempty", VString (schema.StoreBatch_Note x));
      ("ExpirationDate,omitempty", reflect_Date (schema.StoreBatch_ExpirationDate x));
      ("Specification,omitempty", VString (schema.StoreBatch_Specification x));
      ("Quantity,omitempty", reflect_Quantity (schema.StoreBatch_Quantity x));
      ("BatchOrSerialNumber,omitempty", VString (schema.StoreBatch_BatchOrSerialNumber x));
      ("SealSeriesID,omitempty", VString (schema.StoreBatch_SealSeriesID x)) ].

Definition reflect_StoreBatches (x : schema.StoreBatches) : value :=
  VStruct "StoreBatches" no_methods
    [ ("StoreBatch", VSlice (reflect_StoreBatch <$> schema.StoreBatches_StoreBatch x)) ].

Definition reflect_Item (x : schema.Item) : value :=
  VStruct "Item" no_methods
    [ ("Description", VString (schema.Item_Description x));
      ("CatalogueItemIdentification,omitempty", VPtr (reflect_ItemIdentification <$> schema.Item_CatalogueItemIdentification x));
      ("SellersItemIdentification,omitempty", VPtr (reflect_ItemIdentification <$> schema.Item_SellersItemIdentification x));
      ("SecondarySellersItemIdentification,omitempty", VPtr (reflect_ItemIdentification <$> schema.Item_SecondarySellersItemIdentification x));
      ("TertiarySellersItemIdentification,omitempty", VPtr (reflect_ItemIdentification <$> schema.Item_TertiarySellersItemIdentification x));
      ("BuyersItemIdentification,omitempty", VPtr (reflect_ItemIdentification <$> schema.Item_BuyersItemIdentification x));
      ("StoreBatches,omitempty", VPtr (reflect_StoreBatches <$> schema.Item_StoreBatches x)) ].

Definition reflect_InvoiceLine (x : schema.InvoiceLine) : value :=
  VStruct "InvoiceLine" no_methods
    [ ("ID", VString (schema.InvoiceLine_ID x));
      ("OrderReference,omitempty", VPtr (reflect_OrderLineReference <$> schema.InvoiceLine_OrderReference x));
      ("DeliveryNoteReference,omitempty", VPtr (reflect_DeliveryNoteLineReference <$> schema.InvoiceLine_DeliveryNoteReference x));
      ("OriginalDocumentReference,omitempty", VPtr (reflect_OriginalDocumentLineReference <$> schema.InvoiceLine_OriginalDocumentReference x));
      ("ContractReference,omitempty", VPtr (reflect_ContractLineReference <$> schema.InvoiceLine_ContractReference x));
      ("EgovClassifier,omitempty", VString (schema.InvoiceLine_EgovClassifier x));
      ("InvoicedQuantity", reflect_Quantity (schema.InvoiceLine_InvoicedQuantity x));
      ("LineExtensionAmountCurr,omitempty", VString (schema.InvoiceLine_LineExtensionAmountCurr x));
      ("LineExtensionAmount", VString (schema.InvoiceLine_LineExtensionAmount x));
      ("LineExtensionAmountBeforeDiscount,omitempty", VString (schema.InvoiceLine_LineExtensionAmountBeforeDiscount x));
      ("LineExtensionAmountTaxInclusiveCurr,omitempty", VString (schema.InvoiceLine_LineExtensionAmountTaxInclusiveCurr x));
      ("LineExtensionAmountTaxInclusive", VString (schema.InvoiceLine_LineExtensionAmountTaxInclusive x));
      ("LineExtensionAmountTaxInclusiveBeforeDiscount,omitempty", VString (schema.InvoiceLine_LineExtensionAmountTaxInclusiveBeforeDiscount x));
      ("LineExtensionTaxAmount", VString (schema.InvoiceLine_LineExtensionTaxAmount x));
      ("UnitPrice", VString (schema.InvoiceLine_UnitPrice x));
      ("UnitPriceTaxInclusive", VString (schema.InvoiceLine_UnitPriceTaxInclusive x));
      ("ClassifiedTaxCategory", reflect_ClassifiedTaxCategory (schema.InvoiceLine_ClassifiedTaxCategory x));
      ("Note,omitempty", VString (schema.InvoiceLine_Note x));
      ("VATNote,omitempty", VString (schema.InvoiceLine_VATNote x));
      ("Item", reflect_Item (schema.InvoiceLine_Item x));
      ("Extensions,omitempty", VPtr (reflect_Extensions <$> schema.InvoiceLine_Extensions x)) ].

Definition reflect_InvoiceLines (x : schema.InvoiceLines) : value :=
  VStruct "InvoiceLines" no_methods
    [ ("InvoiceLine", VSlice (reflect_InvoiceLine <$> schema.InvoiceLines_InvoiceLine x)) ].

Definition reflect_NonTaxedDeposit (x : schema.NonTaxedDeposit) : value :=
  VStruct "NonTaxedDeposit" no_methods
    [ ("ID", VString (schema.NonTaxedDeposit_ID x));
      ("VariableSymbol,omitempty", VString (schema.NonTaxedDeposit_VariableSymbol x));
      ("DepositAmountCurr,omitempty", VString (schema.NonTaxedDeposit_DepositAmountCurr x));
      ("DepositAmount", VString (schema.NonTaxedDeposit_DepositAmount x)) ].

Definition reflect_NonTaxedDeposits (x : schema.NonTaxedDeposits) : value :=
  VStruct "NonTaxedDeposits" no_methods
    [ ("NonTaxedDeposit", VSlice (reflect_NonTaxedDeposit <$> schema.NonTaxedDeposits_NonTaxedDeposit x)) ].

Definition reflect_TaxedDeposit (x : schema.TaxedDeposit) : value :=
  VStruct "TaxedDeposit" no_methods
    [ ("ID", VString (schema.TaxedDeposit_ID x));
      ("VariableSymbol,omitempty", VString (schema.TaxedDeposit_VariableSymbol x));
      ("TaxableDepositAmountCurr,omitempty", VString (schema.TaxedDeposit_TaxableDepositAmountCurr x));
      ("TaxableDepositAmount", VString (schema.TaxedDeposit_TaxableDepositAmount x));
      ("TaxInclusiveDepositAmountCurr,omitempty", VString (schema.TaxedDeposit_TaxInclusiveDepositAmountCurr x));
      ("TaxInclusiveDepositAmount", VString (schema.TaxedDeposit_TaxInclusiveDepositAmount x));
      ("ClassifiedTaxCategory", reflect_ClassifiedTaxCategory (schema.TaxedDeposit_ClassifiedTaxCategory x)) ].

Definition reflect_TaxedDeposits (x : schema.TaxedDeposits) : value :=
  VStruct "TaxedDeposits" no_methods
    [ ("TaxedDeposit", VSlice (reflect_TaxedDeposit <$> schema.TaxedDeposits_TaxedDeposit x)) ].

Definition reflect_TaxCategory (x : schema.TaxCategory) : value :=
  VStruct "TaxCategory" no_methods
    [ ("Percent", VString (schema.TaxCategory_Percent x));
      ("TaxScheme,omitempty", VString (schema.TaxCategory_TaxScheme x));
      ("VATApplicable,omitempty", VBool (schema.TaxCategory_VATApplicable x));
      ("LocalReverseChargeFlag,omitempty", VBool (schema.TaxCategory_LocalReverseChargeFlag x)) ].

Definition reflect_TaxSubTotal (x : schema.TaxSubTotal) : value :=
  VStruct "TaxSubTotal" no_methods
    [ ("TaxableAmountCurr,omitempty", VString (schema.TaxSubTotal_TaxableAmountCurr x));
      ("TaxableAmount", VString (schema.TaxSubTotal_TaxableAmount x));
      ("TaxAmountCurr,omitempty", VString (schema.TaxSubTotal_TaxAmountCurr x));
      ("TaxAmount", VString (schema.TaxSubTotal_TaxAmount x));
      ("TaxInclusiveAmountCurr,omitempty", VString (schema.TaxSubTotal_TaxInclusiveAmountCurr x));
      ("TaxInclusiveAmount", VString (schema.TaxSubTotal_TaxInclusiveAmount x));
      ("AlreadyClaimedTaxableAmountCurr,omitempty", VString (schema.TaxSubTotal_AlreadyClaimedTaxableAmountCurr x));
      ("AlreadyClaimedTaxableAmount,omitempty", VString (schema.TaxSubTotal_AlreadyClaimedTaxableAmount x));
      ("AlreadyClaimedTaxAmountCurr,omitempty", VString (schema.TaxSubTotal_AlreadyClaimedTaxAmountCurr x));
      ("AlreadyClaimedTaxAmount,omitempty", VString (schema.TaxSubTotal_AlreadyClaimedTaxAmount x));
      ("AlreadyClaimedTaxInclusiveAmountCurr,omitempty", VString (schema.TaxSubTotal_AlreadyClaimedTaxInclusiveAmountCurr x));
      ("AlreadyClaimedTaxInclusiveAmount,omitempty", VString (schema.TaxSubTotal_AlreadyClaimedTaxInclusiveAmount x));
      ("DifferenceTaxableAmountCurr,omitempty", VString (schema.TaxSubTotal_DifferenceTaxableAmountCurr x));
      ("DifferenceTaxableAmount,omitempty", VString (schema.TaxSubTotal_DifferenceTaxableAmount x));
      ("DifferenceTaxAmountCurr,omitempty", VString (schema.TaxSubTotal_DifferenceTaxAmountCurr x));
      ("DifferenceTaxAmount,omitempty", VString (schema.TaxSubTotal_DifferenceTaxAmount x));
      ("DifferenceTaxInclusiveAmountCurr,omitempty", VString (schema.TaxSubTotal_DifferenceTaxInclusiveAmountCurr x));
      ("DifferenceTaxInclusiveAmount,omitempty", VString (schema.TaxSubTotal_DifferenceTaxInclusiveAmount x));
      ("TaxCategory", reflect_TaxCategory (schema.TaxSubTotal_TaxCategory x)) ].

Definition reflect_TaxTotal (x : schema.TaxTotal) : value :=
  VStruct "TaxTotal" no_methods
    [ ("TaxSubTotal", VSlice (reflect_TaxSubTotal <$> schema.TaxTotal_TaxSubTotal x));
      ("TaxAmountCurr,omitempty", VString (schema.TaxTotal_TaxAmountCurr x));
      ("TaxAmount", VString (schema.TaxTotal_TaxAmount x)) ].

Definition reflect_LegalMonetaryTotal (x : schema.LegalMonetaryTotal) : value :=
  VStruct "LegalMonetaryTotal" no_methods
    [ ("TaxExclusiveAmount", VString (schema.LegalMonetaryTotal_TaxExclusiveAmount x));
      ("TaxExclusiveAmountCurr,omitempty", VString (schema.LegalMonetaryTotal_TaxExclusiveAmountCurr x));
      ("TaxInclusiveAmount", VString (schema.LegalMonetaryTotal_TaxInclusiveAmount x));
      ("TaxInclusiveAmountCurr,omitempty", VString (schema.LegalMonetaryTotal_TaxInclusiveAmountCurr x));
      ("AlreadyClaimedTaxExclusiveAmount,omitempty", VString (schema.LegalMonetaryTotal_AlreadyClaimedTaxExclusiveAmount x));
      ("AlreadyClaimedTaxExclusiveAmountCurr,omitempty", VString (schema.LegalMonetaryTotal_AlreadyClaimedTaxExclusiveAmountCurr x));
      ("AlreadyClaimedTaxInclusiveAmount,omitempty", VString (schema.LegalMonetaryTotal_AlreadyClaimedTaxInclusiveAmount x));
      ("AlreadyClaimedTaxInclusiveAmountCurr,omitempty", VString (schema.LegalMonetaryTotal_AlreadyClaimedTaxInclusiveAmountCurr x));
      ("DifferenceTaxExclusiveAmount,omitempty", VString (schema.LegalMonetaryTotal_DifferenceTaxExclusiveAmount x));
      ("DifferenceTaxExclusiveAmountCurr,omitempty", VString (schema.LegalMonetaryTotal_DifferenceTaxExclusiveAmountCurr x));
      ("DifferenceTaxInclusiveAmount,omitempty", VString (schema.LegalMonetaryTotal_DifferenceTaxInclusiveAmount x));
      ("DifferenceTaxInclusiveAmountCurr,omitempty", VString (schema.LegalMonetaryTotal_DifferenceTaxInclusiveAmountCurr x));
      ("PayableRoundingAmount,omitempty", VString (schema.LegalMonetaryTotal_PayableRoundingAmount x));
      ("PayableRoundingAmountCurr,omitempty", VString (schema.LegalMonetaryTotal_PayableRoundingAmountCurr x));
      ("PaidDepositsAmount,omitempty", VString (schema.LegalMonetaryTotal_PaidDepositsAmount x));
      ("PaidDepositsAmountCurr,omitempty", VString (schema.LegalMonetaryTotal_PaidDepositsAmountCurr x));
      ("PayableAmount", VString (schema.LegalMonetaryTotal_PayableAmount x));
      ("PayableAmountCurr,omitempty", VString (schema.LegalMonetaryTotal_PayableAmountCurr x)) ].

Definition reflect_BankAccount (x : schema.BankAccount) : value :=
  VStruct "BankAccount" no_methods
    [ ("ID", VString (schema.BankAccount_ID x));
      ("BankCode,omitempty", VString (schema.BankAccount_BankCode x));
      ("Name,omitempty", VString (schema.BankAccount_Name x));
      ("IBAN,omitempty", VString (schema.BankAccount_IBAN x));
      ("BIC,omitempty", VString (schema.BankAccount_BIC x)) ].

Definition reflect_PaymentDetails (x : schema.PaymentDetails) : value :=
  VStruct "PaymentDetails" no_methods
    [ ("DocumentID,omitempty", VString (schema.PaymentDetails_DocumentID x));
      ("IssueDate,omitempty", reflect_Date (schema.PaymentDetails_IssueDate x));
      ("PaymentDueDate,omitempty", reflect_Date (schema.PaymentDetails_PaymentDueDate x));
      ("VariableSymbol,omitempty", VString (schema.PaymentDetails_VariableSymbol x));
      ("ConstantSymbol,omitempty", VString (schema.PaymentDetails_ConstantSymbol x));
      ("SpecificSymbol,omitempty", VString (schema.PaymentDetails_SpecificSymbol x));
      ("BankAccount,omitempty", VPtr (reflect_BankAccount <$> schema.PaymentDetails_BankAccount x)) ].

Definition reflect_Payment (x : schema.Payment) : value :=
  VStruct "Payment" no_methods
    [ ("PaidAmount", VString (schema.Payment_PaidAmount x));
      ("PaymentMeansCode", VInt (schema.Payment_PaymentMeansCode x));
      ("Details,omitempty", VPtr (reflect_PaymentDetails <$> schema.Payment_Details x)) ].

Definition reflect_AlternateBankAccounts (x : schema.AlternateBankAccounts) : value :=
  VStruct "AlternateBankAccounts" no_methods
    [ ("AlternateBankAccount", VSlice (reflect_BankAccount <$> schema.AlternateBankAccounts_AlternateBankAccount x)) ].

Definition reflect_PaymentMeans (x : schema.PaymentMeans) : value :=
  VStruct "PaymentMeans" no_methods
    [ ("Payment", VSlice (reflect_Payment <$> schema.PaymentMeans_Payment x));
      ("AlternateBankAccounts,omitempty", VPtr (reflect_AlternateBankAccounts <$> schema.PaymentMeans_AlternateBankAccounts x)) ].

Definition reflect_Supplement (x : schema.Supplement) : value :=
  VStruct "Supplement" no_methods
    [ ("Filename", VString (schema.Supplement_Filename x));
      ("DigestMethod,omitempty", VString (schema.Supplement_DigestMethod x));
      ("DigestValue,omitempty", VString (schema.Supplement_DigestValue x));
      ("preview,attr,omitempty", VBool (schema.Supplement_Preview x)) ].

Definition reflect_SupplementsList (x : schema.SupplementsList) : value :=
  VStruct "SupplementsList" no_methods
    [ ("Supplement", VSlice (reflect_Supplement <$> schema.SupplementsList_Supplement x)) ].

Definition reflect_Invoice (x : schema.Invoice) : value :=
  VStruct "Invoice" no_methods
    [ ("Invoice", reflect_Name (schema.Invoice_XMLName x));
      ("version,attr", VString (schema.Invoice_Version x));
      ("DocumentType", VInt (schema.Invoice_DocumentType x));
      ("SubDocumentType,omitempty", VString (schema.Invoice_SubDocumentType x));
      ("SubDocumentTypeOrigin,omitempty", VString (schema.Invoice_SubDocumentTypeOrigin x));
      ("TargetConsolidator,omitempty", VString (schema.Invoice_TargetConsolidator x));
      ("ClientOnTargetConsolidator,omitempty", VString (schema.Invoice_ClientOnTargetConsolidator x));
      ("ClientBankAccount,omitempty", VString (schema.Invoice_ClientBankAccount x));
      ("ID", VString (schema.Invoice_ID x));
      ("UUID", VString (schema.Invoice_UUID x));
      ("EgovFlag,omitempty", VBool (schema.Invoice_EgovFlag x));
      ("ISDS_ID,omitempty", VString (schema.Invoice_ISDS_ID x));
      ("FileReference,omitempty", VString (schema.Invoice_FileReference x));
      ("ReferenceNumber,omitempty", VString (schema.Invoice_ReferenceNumber x));
      ("EgovClassifiers,omitempty", VPtr (reflect_EgovClassifiers <$> schema.Invoice_EgovClassifiers x));
      ("IssuingSystem,omitempty", VString (schema.Invoice_IssuingSystem x));
      ("IssueDate", reflect_Date (schema.Invoice_IssueDate x));
      ("TaxPointDate,omitempty", reflect_Date (schema.Invoice_TaxPointDate x));
      ("VATApplicable", VBool (schema.Invoice_VATApplicable x));
      ("ElectronicPossibilityAgreementReference", reflect_Note (schema.Invoice_ElectronicPossibilityAgreementReference x));
      ("Note,omitempty", VPtr (reflect_Note <$> schema.Invoice_Note x));
      ("LocalCurrencyCode", VString (schema.Invoice_LocalCurrencyCode x));
      ("ForeignCurrencyCode,omitempty", VString (schema.Invoice_ForeignCurrencyCode x));
      ("CurrRate", VString (schema.Invoice_CurrRate x));
      ("RefCurrRate", VString (schema.Invoice_RefCurrRate x));
      ("Extensions,omitempty", VPtr (reflect_Extensions <$> schema.Invoice_Extensions x));
      ("AccountingSupplierParty", reflect_AccountingSupplierParty (schema.Invoice_AccountingSupplierParty x));
      ("SellerSupplierParty,omitempty", VPtr (reflect_SellerSupplierParty <$> schema.Invoice_SellerSupplierParty x));
      ("AnonymousCustomerParty,omitempty", VPtr (reflect_AnonymousCustomerParty <$> schema.Invoice_AnonymousCustomerParty x));
      ("AccountingCustomerParty,omitempty", VPtr (reflect_AccountingCustomerParty <$> schema.Invoice_AccountingCustomerParty x));
      ("BuyerCustomerParty,omitempty", VPtr (reflect_BuyerCustomerParty <$> schema.Invoice_BuyerCustomerParty x));
      ("OrderReferences,omitempty", VPtr (reflect_OrderReferences <$> schema.Invoice_OrderReferences x));
      ("DeliveryNoteReferences,omitempty", VPtr (reflect_DeliveryNoteReferences <$> schema.Invoice_DeliveryNoteReferences x));
      ("OriginalDocumentReferences,omitempty", VPtr (reflect_OriginalDocumentReferences <$> schema.Invoice_OriginalDocumentReferences x));
      ("ContractReferences,omitempty", VPtr (reflect_ContractReferences <$> schema.Invoice_ContractReferences x));
      ("Delivery,omitempty", VPtr (reflect_Delivery <$> schema.Invoice_Delivery x));
      ("InvoiceLines", reflect_InvoiceLines (schema.Invoice_InvoiceLines x));
      ("NonTaxedDeposits,omitempty", VPtr (reflect_NonTaxedDeposits <$> schema.Invoice_NonTaxedDeposits x));
      ("TaxedDeposits,omitempty", VPtr (reflect_TaxedDeposits <$> schema.Invoice_TaxedDeposits x));
      ("TaxTotal", reflect_TaxTotal (schema.Invoice_TaxTotal x));
      ("LegalMonetaryTotal", reflect_LegalMonetaryTotal (schema.Invoice_LegalMonetaryTotal x));
      ("PaymentMeans,omitempty", VPtr (reflect_PaymentMeans <$> schema.Invoice_PaymentMeans x));
      ("SupplementsList,omitempty", VPtr (reflect_SupplementsList <$> schema.Invoice_SupplementsList x)) ].

Definition reflect_CommonDocument (x : schema.CommonDocument) : value :=
  VStruct "CommonDocument" no_methods
    [ ("CommonDocument", reflect_Name (schema.CommonDocument_XMLName x));
      ("version,attr", VString (schema.CommonDocument_Version x));
      ("SubDocumentType", VString (schema.CommonDocument_SubDocumentType x));
      ("SubDocumentTypeOrigin", VString (schema.CommonDocument_SubDocumentTypeOrigin x));
      ("TargetConsolidator,omitempty", VString (schema.CommonDocument_TargetConsolidator x));
      ("ClientOnTargetConsolidator,omitempty", VString (schema.CommonDocument_ClientOnTargetConsolidator x));
      ("ClientBankAccount,omitempty", VString (schema.CommonDocument_ClientBankAccount x));
      ("ID", VString (schema.CommonDocument_ID x));
      ("UUID", VString (schema.CommonDocument_UUID x));
      ("IssueDate", reflect_Date (schema.CommonDocument_IssueDate x));
      ("LastValidDate,omitempty", reflect_Date (schema.CommonDocument_LastValidDate x));
      ("Note,omitempty", VPtr (reflect_Note <$> schema.CommonDocument_Note x));
      ("Extensions,omitempty", VPtr (reflect_Extensions <$> schema.CommonDocument_Extensions x));
      ("AccountingSupplierParty", reflect_AccountingSupplierParty (schema.CommonDocument_AccountingSupplierParty x));
      ("AccountingCustomerParty", reflect_AccountingCustomerParty (schema.CommonDocument_AccountingCustomerParty x));
      ("SupplementsList,omitempty", VPtr (reflect_SupplementsList <$> schema.CommonDocument_SupplementsList x)) ].

End reflect.

(* ===================================================================== *)
(** * errors.go *)
(* ===================================================================== *)

Inductive Severity : Type := SeverityError | SeverityWarning.

Definition ErrCodeRequiredField : string := "REQUIRED_FIELD".
Definition ErrCodeInvalidEnum : string := "INVALID_ENUM".
Definition ErrCodeInvalidLength : string := "INVALID_LENGTH".
Definition ErrCodeTotalMismatch : string := "TOTAL_MISMATCH".
Definition ErrCodeVATMismatch : string := "VAT_MISMATCH".
Definition ErrCodeReferenceNotFound : string := "REFERENCE_NOT_FOUND".
Definition ErrCodeDuplicateID : string := "DUPLICATE_ID".
Definition ErrCodeSchemaViolation : string := "SCHEMA_VIOLATION".

Record DecodeError : Type := {
  Path : string;
  Err : error
}.

Definition NewDecodeError (path : string) (err : error) : DecodeError :=
  {| Path := path; Err := err |}.

Definition DecodeErrors : Type := list DecodeError.

Record ValidationError : Type := {
  Field : string;
  Code : string;
  Severity_ : Severity;
  Msg : message
}.

Definition ValidationErrors : Type := list ValidationError.

Definition Severity_eqb (a b : Severity) : bool :=
  match a, b with
  | SeverityError, SeverityError => true
  | SeverityWarning, SeverityWarning => true
  | _, _ => false
  end.

Definition HasErrors (e : ValidationErrors) : bool :=
  existsb (fun err => Severity_eqb (Severity_ err) SeverityError) e.

Definition HasWarnings (e : ValidationErrors) : bool :=
  existsb (fun err => Severity_eqb (Severity_ err) SeverityWarning) e.

(** The dynamic type of the [error] that [DecodeBytes] returns. *)
Inductive decode_error : Type :=
| one_DecodeError (e : DecodeError)
| many_DecodeErrors (es : DecodeErrors).

(* ===================================================================== *)
(** * decode.go *)
(* ===================================================================== *)

(** [m[k]] on a [map[string]bool]: false when the key is absent. *)
Definition index_bool (m : gmap string bool) (k : string) : bool :=
  default false (m !! k).

(** [fmt.Sprintf(prefix + "[%d]", i)]. *)
Definition indexed (prefix : string) (i : nat) : string :=
  prefix +:+ "[" +:+ fmt_d (Z.of_nat i) +:+ "]".

(** One of the four loops that collect the header reference ids: [ids] are
    the [ID] fields of the entries, in order, [i] the index of the first. *)
Fixpoint collectIDs (collection : string) (ids : list string) (i : nat)
    (refs : gmap string bool) (errs : DecodeErrors)
  : gmap string bool * DecodeErrors :=
  match ids with
  | [] => (refs, errs)
  | id :: rest =>
      if negb (String.eqb id "") then
        let errs :=
          if index_bool refs id
          then errs ++ [NewDecodeError (indexed collection i)
                          (Errorf "duplicate id %q" [ArgString id])]
          else errs in
        collectIDs collection rest (S i) (<[id := true]> refs) errs
      else collectIDs collection rest (S i) refs errs
  end.

(** One of the four checks on a line: [ref] is the line's pointer to its
    reference, already projected to the [Ref] attribute. *)
Definition checkRef (path field header : string) (ref : option string)
    (refs : gmap string bool) (errs : DecodeErrors) : DecodeErrors :=
  match ref with
  | Some r =>
      if negb (String.eqb r "") then
        if negb (index_bool refs r)
        then errs ++ [NewDecodeError (path +:+ field)
                        (Errorf ("ref %q not found in header " +:+ header)
                                [ArgString r])]
        else errs
      else errs
  | None => errs
  end.

Fixpoint checkLines (lines : list schema.InvoiceLine) (i : nat)
    (orderRefs deliveryNoteRefs originalDocRefs contractRefs : gmap string bool)
    (errs : DecodeErrors) : DecodeErrors :=
  match lines with
  | [] => errs
  | line :: rest =>
      let path := indexed "Invoice.InvoiceLines.InvoiceLine" i in
      let errs :=
        checkRef path ".OrderReference" "OrderReferences"
          (schema.OrderLineReference_Ref <$> schema.InvoiceLine_OrderReference line)
          orderRefs errs in
      let errs :=
        checkRef path ".DeliveryNoteReference" "DeliveryNoteReferences"
          (schema.DeliveryNoteLineReference_Ref
             <$> schema.InvoiceLine_DeliveryNoteReference line)
          deliveryNoteRefs errs in
      let errs :=
        checkRef path ".OriginalDocumentReference" "OriginalDocumentReferences"
          (schema.OriginalDocumentLineReference_Ref
             <$> schema.InvoiceLine_OriginalDocumentReference line)
          originalDocRefs errs in
      let errs :=
        checkRef path ".ContractReference" "ContractReferences"
          (schema.ContractLineReference_Ref
             <$> schema.InvoiceLine_ContractReference line)
          contractRefs errs in
      checkLines rest (S i) orderRefs deliveryNoteRefs originalDocRefs
                 contractRefs errs
  end.

Definition resolveReferences (inv : schema.Invoice) : DecodeErrors :=
  let errs : DecodeErrors := [] in
  let '(orderRefs, errs) :=
    match schema.Invoice_OrderReferences inv with
    | Some c =>
        collectIDs "Invoice.OrderReferences.OrderReference"
          (schema.OrderReference_ID <$> schema.OrderReferences_OrderReference c)
          0 ∅ errs
    | None => (∅, errs)
    end in
  let '(deliveryNoteRefs, errs) :=
    match schema.Invoice_DeliveryNoteReferences inv with
    | Some c =>
        collectIDs "Invoice.DeliveryNoteReferences.DeliveryNoteReference"
          (schema.DeliveryNoteReference_ID
             <$> schema.DeliveryNoteReferences_DeliveryNoteReference c)
          0 ∅ errs
    | None => (∅, errs)
    end in
  let '(originalDocRefs, errs) :=
    match schema.Invoice_OriginalDocumentReferences inv with
    | Some c =>
        collectIDs "Invoice.OriginalDocumentReferences.OriginalDocumentReference"
          (schema.OriginalDocumentReference_ID
             <$> schema.OriginalDocumentReferences_OriginalDocumentReference c)
          0 ∅ errs
    | None => (∅, errs)
    end in
  let '(contractRefs, errs) :=
    match schema.Invoice_ContractReferences inv with
    | Some c =>
        collectIDs "Invoice.ContractReferences.ContractReference"
          (schema.ContractReference_ID
             <$> schema.ContractReferences_ContractReference c)
          0 ∅ errs
    | None => (∅, errs)
    end in
  checkLines (schema.InvoiceLines_InvoiceLine (schema.Invoice_InvoiceLines inv))
             0 orderRefs deliveryNoteRefs originalDocRefs contractRefs errs.

Section Decoder.

(** [xml.Unmarshal(data, &invoice)] of encoding/xml: the invoice it leaves
    behind and the error it returns. *)
Variable xml_Unmarshal : string -> schema.Invoice * option error.

Definition DecodeBytes (data : string)
  : option schema.Invoice * option decode_error :=
  let '(invoice, err) := xml_Unmarshal data in
  match err with
  | Some err =>
      (None,
       Some (one_DecodeError
               (NewDecodeError "" (Errorf "XML parsing: %w" [ArgError err]))))
  | None =>
      let errs := resolveReferences invoice in
      if (0 <? length errs)%nat
      then (Some invoice, Some (many_DecodeErrors errs))
      else (Some invoice, None)
  end.

End Decoder.

(* ===================================================================== *)
(** * encode.go *)
(* ===================================================================== *)

(** The line feed and the double quote, which a string literal cannot
    hold. *)
Definition nl : string := String "010" "".
Definition dq : string := String "034" "".

(** Encoder, without its writer: [Encode] returns what it would write. *)
Record Encoder : Type := {
  indent : string;
  addXMLDecl : bool
}.

Definition NewEncoder : Encoder := {| indent := "  "; addXMLDecl := true |}.

Definition SetIndent (e : Encoder) (s : string) : Encoder :=
  {| indent := s; addXMLDecl := addXMLDecl e |}.

Definition SetXMLDeclaration (e : Encoder) (add : bool) : Encoder :=
  {| indent := indent e; addXMLDecl := add |}.

(** What a call leaves behind: the bytes it appended to [buf] and the
    error it returned. *)
Definition result : Type := string * option error.

Definition ok : result := ("", None).

Definition WriteString (s : string) : result := (s, None).

(** [a] and then [b], unless [a] returned an error. *)
Definition andThen (a b : result) : result :=
  match a with
  | (w, None) => (w +:+ b.1, b.2)
  | (w, Some err) => (w, Some err)
  end.

(** A loop whose body returns at the first error. *)
Definition forEach {A : Type} (body : A -> result) (l : list A) : result :=
  foldr (fun x acc => andThen (body x) acc) ok l.

(** [strings.Split(xmlTag, ",")[0]]. *)
Definition elemNameOf (xmlTag : string) : string :=
  match strings.Split xmlTag "," with
  | elemName :: _ => elemName
  | [] => ""
  end.

(** [extractFields], over what the caller keeps of each field. *)
Definition extractFields {A : Type} (fields : list (string * A))
  : gmap string A :=
  foldl (fun m '(xmlTag, field) =>
           if String.eqb xmlTag "" || String.eqb xmlTag "-" then m
           else
             let elemName := elemNameOf xmlTag in
             if HasPrefix elemName "@" || String.eqb elemName "xmlns" then m
             else if String.eqb elemName "" then m
             else <[elemName := field]> m)
        ∅ fields.

Definition isZero (v : reflect.value) : bool :=
  match v with
  | reflect.VPtr elem | reflect.VInterface elem =>
      match elem with None => true | Some _ => false end
  | reflect.VSlice elems => (length elems =? 0)%nat
  | reflect.VMap size => (size =? 0)%nat
  | reflect.VString s => String.eqb s ""
  | reflect.VBool _ => false
  | reflect.VInt n => (n =? 0)%Z
  | reflect.VStruct _ m _ =>
      match reflect.method_IsZero m with
      | Some b => b
      | None => false
      end
  | reflect.VUint _ => false
  end.

(** [<name>text</name>] on a line of its own. *)
Definition element (ind name text : string) : string :=
  ind +:+ "<" +:+ name +:+ ">" +:+ text +:+ "</" +:+ name +:+ ">" +:+ nl.

Section Encoding.

(** [ordering.Sequence]: the generated table is not part of the sources. *)
Variable Sequence : gmap string (list string).

(** [xml.EscapeText], and, for the kinds the switch of [encodeValue] leaves
    to its default branch, the [fmt.Stringer] assertion and
    [xml.MarshalIndent(v, prefix, indent)]. *)
Variable EscapeText : string -> string.
Variable Stringer : reflect.value -> option string.
Variable MarshalIndent : reflect.value -> string -> string -> string * option error.

(** [encodeValue] from the omission check on: [v] is what is left after a
    pointer and an interface have been followed; [rec] is [encodeValue]
    itself. *)
Definition encodeKind (rec : string -> reflect.value -> nat -> result)
    (e : Encoder) (name : string) (v : reflect.value) (depth : nat) : result :=
  let ind := Repeat (indent e) depth in
  if isZero v then ok
  else
    match v with
    | reflect.VString s =>
        if String.eqb s "" then ok
        else WriteString (element ind name (EscapeText s))
    | reflect.VInt n => WriteString (element ind name (fmt_d n))
    | reflect.VBool b =>
        WriteString (element ind name (if b then "true" else "false"))
    | reflect.VSlice elems => forEach (fun x => rec name x depth) elems
    | reflect.VStruct typeName m fs =>
        if reflect.implements_Marshaler m then
          WriteString
            (element ind name
               match reflect.method_String m with
               | Some s => EscapeText s
               | None => ""
               end)
        else
          andThen (WriteString (ind +:+ "<" +:+ name +:+ ">" +:+ nl))
            (andThen
               (let fields :=
                  extractFields
                    ((fun '(xmlTag, f) => (xmlTag, fun elemName => rec elemName f (S depth)))
                       <$> fs) in
                match Sequence !! typeName with
                | Some order =>
                    forEach (fun elemName =>
                               match fields !! elemName with
                               | Some val => val elemName
                               | None => ok
                               end) order
                | None =>
                    forEach (fun '(xmlTag, f) =>
                               if String.eqb xmlTag "" || String.eqb xmlTag "-"
                               then ok
                               else
                                 let elemName := elemNameOf xmlTag in
                                 if String.eqb elemName ""
                                    || strings.Contains elemName ",attr"
                                 then ok
                                 else rec elemName f (S depth)) fs
                end)
               (WriteString (ind +:+ "</" +:+ name +:+ ">" +:+ nl)))
    | _ =>
        match Stringer v with
        | Some s =>
            if String.eqb s "" then ok
            else WriteString (element ind name (EscapeText s))
        | None =>
            match MarshalIndent v (Repeat (indent e) (depth - 1)) (indent e) with
            | (_, Some err) =>
                ("", Some (Errorf "encoding %s: %w" [ArgString name; ArgError err]))
            | (data, None) => WriteString (data +:+ nl)
            end
        end
    end.

Fixpoint encodeValue (e : Encoder) (name : string) (v : reflect.value)
    (depth : nat) {struct v} : result :=
  match v with
  | reflect.VPtr None => ok
  | reflect.VPtr (Some v1) =>
      match v1 with
      | reflect.VInterface None => ok
      | reflect.VInterface (Some v2) => encodeKind (encodeValue e) e name v2 depth
      | _ => encodeKind (encodeValue e) e name v1 depth
      end
  | reflect.VInterface None => ok
  | reflect.VInterface (Some v2) => encodeKind (encodeValue e) e name v2 depth
  | _ => encodeKind (encodeValue e) e name v depth
  end.

(** [reflect.ValueOf(inv).Elem()] is a struct; its fields. *)
Definition fieldsOf (v : reflect.value) : list (string * reflect.value) :=
  match v with
  | reflect.VStruct _ _ fs => fs
  | _ => []
  end.

(** The body shared by [encodeInvoiceContent] and
    [encodeCommonDocumentContent]: [root] is the key looked up in the
    table, [v] the reflected document. *)
Definition encodeContent (e : Encoder) (root : string) (v : reflect.value)
    (depth : nat) : result :=
  let order := default [] (Sequence !! root) in
  let fields := extractFields (fieldsOf v) in
  forEach (fun elemName =>
             match fields !! elemName with
             | Some val => encodeValue e elemName val depth
             | None => ok
             end) order.

Definition encodeInvoiceContent (e : Encoder) (inv : schema.Invoice)
    (depth : nat) : result :=
  encodeContent e "Invoice" (reflect.reflect_Invoice inv) depth.

Definition encodeCommonDocumentContent (e : Encoder)
    (doc : schema.CommonDocument) (depth : nat) : result :=
  encodeContent e "CommonDocument" (reflect.reflect_CommonDocument doc) depth.

Definition xmlDeclaration : string :=
  "<?xml version=" +:+ dq +:+ "1.0" +:+ dq +:+ " encoding=" +:+ dq
  +:+ "UTF-8" +:+ dq +:+ "?>" +:+ nl.

(** [fmt.Sprintf(`<ROOT xmlns="%s" version="%s">`, schema.Namespace, version)]. *)
Definition rootTag (root version : string) : string :=
  "<" +:+ root +:+ " xmlns=" +:+ dq +:+ schema.Namespace +:+ dq
  +:+ " version=" +:+ dq +:+ version +:+ dq +:+ ">".

(** [Encode]: the bytes handed to the writer and the error returned.  An
    error of the content leaves the writer untouched; the writer itself is
    taken to accept what it is given (it is a [bytes.Buffer] in
    [EncodeBytes]). *)
Definition Encode (e : Encoder) (inv : schema.Invoice) : result :=
  let buf := if addXMLDecl e then xmlDeclaration else "" in
  let buf := buf +:+ rootTag "Invoice" (schema.Invoice_Version inv) in
  let buf := buf +:+ nl in
  match encodeInvoiceContent e inv 1 with
  | (_, Some err) => ("", Some err)
  | (content, None) => (buf +:+ content +:+ "</Invoice>" +:+ nl, None)
  end.

Definition EncodeBytes (inv : schema.Invoice) : option string * option error :=
  match Encode NewEncoder inv with
  | (_, Some err) => (None, Some err)
  | (bytes, None) => (Some bytes, None)
  end.

Definition EncodeCommonDocument (e : Encoder) (doc : schema.CommonDocument)
  : result :=
  let buf := if addXMLDecl e then xmlDeclaration else "" in
  let buf := buf +:+ rootTag "CommonDocument" (schema.CommonDocument_Version doc) in
  let buf := buf +:+ nl in
  match encodeCommonDocumentContent e doc 1 with
  | (_, Some err) => ("", Some err)
  | (content, None) => (buf +:+ content +:+ "</CommonDocument>" +:+ nl, None)
  end.

Definition EncodeCommonDocumentBytes (doc : schema.CommonDocument)
  : option string * option error :=
  match EncodeCommonDocument NewEncoder doc with
  | (_, Some err) => (None, Some err)
  | (bytes, None) => (Some bytes, None)
  end.

End Encoding.

(* ===================================================================== *)
(** * validate.go *)
(* ===================================================================== *)

Record ValidateOptions : Type := {
  Strict : bool;
  AllowRoundingTolerance : bool;
  Tolerance : types.Decimal
}.

(** [Tolerance] is [types.MustDecimal("0.01")], which does not panic. *)
Definition DefaultValidateOptions : ValidateOptions :=
  {| Strict := false;
     AllowRoundingTolerance := true;
     Tolerance := default "" (types.MustDecimal "0.01") |}.

(** [severity := SeverityWarning; if opts.Strict { severity = SeverityError }]. *)
Definition severityOf (opts : ValidateOptions) : Severity :=
  if Strict opts then SeverityError else SeverityWarning.

(** [if cond { errs = append(errs, err) }]. *)
Definition when (cond : bool) (err : ValidationError) : ValidationErrors :=
  if cond then [err] else [].

(** [for i, x := range l { errs = append(errs, body(i, x)...) }]. *)
Definition forRange {A : Type} (body : nat -> A -> ValidationErrors)
    (l : list A) : ValidationErrors :=
  concat (imap body l).

Definition validateParty (path : string) (party : schema.Party)
    (opts : ValidateOptions) : ValidationErrors :=
  let severity := severityOf opts in
  when (String.eqb (schema.PartyIdentification_ID
                      (schema.Party_PartyIdentification party)) "")
    {| Field := path +:+ ".PartyIdentification.ID";
       Code := ErrCodeRequiredField;
       Severity_ := SeverityError;
       Msg := Text "PartyIdentification.ID (IČO) is required" |}
  ++
  when (String.eqb (schema.PartyName_Name (schema.Party_PartyName party)) "")
    {| Field := path +:+ ".PartyName.Name";
       Code := ErrCodeRequiredField;
       Severity_ := SeverityError;
       Msg := Text "PartyName.Name is required" |}
  ++
  when (String.eqb (schema.PostalAddress_CityName
                      (schema.Party_PostalAddress party)) "")
    {| Field := path +:+ ".PostalAddress.CityName";
       Code := ErrCodeRequiredField;
       Severity_ := severity;
       Msg := Text "PostalAddress.CityName is expected" |}
  ++
  when (String.eqb (schema.Country_IdentificationCode
                      (schema.PostalAddress_Country
                         (schema.Party_PostalAddress party))) "")
    {| Field := path +:+ ".PostalAddress.Country.IdentificationCode";
       Code := ErrCodeRequiredField;
       Severity_ := severity;
       Msg := Text "Country.IdentificationCode is expected" |}.

Definition validateInvoiceLine (path : string) (line : schema.InvoiceLine)
    (opts : ValidateOptions) : ValidationErrors :=
  let severity := severityOf opts in
  (if String.eqb (schema.InvoiceLine_ID line) "" then
     [ {| Field := path +:+ ".ID";
          Code := ErrCodeRequiredField;
          Severity_ := SeverityError;
          Msg := Text "ID is required" |} ]
   else if (36 <? len (schema.InvoiceLine_ID line))%Z then
     [ {| Field := path +:+ ".ID";
          Code := ErrCodeInvalidLength;
          Severity_ := severity;
          Msg := Sprintf "ID must be max 36 characters, got %d"
                   [ArgInt (len (schema.InvoiceLine_ID line))] |} ]
   else [])
  ++
  when (types.Decimal_IsZero
          (schema.Quantity_Value (schema.InvoiceLine_InvoicedQuantity line)))
    {| Field := path +:+ ".InvoicedQuantity";
       Code := ErrCodeRequiredField;
       Severity_ := severity;
       Msg := Text "InvoicedQuantity is expected" |}
  ++
  when (String.eqb (schema.Item_Description (schema.InvoiceLine_Item line)) "")
    {| Field := path +:+ ".Item.Description";
       Code := ErrCodeRequiredField;
       Severity_ := severity;
       Msg := Text "Item.Description is expected" |}.

Definition validateStructural (inv : schema.Invoice) (opts : ValidateOptions)
  : ValidationErrors :=
  let severity := severityOf opts in
  when (String.eqb (schema.Invoice_Version inv) "")
    {| Field := "Invoice.@version";
       Code := ErrCodeRequiredField;
       Severity_ := SeverityError;
       Msg := Text "version attribute is required" |}
  ++
  when ((schema.Invoice_DocumentType inv <? 1)%Z
        || (7 <? schema.Invoice_DocumentType inv)%Z)
    {| Field := "Invoice.DocumentType";
       Code := ErrCodeInvalidEnum;
       Severity_ := SeverityError;
       Msg := Sprintf "DocumentType must be 1-7, got %d"
                [ArgInt (schema.Invoice_DocumentType inv)] |}
  ++
  when (String.eqb (schema.Invoice_ID inv) "")
    {| Field := "Invoice.ID";
       Code := ErrCodeRequiredField;
       Severity_ := SeverityError;
       Msg := Text "ID is required" |}
  ++
  when (types.UUID_IsZero (schema.Invoice_UUID inv))
    {| Field := "Invoice.UUID";
       Code := ErrCodeRequiredField;
       Severity_ := SeverityError;
       Msg := Text "UUID is required" |}
  ++
  when (types.Date_IsZero (schema.Invoice_IssueDate inv))
    {| Field := "Invoice.IssueDate";
       Code := ErrCodeRequiredField;
       Severity_ := SeverityError;
       Msg := Text "IssueDate is required" |}
  ++
  (if String.eqb (schema.Invoice_LocalCurrencyCode inv) "" then
     [ {| Field := "Invoice.LocalCurrencyCode";
          Code := ErrCodeRequiredField;
          Severity_ := SeverityError;
          Msg := Text "LocalCurrencyCode is required" |} ]
   else if negb (len (schema.Invoice_LocalCurrencyCode inv) =? 3)%Z then
     [ {| Field := "Invoice.LocalCurrencyCode";
          Code := ErrCodeInvalidLength;
          Severity_ := severity;
          Msg := Sprintf "LocalCurrencyCode must be 3 characters, got %d"
                   [ArgInt (len (schema.Invoice_LocalCurrencyCode inv))] |} ]
   else [])
  ++
  when (types.Decimal_IsZero (schema.Invoice_CurrRate inv))
    {| Field := "Invoice.CurrRate";
       Code := ErrCodeRequiredField;
       Severity_ := SeverityError;
       Msg := Text "CurrRate is required" |}
  ++
  when (types.Decimal_IsZero (schema.Invoice_RefCurrRate inv))
    {| Field := "Invoice.RefCurrRate";
       Code := ErrCodeRequiredField;
       Severity_ := SeverityError;
       Msg := Text "RefCurrRate is required" |}
  ++
  validateParty "Invoice.AccountingSupplierParty.Party"
    (schema.AccountingSupplierParty_Party
       (schema.Invoice_AccountingSupplierParty inv)) opts
  ++
  match schema.Invoice_AccountingCustomerParty inv,
        schema.Invoice_AnonymousCustomerParty inv with
  | None, None =>
      when (negb (schema.Invoice_DocumentType inv =? 7)%Z)
        {| Field := "Invoice.AccountingCustomerParty";
           Code := ErrCodeRequiredField;
           Severity_ := SeverityError;
           Msg := Text "AccountingCustomerParty is required (or AnonymousCustomerParty for simplified tax documents)" |}
  | Some customer, _ =>
      validateParty "Invoice.AccountingCustomerParty.Party"
        (schema.AccountingCustomerParty_Party customer) opts
  | None, Some _ => []
  end
  ++
  when (length (schema.InvoiceLines_InvoiceLine
                  (schema.Invoice_InvoiceLines inv)) =? 0)%nat
    {| Field := "Invoice.InvoiceLines";
       Code := ErrCodeRequiredField;
       Severity_ := SeverityError;
       Msg := Text "at least one InvoiceLine is required" |}
  ++
  forRange (fun i line =>
              validateInvoiceLine
                (indexed "Invoice.InvoiceLines.InvoiceLine" i) line opts)
    (schema.InvoiceLines_InvoiceLine (schema.Invoice_InvoiceLines inv))
  ++
  when (length (schema.TaxTotal_TaxSubTotal (schema.Invoice_TaxTotal inv)) =? 0)%nat
    {| Field := "Invoice.TaxTotal.TaxSubTotal";
       Code := ErrCodeRequiredField;
       Severity_ := severity;
       Msg := Text "at least one TaxSubTotal is expected" |}
  ++
  when (types.Decimal_IsZero
          (schema.LegalMonetaryTotal_TaxExclusiveAmount
             (schema.Invoice_LegalMonetaryTotal inv))
        && types.Decimal_IsZero
             (schema.LegalMonetaryTotal_TaxInclusiveAmount
                (schema.Invoice_LegalMonetaryTotal inv)))
    {| Field := "Invoice.LegalMonetaryTotal";
       Code := ErrCodeRequiredField;
       Severity_ := severity;
       Msg := Text "TaxExclusiveAmount or TaxInclusiveAmount should be set" |}.

Definition validateOriginalDocumentLink (inv : schema.Invoice)
    (opts : ValidateOptions) : ValidationErrors :=
  if (schema.Invoice_DocumentType inv =? 2)%Z
     || (schema.Invoice_DocumentType inv =? 3)%Z
     || (schema.Invoice_DocumentType inv =? 6)%Z
  then
    when (match schema.Invoice_OriginalDocumentReferences inv with
          | None => true
          | Some refs =>
              (length (schema.OriginalDocumentReferences_OriginalDocumentReference refs)
               =? 0)%nat
          end)
      {| Field := "Invoice.OriginalDocumentReferences";
         Code := ErrCodeRequiredField;
         Severity_ := SeverityError;
         Msg := Sprintf "DocumentType %d requires OriginalDocumentReferences with at least one OriginalDocumentReference"
                  [ArgInt (schema.Invoice_DocumentType inv)] |}
  else [].

Definition validateForeignCurrencyFieldsPresent (inv : schema.Invoice) (opts : ValidateOptions)
  : ValidationErrors :=
  let severity := severityOf opts in
  let lmt := schema.Invoice_LegalMonetaryTotal inv in
  when (negb (types.Decimal_IsZero (schema.LegalMonetaryTotal_TaxExclusiveAmount lmt))
            && types.Decimal_IsZero (schema.LegalMonetaryTotal_TaxExclusiveAmountCurr lmt))
        {| Field := "Invoice.LegalMonetaryTotal.TaxExclusiveAmountCurr";
           Code := ErrCodeRequiredField;
           Severity_ := severity;
           Msg := Text "TaxExclusiveAmountCurr required when ForeignCurrencyCode is set" |}
  ++
  when (negb (types.Decimal_IsZero (schema.LegalMonetaryTotal_TaxInclusiveAmount lmt))
            && types.Decimal_IsZero (schema.LegalMonetaryTotal_TaxInclusiveAmountCurr lmt))
        {| Field := "Invoice.LegalMonetaryTotal.TaxInclusiveAmountCurr";
           Code := ErrCodeRequiredField;
           Severity_ := severity;
           Msg := Text "TaxInclusiveAmountCurr required when ForeignCurrencyCode is set" |}
  ++
  when (negb (types.Decimal_IsZero (schema.LegalMonetaryTotal_PayableAmount lmt))
            && types.Decimal_IsZero (schema.LegalMonetaryTotal_PayableAmountCurr lmt))
        {| Field := "Invoice.LegalMonetaryTotal.PayableAmountCurr";
           Code := ErrCodeRequiredField;
           Severity_ := severity;
           Msg := Text "PayableAmountCurr required when ForeignCurrencyCode is set" |}
  ++
  when (negb (types.Decimal_IsZero (schema.LegalMonetaryTotal_PayableRoundingAmount lmt))
            && types.Decimal_IsZero (schema.LegalMonetaryTotal_PayableRoundingAmountCurr lmt))
        {| Field := "Invoice.LegalMonetaryTotal.PayableRoundingAmountCurr";
           Code := ErrCodeRequiredField;
           Severity_ := severity;
           Msg := Text "PayableRoundingAmountCurr required when ForeignCurrencyCode is set" |}
  ++
  when (negb (types.Decimal_IsZero (schema.LegalMonetaryTotal_PaidDepositsAmount lmt))
            && types.Decimal_IsZero (schema.LegalMonetaryTotal_PaidDepositsAmountCurr lmt))
        {| Field := "Invoice.LegalMonetaryTotal.PaidDepositsAmountCurr";
           Code := ErrCodeRequiredField;
           Severity_ := severity;
           Msg := Text "PaidDepositsAmountCurr required when ForeignCurrencyCode is set" |}
  ++
  when (negb (types.Decimal_IsZero (schema.LegalMonetaryTotal_AlreadyClaimedTaxExclusiveAmount lmt))
            && types.Decimal_IsZero (schema.LegalMonetaryTotal_AlreadyClaimedTaxExclusiveAmountCurr lmt))
        {| Field := "Invoice.LegalMonetaryTotal.AlreadyClaimedTaxExclusiveAmountCurr";
           Code := ErrCodeRequiredField;
           Severity_ := severity;
           Msg := Text "AlreadyClaimedTaxExclusiveAmountCurr required when ForeignCurrencyCode is set" |}
  ++
  when (negb (types.Decimal_IsZero (schema.LegalMonetaryTotal_AlreadyClaimedTaxInclusiveAmount lmt))
            && types.Decimal_IsZero (schema.LegalMonetaryTotal_AlreadyClaimedTaxInclusiveAmountCurr lmt))
        {| Field := "Invoice.LegalMonetaryTotal.AlreadyClaimedTaxInclusiveAmountCurr";
           Code := ErrCodeRequiredField;
           Severity_ := severity;
           Msg := Text "AlreadyClaimedTaxInclusiveAmountCurr required when ForeignCurrencyCode is set" |}
  ++
  when (negb (types.Decimal_IsZero (schema.LegalMonetaryTotal_DifferenceTaxExclusiveAmount lmt))
            && types.Decimal_IsZero (schema.LegalMonetaryTotal_DifferenceTaxExclusiveAmountCurr lmt))
        {| Field := "Invoice.LegalMonetaryTotal.DifferenceTaxExclusiveAmountCurr";
           Code := ErrCodeRequiredField;
           Severity_ := severity;
           Msg := Text "DifferenceTaxExclusiveAmountCurr required when ForeignCurrencyCode is set" |}
  ++
  when (negb (types.Decimal_IsZero (schema.LegalMonetaryTotal_DifferenceTaxInclusiveAmount lmt))
            && types.Decimal_IsZero (schema.LegalMonetaryTotal_DifferenceTaxInclusiveAmountCurr lmt))
        {| Field := "Invoice.LegalMonetaryTotal.DifferenceTaxInclusiveAmountCurr";
           Code := ErrCodeRequiredField;
           Severity_ := severity;
           Msg := Text "DifferenceTaxInclusiveAmountCurr required when ForeignCurrencyCode is set" |}
  ++
  when (negb (types.Decimal_IsZero (schema.TaxTotal_TaxAmount (schema.Invoice_TaxTotal inv)))
            && types.Decimal_IsZero (schema.TaxTotal_TaxAmountCurr (schema.Invoice_TaxTotal inv)))
        {| Field := "Invoice.TaxTotal.TaxAmountCurr";
           Code := ErrCodeRequiredField;
           Severity_ := severity;
           Msg := Text "TaxAmountCurr required when ForeignCurrencyCode is set" |}
  ++
  forRange (fun i sub =>
              let path := indexed "Invoice.TaxTotal.TaxSubTotal" i in
              when (negb (types.Decimal_IsZero (schema.TaxSubTotal_TaxableAmount sub))
                        && types.Decimal_IsZero (schema.TaxSubTotal_TaxableAmountCurr sub))
                    {| Field := path +:+ ".TaxableAmountCurr";
                       Code := ErrCodeRequiredField;
                       Severity_ := severity;
                       Msg := Text "TaxableAmountCurr required when ForeignCurrencyCode is set" |}
              ++
              when (negb (types.Decimal_IsZero (schema.TaxSubTotal_TaxAmount sub))
                        && types.Decimal_IsZero (schema.TaxSubTotal_TaxAmountCurr sub))
                    {| Field := path +:+ ".TaxAmountCurr";
                       Code := ErrCodeRequiredField;
                       Severity_ := severity;
                       Msg := Text "TaxAmountCurr required when ForeignCurrencyCode is set" |}
              ++
              when (negb (types.Decimal_IsZero (schema.TaxSubTotal_TaxInclusiveAmount sub))
                        && types.Decimal_IsZero (schema.TaxSubTotal_TaxInclusiveAmountCurr sub))
                    {| Field := path +:+ ".TaxInclusiveAmountCurr";
                       Code := ErrCodeRequiredField;
                       Severity_ := severity;
                       Msg := Text "TaxInclusiveAmountCurr required when ForeignCurrencyCode is set" |}
              ++
              when (negb (types.Decimal_IsZero (schema.TaxSubTotal_AlreadyClaimedTaxableAmount sub))
                        && types.Decimal_IsZero (schema.TaxSubTotal_AlreadyClaimedTaxableAmountCurr sub))
                    {| Field := path +:+ ".AlreadyClaimedTaxableAmountCurr";
                       Code := ErrCodeRequiredField;
                       Severity_ := severity;
                       Msg := Text "AlreadyClaimedTaxableAmountCurr required when ForeignCurrencyCode is set" |}
              ++
              when (negb (types.Decimal_IsZero (schema.TaxSubTotal_AlreadyClaimedTaxAmount sub))
                        && types.Decimal_IsZero (schema.TaxSubTotal_AlreadyClaimedTaxAmountCurr sub))
                    {| Field := path +:+ ".AlreadyClaimedTaxAmountCurr";
                       Code := ErrCodeRequiredField;
                       Severity_ := severity;
                       Msg := Text "AlreadyClaimedTaxAmountCurr required when ForeignCurrencyCode is set" |}
              ++
              when (negb (types.Decimal_IsZero (schema.TaxSubTotal_AlreadyClaimedTaxInclusiveAmount sub))
                        && types.Decimal_IsZero (schema.TaxSubTotal_AlreadyClaimedTaxInclusiveAmountCurr sub))
                    {| Field := path +:+ ".AlreadyClaimedTaxInclusiveAmountCurr";
                       Code := ErrCodeRequiredField;
                       Severity_ := severity;
                       Msg := Text "AlreadyClaimedTaxInclusiveAmountCurr required when ForeignCurrencyCode is set" |}
              ++
              when (negb (types.Decimal_IsZero (schema.TaxSubTotal_DifferenceTaxableAmount sub))
                        && types.Decimal_IsZero (schema.TaxSubTotal_DifferenceTaxableAmountCurr sub))
                    {| Field := path +:+ ".DifferenceTaxableAmountCurr";
                       Code := ErrCodeRequiredField;
                       Severity_ := severity;
                       Msg := Text "DifferenceTaxableAmountCurr required when ForeignCurrencyCode is set" |}
              ++
              when (negb (types.Decimal_IsZero (schema.TaxSubTotal_DifferenceTaxAmount sub))
                        && types.Decimal_IsZero (schema.TaxSubTotal_DifferenceTaxAmountCurr sub))
                    {| Field := path +:+ ".DifferenceTaxAmountCurr";
                       Code := ErrCodeRequiredField;
                       Severity_ := severity;
                       Msg := Text "DifferenceTaxAmountCurr required when ForeignCurrencyCode is set" |}
              ++
              when (negb (types.Decimal_IsZero (schema.TaxSubTotal_DifferenceTaxInclusiveAmount sub))
                        && types.Decimal_IsZero (schema.TaxSubTotal_DifferenceTaxInclusiveAmountCurr sub))
                    {| Field := path +:+ ".DifferenceTaxInclusiveAmountCurr";
                       Code := ErrCodeRequiredField;
                       Severity_ := severity;
                       Msg := Text "DifferenceTaxInclusiveAmountCurr required when ForeignCurrencyCode is set" |})
    (schema.TaxTotal_TaxSubTotal (schema.Invoice_TaxTotal inv))
  ++
  forRange (fun i line =>
              let path := indexed "Invoice.InvoiceLines.InvoiceLine" i in
              when (negb (types.Decimal_IsZero (schema.InvoiceLine_LineExtensionAmount line))
                        && types.Decimal_IsZero (schema.InvoiceLine_LineExtensionAmountCurr line))
                    {| Field := path +:+ ".LineExtensionAmountCurr";
                       Code := ErrCodeRequiredField;
                       Severity_ := severity;
                       Msg := Text "LineExtensionAmountCurr required when ForeignCurrencyCode is set" |}
              ++
              when (negb (types.Decimal_IsZero (schema.InvoiceLine_LineExtensionAmountTaxInclusive line))
                        && types.Decimal_IsZero (schema.InvoiceLine_LineExtensionAmountTaxInclusiveCurr line))
                    {| Field := path +:+ ".LineExtensionAmountTaxInclusiveCurr";
                       Code := ErrCodeRequiredField;
                       Severity_ := severity;
                       Msg := Text "LineExtensionAmountTaxInclusiveCurr required when ForeignCurrencyCode is set" |})
    (schema.InvoiceLines_InvoiceLine (schema.Invoice_InvoiceLines inv))
  ++
  match schema.Invoice_NonTaxedDeposits inv with
  | Some deposits =>
      forRange (fun i dep =>
                  let path := indexed "Invoice.NonTaxedDeposits.NonTaxedDeposit" i in
                  when (negb (types.Decimal_IsZero (schema.NonTaxedDeposit_DepositAmount dep))
                            && types.Decimal_IsZero (schema.NonTaxedDeposit_DepositAmountCurr dep))
                        {| Field := path +:+ ".DepositAmountCurr";
                           Code := ErrCodeRequiredField;
                           Severity_ := severity;
                           Msg := Text "DepositAmountCurr required when ForeignCurrencyCode is set" |})
        (schema.NonTaxedDeposits_NonTaxedDeposit deposits)
  | None => []
  end
  ++
  match schema.Invoice_TaxedDeposits inv with
  | Some deposits =>
      forRange (fun i dep =>
                  let path := indexed "Invoice.TaxedDeposits.TaxedDeposit" i in
                  when (negb (types.Decimal_IsZero (schema.TaxedDeposit_TaxableDepositAmount dep))
                            && types.Decimal_IsZero (schema.TaxedDeposit_TaxableDepositAmountCurr dep))
                        {| Field := path +:+ ".TaxableDepositAmountCurr";
                           Code := ErrCodeRequiredField;
                           Severity_ := severity;
                           Msg := Text "TaxableDepositAmountCurr required when ForeignCurrencyCode is set" |}
                  ++
                  when (negb (types.Decimal_IsZero (schema.TaxedDeposit_TaxInclusiveDepositAmount dep))
                            && types.Decimal_IsZero (schema.TaxedDeposit_TaxInclusiveDepositAmountCurr dep))
                        {| Field := path +:+ ".TaxInclusiveDepositAmountCurr";
                           Code := ErrCodeRequiredField;
                           Severity_ := severity;
                           Msg := Text "TaxInclusiveDepositAmountCurr required when ForeignCurrencyCode is set" |})
        (schema.TaxedDeposits_TaxedDeposit deposits)
  | None => []
  end.

Definition validateNoForeignCurrencyFields (inv : schema.Invoice) (opts : ValidateOptions)
  : ValidationErrors :=
  let severity := severityOf opts in
  let lmt := schema.Invoice_LegalMonetaryTotal inv in
  when (negb (types.Decimal_IsZero (schema.LegalMonetaryTotal_TaxExclusiveAmountCurr lmt)))
        {| Field := "Invoice.LegalMonetaryTotal.TaxExclusiveAmountCurr";
           Code := ErrCodeSchemaViolation;
           Severity_ := severity;
           Msg := Text "TaxExclusiveAmountCurr must not be set without ForeignCurrencyCode" |}
  ++
  when (negb (types.Decimal_IsZero (schema.LegalMonetaryTotal_TaxInclusiveAmountCurr lmt)))
        {| Field := "Invoice.LegalMonetaryTotal.TaxInclusiveAmountCurr";
           Code := ErrCodeSchemaViolation;
           Severity_ := severity;
           Msg := Text "TaxInclusiveAmountCurr must not be set without ForeignCurrencyCode" |}
  ++
  when (negb (types.Decimal_IsZero (schema.LegalMonetaryTotal_PayableAmountCurr lmt)))
        {| Field := "Invoice.LegalMonetaryTotal.PayableAmountCurr";
           Code := ErrCodeSchemaViolation;
           Severity_ := severity;
           Msg := Text "PayableAmountCurr must not be set without ForeignCurrencyCode" |}
  ++
  when (negb (types.Decimal_IsZero (schema.LegalMonetaryTotal_PayableRoundingAmountCurr lmt)))
        {| Field := "Invoice.LegalMonetaryTotal.PayableRoundingAmountCurr";
           Code := ErrCodeSchemaViolation;
           Severity_ := severity;
           Msg := Text "PayableRoundingAmountCurr must not be set without ForeignCurrencyCode" |}
  ++
  when (negb (types.Decimal_IsZero (schema.LegalMonetaryTotal_PaidDepositsAmountCurr lmt)))
        {| Field := "Invoice.LegalMonetaryTotal.PaidDepositsAmountCurr";
           Code := ErrCodeSchemaViolation;
           Severity_ := severity;
           Msg := Text "PaidDepositsAmountCurr must not be set without ForeignCurrencyCode" |}
  ++
  when (negb (types.Decimal_IsZero (schema.LegalMonetaryTotal_AlreadyClaimedTaxExclusiveAmountCurr lmt)))
        {| Field := "Invoice.LegalMonetaryTotal.AlreadyClaimedTaxExclusiveAmountCurr";
           Code := ErrCodeSchemaViolation;
           Severity_ := severity;
           Msg := Text "AlreadyClaimedTaxExclusiveAmountCurr must not be set without ForeignCurrencyCode" |}
  ++
  when (negb (types.Decimal_IsZero (schema.LegalMonetaryTotal_AlreadyClaimedTaxInclusiveAmountCurr lmt)))
        {| Field := "Invoice.LegalMonetaryTotal.AlreadyClaimedTaxInclusiveAmountCurr";
           Code := ErrCodeSchemaViolation;
           Severity_ := severity;
           Msg := Text "AlreadyClaimedTaxInclusiveAmountCurr must not be set without ForeignCurrencyCode" |}
  ++
  when (negb (types.Decimal_IsZero (schema.LegalMonetaryTotal_DifferenceTaxExclusiveAmountCurr lmt)))
        {| Field := "Invoice.LegalMonetaryTotal.DifferenceTaxExclusiveAmountCurr";
           Code := ErrCodeSchemaViolation;
           Severity_ := severity;
           Msg := Text "DifferenceTaxExclusiveAmountCurr must not be set without ForeignCurrencyCode" |}
  ++
  when (negb (types.Decimal_IsZero (schema.LegalMonetaryTotal_DifferenceTaxInclusiveAmountCurr lmt)))
        {| Field := "Invoice.LegalMonetaryTotal.DifferenceTaxInclusiveAmountCurr";
           Code := ErrCodeSchemaViolation;
           Severity_ := severity;
           Msg := Text "DifferenceTaxInclusiveAmountCurr must not be set without ForeignCurrencyCode" |}
  ++
  when (negb (types.Decimal_IsZero (schema.TaxTotal_TaxAmountCurr (schema.Invoice_TaxTotal inv))))
        {| Field := "Invoice.TaxTotal.TaxAmountCurr";
           Code := ErrCodeSchemaViolation;
           Severity_ := severity;
           Msg := Text "TaxAmountCurr must not be set without ForeignCurrencyCode" |}
  ++
  forRange (fun i sub =>
              let path := indexed "Invoice.TaxTotal.TaxSubTotal" i in
              when (negb (types.Decimal_IsZero (schema.TaxSubTotal_TaxableAmountCurr sub)))
                    {| Field := path +:+ ".TaxableAmountCurr";
                       Code := ErrCodeSchemaViolation;
                       Severity_ := severity;
                       Msg := Text "TaxableAmountCurr must not be set without ForeignCurrencyCode" |}
              ++
              when (negb (types.Decimal_IsZero (schema.TaxSubTotal_TaxAmountCurr sub)))
                    {| Field := path +:+ ".TaxAmountCurr";
                       Code := ErrCodeSchemaViolation;
                       Severity_ := severity;
                       Msg := Text "TaxAmountCurr must not be set without ForeignCurrencyCode" |}
              ++
              when (negb (types.Decimal_IsZero (schema.TaxSubTotal_TaxInclusiveAmountCurr sub)))
                    {| Field := path +:+ ".TaxInclusiveAmountCurr";
                       Code := ErrCodeSchemaViolation;
                       Severity_ := severity;
                       Msg := Text "TaxInclusiveAmountCurr must not be set without ForeignCurrencyCode" |}
              ++
              when (negb (types.Decimal_IsZero (schema.TaxSubTotal_AlreadyClaimedTaxableAmountCurr sub)))
                    {| Field := path +:+ ".AlreadyClaimedTaxableAmountCurr";
                       Code := ErrCodeSchemaViolation;
                       Severity_ := severity;
                       Msg := Text "AlreadyClaimedTaxableAmountCurr must not be set without ForeignCurrencyCode" |}
              ++
              when (negb (types.Decimal_IsZero (schema.TaxSubTotal_AlreadyClaimedTaxAmountCurr sub)))
                    {| Field := path +:+ ".AlreadyClaimedTaxAmountCurr";
                       Code := ErrCodeSchemaViolation;
                       Severity_ := severity;
                       Msg := Text "AlreadyClaimedTaxAmountCurr must not be set without ForeignCurrencyCode" |}
              ++
              when (negb (types.Decimal_IsZero (schema.TaxSubTotal_AlreadyClaimedTaxInclusiveAmountCurr sub)))
                    {| Field := path +:+ ".AlreadyClaimedTaxInclusiveAmountCurr";
                       Code := ErrCodeSchemaViolation;
                       Severity_ := severity;
                       Msg := Text "AlreadyClaimedTaxInclusiveAmountCurr must not be set without ForeignCurrencyCode" |}
              ++
              when (negb (types.Decimal_IsZero (schema.TaxSubTotal_DifferenceTaxableAmountCurr sub)))
                    {| Field := path +:+ ".DifferenceTaxableAmountCurr";
                       Code := ErrCodeSchemaViolation;
                       Severity_ := severity;
                       Msg := Text "DifferenceTaxableAmountCurr must not be set without ForeignCurrencyCode" |}
              ++
              when (negb (types.Decimal_IsZero (schema.TaxSubTotal_DifferenceTaxAmountCurr sub)))
                    {| Field := path +:+ ".DifferenceTaxAmountCurr";
                       Code := ErrCodeSchemaViolation;
                       Severity_ := severity;
                       Msg := Text "DifferenceTaxAmountCurr must not be set without ForeignCurrencyCode" |}
              ++
              when (negb (types.Decimal_IsZero (schema.TaxSubTotal_DifferenceTaxInclusiveAmountCurr sub)))
                    {| Field := path +:+ ".DifferenceTaxInclusiveAmountCurr";
                       Code := ErrCodeSchemaViolation;
                       Severity_ := severity;
                       Msg := Text "DifferenceTaxInclusiveAmountCurr must not be set without ForeignCurrencyCode" |})
    (schema.TaxTotal_TaxSubTotal (schema.Invoice_TaxTotal inv))
  ++
  forRange (fun i line =>
              let path := indexed "Invoice.InvoiceLines.InvoiceLine" i in
              when (negb (types.Decimal_IsZero (schema.InvoiceLine_LineExtensionAmountCurr line)))
                    {| Field := path +:+ ".LineExtensionAmountCurr";
                       Code := ErrCodeSchemaViolation;
                       Severity_ := severity;
                       Msg := Text "LineExtensionAmountCurr must not be set without ForeignCurrencyCode" |}
              ++
              when (negb (types.Decimal_IsZero (schema.InvoiceLine_LineExtensionAmountTaxInclusiveCurr line)))
                    {| Field := path +:+ ".LineExtensionAmountTaxInclusiveCurr";
                       Code := ErrCodeSchemaViolation;
                       Severity_ := severity;
                       Msg := Text "LineExtensionAmountTaxInclusiveCurr must not be set without ForeignCurrencyCode" |})
    (schema.InvoiceLines_InvoiceLine (schema.Invoice_InvoiceLines inv))
  ++
  match schema.Invoice_NonTaxedDeposits inv with
  | Some deposits =>
      forRange (fun i dep =>
                  let path := indexed "Invoice.NonTaxedDeposits.NonTaxedDeposit" i in
                  when (negb (types.Decimal_IsZero (schema.NonTaxedDeposit_DepositAmountCurr dep)))
                        {| Field := path +:+ ".DepositAmountCurr";
                           Code := ErrCodeSchemaViolation;
                           Severity_ := severity;
                           Msg := Text "DepositAmountCurr must not be set without ForeignCurrencyCode" |})
        (schema.NonTaxedDeposits_NonTaxedDeposit deposits)
  | None => []
  end
  ++
  match schema.Invoice_TaxedDeposits inv with
  | Some deposits =>
      forRange (fun i dep =>
                  let path := indexed "Invoice.TaxedDeposits.TaxedDeposit" i in
                  when (negb (types.Decimal_IsZero (schema.TaxedDeposit_TaxableDepositAmountCurr dep)))
                        {| Field := path +:+ ".TaxableDepositAmountCurr";
                           Code := ErrCodeSchemaViolation;
                           Severity_ := severity;
                           Msg := Text "TaxableDepositAmountCurr must not be set without ForeignCurrencyCode" |}
                  ++
                  when (negb (types.Decimal_IsZero (schema.TaxedDeposit_TaxInclusiveDepositAmountCurr dep)))
                        {| Field := path +:+ ".TaxInclusiveDepositAmountCurr";
                           Code := ErrCodeSchemaViolation;
                           Severity_ := severity;
                           Msg := Text "TaxInclusiveDepositAmountCurr must not be set without ForeignCurrencyCode" |})
        (schema.TaxedDeposits_TaxedDeposit deposits)
  | None => []
  end.

Definition validateCurrencyConsistency (inv : schema.Invoice)
    (opts : ValidateOptions) : ValidationErrors :=
  let severity := severityOf opts in
  let hasForeignCurrency :=
    negb (String.eqb (schema.Invoice_ForeignCurrencyCode inv) "") in
  if hasForeignCurrency then
    when (String.eqb (schema.Invoice_ForeignCurrencyCode inv)
                     (schema.Invoice_LocalCurrencyCode inv))
      {| Field := "Invoice.ForeignCurrencyCode";
         Code := ErrCodeSchemaViolation;
         Severity_ := SeverityError;
         Msg := Text "ForeignCurrencyCode must differ from LocalCurrencyCode" |}
    ++
    validateForeignCurrencyFieldsPresent inv opts
  else
    let one := default "" (types.MustDecimal "1") in
    when (negb (types.Decimal_IsZero (schema.Invoice_CurrRate inv))
          && negb (types.Decimal_Equal (schema.Invoice_CurrRate inv) one))
      {| Field := "Invoice.CurrRate";
         Code := ErrCodeSchemaViolation;
         Severity_ := severity;
         Msg := Sprintf "CurrRate must be 1 when no ForeignCurrencyCode, got %s"
                  [ArgString (types.Decimal_String (schema.Invoice_CurrRate inv))] |}
    ++
    when (negb (types.Decimal_IsZero (schema.Invoice_RefCurrRate inv))
          && negb (types.Decimal_Equal (schema.Invoice_RefCurrRate inv) one))
      {| Field := "Invoice.RefCurrRate";
         Code := ErrCodeSchemaViolation;
         Severity_ := severity;
         Msg := Sprintf "RefCurrRate must be 1 when no ForeignCurrencyCode, got %s"
                  [ArgString (types.Decimal_String (schema.Invoice_RefCurrRate inv))] |}
    ++
    validateNoForeignCurrencyFields inv opts.

Definition validateVATConsistency (inv : schema.Invoice)
    (opts : ValidateOptions) : ValidationErrors :=
  if negb (types.Bool_Bool (schema.Invoice_VATApplicable inv)) then
    forRange (fun i line =>
                when (types.Bool_Bool
                        (schema.ClassifiedTaxCategory_VATApplicable
                           (schema.InvoiceLine_ClassifiedTaxCategory line)))
                  {| Field := indexed "Invoice.InvoiceLines.InvoiceLine" i
                              +:+ ".ClassifiedTaxCategory.VATApplicable";
                     Code := ErrCodeVATMismatch;
                     Severity_ := SeverityError;
                     Msg := Text "Invoice VATApplicable is false, but line item has VATApplicable=true" |})
      (schema.InvoiceLines_InvoiceLine (schema.Invoice_InvoiceLines inv))
  else [].

Definition isNil {A : Type} (p : option A) : bool :=
  match p with None => true | Some _ => false end.

Definition validateItemIdentificationHierarchy (inv : schema.Invoice)
    (opts : ValidateOptions) : ValidationErrors :=
  let severity := severityOf opts in
  forRange (fun i line =>
              let path := indexed "Invoice.InvoiceLines.InvoiceLine" i +:+ ".Item" in
              let item := schema.InvoiceLine_Item line in
              when (negb (isNil (schema.Item_SecondarySellersItemIdentification item))
                    && isNil (schema.Item_SellersItemIdentification item))
                {| Field := path +:+ ".SecondarySellersItemIdentification";
                   Code := ErrCodeSchemaViolation;
                   Severity_ := severity;
                   Msg := Text "SecondarySellersItemIdentification requires SellersItemIdentification" |}
              ++
              (if negb (isNil (schema.Item_TertiarySellersItemIdentification item))
               then
                 when (isNil (schema.Item_SellersItemIdentification item)
                       || isNil (schema.Item_SecondarySellersItemIdentification item))
                   {| Field := path +:+ ".TertiarySellersItemIdentification";
                      Code := ErrCodeSchemaViolation;
                      Severity_ := severity;
                      Msg := Text "TertiarySellersItemIdentification requires both SellersItemIdentification and SecondarySellersItemIdentification" |}
               else []))
    (schema.InvoiceLines_InvoiceLine (schema.Invoice_InvoiceLines inv)).

(** The state of the loop over the batches of one line. *)
Record batchState : Type := {
  batchQuantitySum : float64.t;
  seenUnitCodes : list string;
  batchErrs : ValidationErrors
}.

(** One turn of the loop over [line.Item.StoreBatches.StoreBatch]. *)
Definition batchStep (severity : Severity) (path lineUnitCode : string)
    (st : batchState) (j : nat) (batch : schema.StoreBatch) : batchState :=
  let batchPath := indexed (path +:+ ".Item.StoreBatches.StoreBatch") j in
  let batchUnitCode := schema.Quantity_UnitCode (schema.StoreBatch_Quantity batch) in
  let seen :=
    if negb (String.eqb batchUnitCode "") then
      let found := existsb (fun uc => String.eqb uc batchUnitCode) (seenUnitCodes st) in
      if negb found then seenUnitCodes st ++ [batchUnitCode]
      else seenUnitCodes st
    else seenUnitCodes st in
  let errs :=
    batchErrs st ++
    when (negb (String.eqb lineUnitCode "")
          && negb (String.eqb batchUnitCode "")
          && negb (String.eqb batchUnitCode lineUnitCode))
      {| Field := batchPath +:+ ".Quantity";
         Code := ErrCodeSchemaViolation;
         Severity_ := severity;
         Msg := Sprintf "StoreBatch unitCode %q must match InvoicedQuantity unitCode %q"
                  [ArgString batchUnitCode; ArgString lineUnitCode] |} in
  {| batchQuantitySum :=
       float64.add (batchQuantitySum st)
         (types.Decimal_Float64
            (schema.Quantity_Value (schema.StoreBatch_Quantity batch)));
     seenUnitCodes := seen;
     batchErrs := errs |}.

Fixpoint batchLoop (severity : Severity) (path lineUnitCode : string)
    (st : batchState) (j : nat) (batches : list schema.StoreBatch) : batchState :=
  match batches with
  | [] => st
  | batch :: rest =>
      batchLoop severity path lineUnitCode
        (batchStep severity path lineUnitCode st j batch) (S j) rest
  end.

(** The constant [0.0001] as a float64. *)
Definition storeBatchTolerance : float64.t := float64.of_decimal false 1 (-4).

(** The batches of a line, when the loop does not skip it. *)
Definition storeBatchesOf (line : schema.InvoiceLine) : list schema.StoreBatch :=
  match schema.Item_StoreBatches (schema.InvoiceLine_Item line) with
  | None => []
  | Some b => schema.StoreBatches_StoreBatch b
  end.

Definition validateStoreBatches (inv : schema.Invoice) (opts : ValidateOptions)
  : ValidationErrors :=
  let severity := severityOf opts in
  forRange (fun i line =>
    if isNil (schema.Item_StoreBatches (schema.InvoiceLine_Item line))
       || (length (storeBatchesOf line) =? 0)%nat
    then []
    else
      let path := indexed "Invoice.InvoiceLines.InvoiceLine" i in
      let lineUnitCode :=
        schema.Quantity_UnitCode (schema.InvoiceLine_InvoicedQuantity line) in
      let st :=
        batchLoop severity path lineUnitCode
          {| batchQuantitySum := float64.zero; seenUnitCodes := [];
             batchErrs := [] |}
          0 (storeBatchesOf line) in
      let invoicedQty :=
        types.Decimal_Float64
          (schema.Quantity_Value (schema.InvoiceLine_InvoicedQuantity line)) in
      let tolerance := storeBatchTolerance in
      let diff := float64.sub (batchQuantitySum st) invoicedQty in
      batchErrs st
      ++
      when (1 <? length (seenUnitCodes st))%nat
        {| Field := path +:+ ".Item.StoreBatches";
           Code := ErrCodeSchemaViolation;
           Severity_ := severity;
           Msg := Sprintf "All StoreBatch Quantity unitCodes must be the same, found: %v"
                    [ArgStrings (seenUnitCodes st)] |}
      ++
      when (float64.gtb diff tolerance
            || float64.ltb diff (float64.neg tolerance))
        {| Field := path +:+ ".Item.StoreBatches";
           Code := ErrCodeTotalMismatch;
           Severity_ := severity;
           Msg := Sprintf "StoreBatch Quantity sum (%.4f) must equal InvoicedQuantity (%.4f)"
                    [ArgFloat (batchQuantitySum st); ArgFloat invoicedQty] |})
    (schema.InvoiceLines_InvoiceLine (schema.Invoice_InvoiceLines inv)).

Definition validateSemantic (inv : schema.Invoice) (opts : ValidateOptions)
  : ValidationErrors :=
  validateOriginalDocumentLink inv opts
  ++ validateCurrencyConsistency inv opts
  ++ validateVATConsistency inv opts
  ++ validateItemIdentificationHierarchy inv opts
  ++ validateStoreBatches inv opts.

Definition ValidateInvoiceWithOptions (inv : schema.Invoice)
    (opts : ValidateOptions) : ValidationErrors :=
  validateStructural inv opts ++ validateSemantic inv opts.

Definition ValidateInvoice (inv : schema.Invoice) : ValidationErrors :=
  ValidateInvoiceWithOptions inv DefaultValidateOptions.

Definition validateCommonDocumentStructural (doc : schema.CommonDocument)
    (opts : ValidateOptions) : ValidationErrors :=
  when (String.eqb (schema.CommonDocument_Version doc) "")
    {| Field := "CommonDocument.@version";
       Code := ErrCodeRequiredField;
       Severity_ := SeverityError;
       Msg := Text "version attribute is required" |}
  ++
  when (String.eqb (schema.CommonDocument_SubDocumentType doc) "")
    {| Field := "CommonDocument.SubDocumentType";
       Code := ErrCodeRequiredField;
       Severity_ := SeverityError;
       Msg := Text "SubDocumentType is required" |}
  ++
  when (String.eqb (schema.CommonDocument_SubDocumentTypeOrigin doc) "")
    {| Field := "CommonDocument.SubDocumentTypeOrigin";
       Code := ErrCodeRequiredField;
       Severity_ := SeverityError;
       Msg := Text "SubDocumentTypeOrigin is required" |}
  ++
  when (String.eqb (schema.CommonDocument_ID doc) "")
    {| Field := "CommonDocument.ID";
       Code := ErrCodeRequiredField;
       Severity_ := SeverityError;
       Msg := Text "ID is required" |}
  ++
  when (types.UUID_IsZero (schema.CommonDocument_UUID doc))
    {| Field := "CommonDocument.UUID";
       Code := ErrCodeRequiredField;
       Severity_ := SeverityError;
       Msg := Text "UUID is required" |}
  ++
  when (types.Date_IsZero (schema.CommonDocument_IssueDate doc))
    {| Field := "CommonDocument.IssueDate";
       Code := ErrCodeRequiredField;
       Severity_ := SeverityError;
       Msg := Text "IssueDate is required" |}
  ++
  validateParty "CommonDocument.AccountingSupplierParty.Party"
    (schema.AccountingSupplierParty_Party
       (schema.CommonDocument_AccountingSupplierParty doc)) opts
  ++
  validateParty "CommonDocument.AccountingCustomerParty.Party"
    (schema.AccountingCustomerParty_Party
       (schema.CommonDocument_AccountingCustomerParty doc)) opts.

Definition ValidateCommonDocumentWithOptions (doc : schema.CommonDocument)
    (opts : ValidateOptions) : ValidationErrors :=
  validateCommonDocumentStructural doc opts.

Definition ValidateCommonDocument (doc : schema.CommonDocument)
  : ValidationErrors :=
  ValidateCommonDocumentWithOptions doc DefaultValidateOptions.

(* ===================================================================== *)
(** * Sample documents *)
(* ===================================================================== *)

(** A header order reference that declares the identifier [id]. *)
Definition sampleOrderReference (id : string) : schema.OrderReference :=
  {| schema.OrderReference_ID := id;
     schema.OrderReference_SalesOrderID := "";
     schema.OrderReference_ExternalOrderID := "";
     schema.OrderReference_IssueDate := types.Date_zero;
     schema.OrderReference_ExternalOrderIssueDate := types.Date_zero;
     schema.OrderReference_UUID := "";
     schema.OrderReference_ISDS_ID := "";
     schema.OrderReference_FileReference := "";
     schema.OrderReference_ReferenceNumber := "" |}.

(** A store batch with the given quantity. *)
Definition sampleBatch (quantity : schema.Quantity) : schema.StoreBatch :=
  {| schema.StoreBatch_Name := "";
     schema.StoreBatch_Note := "";
     schema.StoreBatch_ExpirationDate := types.Date_zero;
     schema.StoreBatch_Specification := "";
     schema.StoreBatch_Quantity := quantity;
     schema.StoreBatch_BatchOrSerialNumber := "";
     schema.StoreBatch_SealSeriesID := "" |}.

(** An item with the given batches. *)
Definition sampleItem (storeBatches : option schema.StoreBatches) : schema.Item :=
  {| schema.Item_Description := "";
     schema.Item_CatalogueItemIdentification := None;
     schema.Item_SellersItemIdentification := None;
     schema.Item_SecondarySellersItemIdentification := None;
     schema.Item_TertiarySellersItemIdentification := None;
     schema.Item_BuyersItemIdentification := None;
     schema.Item_StoreBatches := storeBatches |}.

(** An invoice line with the given order reference, quantity and batches. *)
Definition sampleLine (orderReference : option schema.OrderLineReference) (invoicedQuantity : schema.Quantity)
    (storeBatches : option schema.StoreBatches) : schema.InvoiceLine :=
  {| schema.InvoiceLine_ID := "";
     schema.InvoiceLine_OrderReference := orderReference;
     schema.InvoiceLine_DeliveryNoteReference := None;
     schema.InvoiceLine_OriginalDocumentReference := None;
     schema.InvoiceLine_ContractReference := None;
     schema.InvoiceLine_EgovClassifier := "";
     schema.InvoiceLine_InvoicedQuantity := invoicedQuantity;
     schema.InvoiceLine_LineExtensionAmountCurr := "";
     schema.InvoiceLine_LineExtensionAmount := "";
     schema.InvoiceLine_LineExtensionAmountBeforeDiscount := "";
     schema.InvoiceLine_LineExtensionAmountTaxInclusiveCurr := "";
     schema.InvoiceLine_LineExtensionAmountTaxInclusive := "";
     schema.InvoiceLine_LineExtensionAmountTaxInclusiveBeforeDiscount := "";
     schema.InvoiceLine_LineExtensionTaxAmount := "";
     schema.InvoiceLine_UnitPrice := "";
     schema.InvoiceLine_UnitPriceTaxInclusive := "";
     schema.InvoiceLine_ClassifiedTaxCategory := schema.ClassifiedTaxCategory_zero;
     schema.InvoiceLine_Note := "";
     schema.InvoiceLine_VATNote := "";
     schema.InvoiceLine_Item := sampleItem storeBatches;
     schema.InvoiceLine_Extensions := None |}.

(** Totals with the given tax-exclusive amounts. *)
Definition sampleTotal (taxExclusiveAmount : types.Decimal) (taxExclusiveAmountCurr : types.Decimal) : schema.LegalMonetaryTotal :=
  {| schema.LegalMonetaryTotal_TaxExclusiveAmount := taxExclusiveAmount;
     schema.LegalMonetaryTotal_TaxExclusiveAmountCurr := taxExclusiveAmountCurr;
     schema.LegalMonetaryTotal_TaxInclusiveAmount := "";
     schema.LegalMonetaryTotal_TaxInclusiveAmountCurr := "";
     schema.LegalMonetaryTotal_AlreadyClaimedTaxExclusiveAmount := "";
     schema.LegalMonetaryTotal_AlreadyClaimedTaxExclusiveAmountCurr := "";
     schema.LegalMonetaryTotal_AlreadyClaimedTaxInclusiveAmount := "";
     schema.LegalMonetaryTotal_AlreadyClaimedTaxInclusiveAmountCurr := "";
     schema.LegalMonetaryTotal_DifferenceTaxExclusiveAmount := "";
     schema.LegalMonetaryTotal_DifferenceTaxExclusiveAmountCurr := "";
     schema.LegalMonetaryTotal_DifferenceTaxInclusiveAmount := "";
     schema.LegalMonetaryTotal_DifferenceTaxInclusiveAmountCurr := "";
     schema.LegalMonetaryTotal_PayableRoundingAmount := "";
     schema.LegalMonetaryTotal_PayableRoundingAmountCurr := "";
     schema.LegalMonetaryTotal_PaidDepositsAmount := "";
     schema.LegalMonetaryTotal_PaidDepositsAmountCurr := "";
     schema.LegalMonetaryTotal_PayableAmount := "";
     schema.LegalMonetaryTotal_PayableAmountCurr := "" |}.

(** An invoice with the given fields; every other field has its zero value. *)
Definition sampleInvoice (version : string) (documentType : Z) (foreignCurrencyCode : string) (orderReferences : option schema.OrderReferences) (invoiceLines : schema.InvoiceLines) (legalMonetaryTotal : schema.LegalMonetaryTotal) : schema.Invoice :=
  {| schema.Invoice_XMLName := xml.Name_zero;
     schema.Invoice_Version := version;
     schema.Invoice_DocumentType := documentType;
     schema.Invoice_SubDocumentType := "";
     schema.Invoice_SubDocumentTypeOrigin := "";
     schema.Invoice_TargetConsolidator := "";
     schema.Invoice_ClientOnTargetConsolidator := "";
     schema.Invoice_ClientBankAccount := "";
     schema.Invoice_ID := "";
     schema.Invoice_UUID := "";
     schema.Invoice_EgovFlag := false;
     schema.Invoice_ISDS_ID := "";
     schema.Invoice_FileReference := "";
     schema.Invoice_ReferenceNumber := "";
     schema.Invoice_EgovClassifiers := None;
     schema.Invoice_IssuingSystem := "";
     schema.Invoice_IssueDate := types.Date_zero;
     schema.Invoice_TaxPointDate := types.Date_zero;
     schema.Invoice_VATApplicable := false;
     schema.Invoice_ElectronicPossibilityAgreementReference := schema.Note_zero;
     schema.Invoice_Note := None;
     schema.Invoice_LocalCurrencyCode := "";
     schema.Invoice_ForeignCurrencyCode := foreignCurrencyCode;
     schema.Invoice_CurrRate := "";
     schema.Invoice_RefCurrRate := "";
     schema.Invoice_Extensions := None;
     schema.Invoice_AccountingSupplierParty := schema.AccountingSupplierParty_zero;
     schema.Invoice_SellerSupplierParty := None;
     schema.Invoice_AnonymousCustomerParty := None;
     schema.Invoice_AccountingCustomerParty := None;
     schema.Invoice_BuyerCustomerParty := None;
     schema.Invoice_OrderReferences := orderReferences;
     schema.Invoice_DeliveryNoteReferences := None;
     schema.Invoice_OriginalDocumentReferences := None;
     schema.Invoice_ContractReferences := None;
     schema.Invoice_Delivery := None;
     schema.Invoice_InvoiceLines := invoiceLines;
     schema.Invoice_NonTaxedDeposits := None;
     schema.Invoice_TaxedDeposits := None;
     schema.Invoice_TaxTotal := schema.TaxTotal_zero;
     schema.Invoice_LegalMonetaryTotal := legalMonetaryTotal;
     schema.Invoice_PaymentMeans := None;
     schema.Invoice_SupplementsList := None |}.

(** A quantity without unit code. *)
Definition quantityOf (value : types.Decimal) : schema.Quantity :=
  {| schema.Quantity_Value := value; schema.Quantity_UnitCode := "" |}.

(** An invoice of one line: [invoiced] units, delivered as one batch of
    [batch] units. *)
Definition oneBatchInvoice (invoiced batch : types.Decimal) : schema.Invoice :=
  sampleInvoice "6.0.2" 1 "" None
    {| schema.InvoiceLines_InvoiceLine :=
         [ sampleLine None (quantityOf invoiced)
             (Some {| schema.StoreBatches_StoreBatch :=
                        [ sampleBatch (quantityOf batch) ] |}) ] |}
    schema.LegalMonetaryTotal_zero.

(* ===================================================================== *)
(** * Properties *)
(* ===================================================================== *)

(** ** Scalar types *)

Lemma unchars_chars s : unchars (chars s) = s.
Proof. induction s as [|c s IH]; simpl; [reflexivity | now rewrite IH]. Qed.

Lemma Decimal_IsZero_spec (d : types.Decimal) :
  types.Decimal_IsZero d = true <-> d = "".
Proof. unfold types.Decimal_IsZero. apply String.eqb_eq. Qed.

(** A string accepted by [NewDecimal] is stored verbatim. *)
Lemma NewDecimal_verbatim (s : string) (d : types.Decimal) :
  types.NewDecimal s = (d, None) -> d = s /\ types.Decimal_String d = s.
Proof.
  unfold types.NewDecimal, types.Decimal_String.
  destruct (regexp.MatchString types.decimalPattern s); simpl;
    intros H; inversion H; auto.
Qed.

(** [MustDecimal] does not panic on the two literals the validator uses. *)
Lemma MustDecimal_literals :
  types.MustDecimal "0.01" = Some "0.01" /\ types.MustDecimal "1" = Some "1".
Proof. split; vm_compute; reflexivity. Qed.

(** C7. The scalar constructors reject the listed malformed literals and
    accept the empty string as the unset value: [NewDecimal] fails on the
    empty string, on a comma and on a doubled sign; [ParseDate] fails on a
    one-digit month and on slashes; [ParseBool] fails on [1] and on a
    capitalised literal; [NewUUID] fails on a string that is no UUID;
    [ParseDate], [ParseBool] and [NewUUID] return the zero date, false and
    the empty UUID, with no error, on the empty string. *)
Theorem scalar_rejection_set :
  (is_Some (types.NewDecimal "").2
   /\ is_Some (types.NewDecimal "12,34").2
   /\ is_Some (types.NewDecimal "--1").2)
  /\ (is_Some (types.ParseDate "2024-1-15").2
      /\ is_Some (types.ParseDate "2024/01/15").2)
  /\ (is_Some (types.ParseBool "1").2
      /\ is_Some (types.ParseBool "True").2)
  /\ is_Some (types.NewUUID "not-a-uuid").2
  /\ (types.ParseDate "" = (types.Date_zero, None)
      /\ types.Date_IsZero types.Date_zero = true)
  /\ types.ParseBool "" = (false, None)
  /\ (types.NewUUID "" = ("", None) /\ types.UUID_IsZero "" = true).
Proof.
  repeat match goal with
         | |- _ /\ _ => split
         | |- is_Some _ => vm_compute; eexists; reflexivity
         | |- _ = _ => vm_compute; reflexivity
         end.
Qed.






(** Two float64 values are the same number: both are zero, of either
    sign, or they are the same infinity or the same finite value; a NaN is
    the same as nothing. *)
Definition sameFloat (x y : float64.t) : Prop :=
  match x, y with
  | S754_nan, _ | _, S754_nan => False
  | S754_zero _, S754_zero _ => True
  | _, _ => x = y
  end.

Lemma float64_eqb_sameFloat (x y : float64.t) :
  float64.eqb x y = true <-> sameFloat x y.
Proof.
  unfold float64.eqb, SFeqb.
  destruct x as [sx | sx | | sx mx ex], y as [sy | sy | | sy my ey];
    simpl; try (split; [discriminate | discriminate]);
    try (split; [discriminate | intros []]);
    try (split; reflexivity);
    try (destruct sx; split; discriminate);
    try (destruct sy; split; discriminate).
  - destruct sx, sy; split; first [reflexivity | discriminate].
  - destruct sx, sy; try (split; discriminate).
    + destruct (Z.compare_spec ex ey) as [-> | Hlt | Hgt].
      * fold (Pos.compare mx my).
        destruct (Pos.compare_spec mx my) as [-> | Hlt | Hgt]; simpl;
          split; first [reflexivity | discriminate | intros H; inversion H; lia].
      * split; [discriminate | intros H; inversion H; lia].
      * split; [discriminate | intros H; inversion H; lia].
    + destruct (Z.compare_spec ex ey) as [-> | Hlt | Hgt].
      * fold (Pos.compare mx my).
        destruct (Pos.compare_spec mx my) as [-> | Hlt | Hgt]; simpl;
          split; first [reflexivity | discriminate | intros H; inversion H; lia].
      * split; [discriminate | intros H; inversion H; lia].
      * split; [discriminate | intros H; inversion H; lia].
Qed.


(** ** Decoding *)

Section DecoderFacts.

Variable xml_Unmarshal : string -> schema.Invoice * option error.

Lemma DecodeBytes_parse_error (data : string) (inv : schema.Invoice) (err : error) :
  xml_Unmarshal data = (inv, Some err) ->
  DecodeBytes xml_Unmarshal data
  = (None, Some (one_DecodeError
                   (NewDecodeError "" (Errorf "XML parsing: %w" [ArgError err])))).
Proof. intros H. unfold DecodeBytes. rewrite H. reflexivity. Qed.

Lemma DecodeBytes_parsed (data : string) (inv : schema.Invoice) :
  xml_Unmarshal data = (inv, None) ->
  DecodeBytes xml_Unmarshal data
  = (Some inv,
     match resolveReferences inv with
     | [] => None
     | errs => Some (many_DecodeErrors errs)
     end).
Proof.
  intros H. unfold DecodeBytes. rewrite H.
  destruct (resolveReferences inv) as [|d ds]; reflexivity.
Qed.

(** C2. [DecodeBytes] returns no invoice exactly when [xml.Unmarshal]
    returns an error, and what it returns then is the parse error: a
    [DecodeError] with an empty path that wraps the error of
    [xml.Unmarshal], and nothing else.  When [xml.Unmarshal] succeeds, the
    invoice it populated is returned, together with all the diagnostics of
    [resolveReferences] (no error value when there are none): reference
    resolution never takes the invoice away. *)
Theorem DecodeBytes_total (data : string) :
  ((DecodeBytes xml_Unmarshal data).1 = None
   <-> is_Some (xml_Unmarshal data).2)
  /\ (forall inv err, xml_Unmarshal data = (inv, Some err) ->
        DecodeBytes xml_Unmarshal data
        = (None,
           Some (one_DecodeError
                   (NewDecodeError "" (Errorf "XML parsing: %w" [ArgError err])))))
  /\ (forall inv, xml_Unmarshal data = (inv, None) ->
        DecodeBytes xml_Unmarshal data
        = (Some inv,
           match resolveReferences inv with
           | [] => None
           | errs => Some (many_DecodeErrors errs)
           end)).
Proof.
  split; [| split].
  - destruct (xml_Unmarshal data) as [inv [err|]] eqn:E.
    + rewrite (DecodeBytes_parse_error _ _ _ E). simpl. split; eauto.
    + rewrite (DecodeBytes_parsed _ _ E). simpl.
      split; [discriminate | intros [x Hx]; discriminate].
  - intros inv err E. apply (DecodeBytes_parse_error _ _ _ E).
  - intros inv E. apply (DecodeBytes_parsed _ _ E).
Qed.

End DecoderFacts.

(** ** Validation *)

Lemma Forall_when (P : ValidationError -> Prop) (c : bool) (e : ValidationError) :
  P e -> Forall P (when c e).
Proof. intros H. destruct c; simpl; auto. Qed.

Lemma Forall_forRange {A : Type} (P : ValidationError -> Prop)
    (body : nat -> A -> ValidationErrors) (l : list A) :
  (forall i x, Forall P (body i x)) -> Forall P (forRange body l).
Proof.
  unfold forRange. revert body.
  induction l as [|x l IH]; intros body H; simpl; [constructor |].
  apply Forall_app. split; [apply H |]. apply IH. intros i y. apply H.
Qed.

(** Walks through the rules of the validator: every diagnostic is built by
    [when], by a conditional or by a loop. *)
Ltac each_diagnostic tac :=
  repeat match goal with
    | |- Forall _ [] => apply List.Forall_nil
    | |- Forall _ (_ :: _) => apply List.Forall_cons; [tac |]
    | |- Forall _ (_ ++ _) => apply Forall_app; split
    | |- Forall _ (forRange _ _) => apply Forall_forRange; intros ? ?
    | |- Forall _ (when _ _) => apply Forall_when; tac
    | |- Forall _ (if ?c then _ else _) => destruct c
    | |- Forall _ (match ?o with Some _ => _ | None => _ end) => destruct o
    | |- Forall _ (let _ := _ in _) => cbv zeta
    end.

Ltac other_field := simpl; discriminate.

(** The rule on original documents is the only one that reports on the
    field [Invoice.OriginalDocumentReferences]. *)
Lemma structural_not_original (inv : schema.Invoice) (opts : ValidateOptions) :
  Forall (fun e => Field e <> "Invoice.OriginalDocumentReferences")
         (validateStructural inv opts).
Proof.
  unfold validateStructural, validateParty, validateInvoiceLine.
  each_diagnostic other_field.
Qed.

Lemma foreign_present_not_original (inv : schema.Invoice) (opts : ValidateOptions) :
  Forall (fun e => Field e <> "Invoice.OriginalDocumentReferences")
         (validateForeignCurrencyFieldsPresent inv opts).
Proof.
  unfold validateForeignCurrencyFieldsPresent.
  each_diagnostic other_field.
Qed.

Lemma no_foreign_not_original (inv : schema.Invoice) (opts : ValidateOptions) :
  Forall (fun e => Field e <> "Invoice.OriginalDocumentReferences")
         (validateNoForeignCurrencyFields inv opts).
Proof.
  unfold validateNoForeignCurrencyFields.
  each_diagnostic other_field.
Qed.

Lemma currency_not_original (inv : schema.Invoice) (opts : ValidateOptions) :
  Forall (fun e => Field e <> "Invoice.OriginalDocumentReferences")
         (validateCurrencyConsistency inv opts).
Proof.
  unfold validateCurrencyConsistency.
  destruct (negb _).
  - apply Forall_app. split.
    + apply Forall_when. other_field.
    + apply foreign_present_not_original.
  - cbv zeta. apply Forall_app. split; [apply Forall_when; other_field |].
    apply Forall_app. split; [apply Forall_when; other_field |].
    apply no_foreign_not_original.
Qed.

Lemma batchLoop_fields (P : ValidationError -> Prop) severity path unit :
  (forall j code msg,
      P {| Field := indexed (path +:+ ".Item.StoreBatches.StoreBatch") j +:+ ".Quantity";
           Code := code; Severity_ := severity; Msg := msg |}) ->
  forall batches st j,
    Forall P (batchErrs st) ->
    Forall P (batchErrs (batchLoop severity path unit st j batches)).
Proof.
  intros HP batches.
  induction batches as [|b rest IH]; intros st j Hst; simpl; [exact Hst |].
  apply IH. unfold batchStep. simpl.
  apply Forall_app. split; [exact Hst |].
  apply Forall_when. apply HP.
Qed.

Lemma store_batches_not_original (inv : schema.Invoice) (opts : ValidateOptions) :
  Forall (fun e => Field e <> "Invoice.OriginalDocumentReferences")
         (validateStoreBatches inv opts).
Proof.
  unfold validateStoreBatches.
  apply Forall_forRange. intros i line.
  destruct (_ || _); [constructor |].
  cbv zeta.
  apply Forall_app. split.
  - apply batchLoop_fields; [intros; other_field | constructor].
  - apply Forall_app. split; apply Forall_when; other_field.
Qed.

Lemma semantic_rest_not_original (inv : schema.Invoice) (opts : ValidateOptions) :
  Forall (fun e => Field e <> "Invoice.OriginalDocumentReferences")
         (validateCurrencyConsistency inv opts
          ++ validateVATConsistency inv opts
          ++ validateItemIdentificationHierarchy inv opts
          ++ validateStoreBatches inv opts).
Proof.
  apply Forall_app. split; [apply currency_not_original |].
  apply Forall_app. split.
  { unfold validateVATConsistency. each_diagnostic other_field. }
  apply Forall_app. split.
  { unfold validateItemIdentificationHierarchy. each_diagnostic other_field. }
  apply store_batches_not_original.
Qed.

(** No original-document reference: the pointer is nil or the slice is
    empty. *)
Definition noOriginalDocumentReference (inv : schema.Invoice) : Prop :=
  match schema.Invoice_OriginalDocumentReferences inv with
  | None => True
  | Some refs =>
      schema.OriginalDocumentReferences_OriginalDocumentReference refs = []
  end.

(** C5. An invoice of document type 2, 3 or 6 with no original-document
    reference gets, under every options value, a diagnostic of severity
    Error on the field [Invoice.OriginalDocumentReferences]; for an invoice
    of document type 1 the rule reports nothing, whatever its references
    are, and no diagnostic of the whole validation names that field. *)
Theorem original_document_link_rule (inv : schema.Invoice) (opts : ValidateOptions) :
  ((schema.Invoice_DocumentType inv = 2
    \/ schema.Invoice_DocumentType inv = 3
    \/ schema.Invoice_DocumentType inv = 6)%Z ->
   noOriginalDocumentReference inv ->
   exists e : ValidationError,
     e ∈ ValidateInvoiceWithOptions inv opts
     /\ Field e = "Invoice.OriginalDocumentReferences"
     /\ Code e = ErrCodeRequiredField
     /\ Severity_ e = SeverityError)
  /\ (schema.Invoice_DocumentType inv = 1%Z ->
      validateOriginalDocumentLink inv opts = []
      /\ Forall (fun e => Field e <> "Invoice.OriginalDocumentReferences")
                (ValidateInvoiceWithOptions inv opts)).
Proof.
  split.
  - intros Hty Hnone.
    exists {| Field := "Invoice.OriginalDocumentReferences";
              Code := ErrCodeRequiredField;
              Severity_ := SeverityError;
              Msg := Sprintf "DocumentType %d requires OriginalDocumentReferences with at least one OriginalDocumentReference"
                       [ArgInt (schema.Invoice_DocumentType inv)] |}.
    split; [| repeat split].
    unfold ValidateInvoiceWithOptions, validateSemantic.
    apply elem_of_app. right. apply elem_of_app. left.
    unfold validateOriginalDocumentLink.
    replace (_ || _ || _) with true.
    2:{ destruct Hty as [-> | [-> | ->]]; reflexivity. }
    unfold noOriginalDocumentReference in Hnone.
    destruct (schema.Invoice_OriginalDocumentReferences inv) as [refs|].
    + rewrite Hnone. simpl. apply list_elem_of_singleton. reflexivity.
    + simpl. apply list_elem_of_singleton. reflexivity.
  - intros Hty.
    assert (Hrule : validateOriginalDocumentLink inv opts = []).
    { unfold validateOriginalDocumentLink. rewrite Hty. reflexivity. }
    split; [exact Hrule |].
    unfold ValidateInvoiceWithOptions, validateSemantic.
    apply Forall_app. split; [apply structural_not_original |].
    rewrite Hrule. simpl. apply semantic_rest_not_original.
Qed.

(** The diagnostic of the currency-pairing rule for the tax-exclusive
    amount. *)
Definition taxExclusiveAmountCurrRequired (severity : Severity) : ValidationError :=
  {| Field := "Invoice.LegalMonetaryTotal.TaxExclusiveAmountCurr";
     Code := ErrCodeRequiredField;
     Severity_ := severity;
     Msg := Text "TaxExclusiveAmountCurr required when ForeignCurrencyCode is set" |}.

Ltac same_severity :=
  simpl; intros Hfield;
  first [discriminate Hfield | reflexivity].

(** Whatever the invoice, every diagnostic on the field
    [Invoice.LegalMonetaryTotal.TaxExclusiveAmountCurr] has the severity the
    options select. *)
Lemma TaxExclusiveAmountCurr_severity (inv : schema.Invoice) (opts : ValidateOptions) :
  Forall (fun e => Field e = "Invoice.LegalMonetaryTotal.TaxExclusiveAmountCurr" ->
                   Severity_ e = severityOf opts)
         (ValidateInvoiceWithOptions inv opts).
Proof.
  unfold ValidateInvoiceWithOptions, validateSemantic.
  apply Forall_app. split.
  { unfold validateStructural, validateParty, validateInvoiceLine.
    each_diagnostic same_severity. }
  apply Forall_app. split.
  { unfold validateOriginalDocumentLink. each_diagnostic same_severity. }
  apply Forall_app. split.
  { unfold validateCurrencyConsistency.
    destruct (negb _); cbv zeta.
    - apply Forall_app. split; [apply Forall_when; same_severity |].
      unfold validateForeignCurrencyFieldsPresent.
      each_diagnostic same_severity.
    - apply Forall_app. split; [apply Forall_when; same_severity |].
      apply Forall_app. split; [apply Forall_when; same_severity |].
      unfold validateNoForeignCurrencyFields.
      each_diagnostic same_severity. }
  apply Forall_app. split.
  { unfold validateVATConsistency. each_diagnostic same_severity. }
  apply Forall_app. split.
  { unfold validateItemIdentificationHierarchy. each_diagnostic same_severity. }
  unfold validateStoreBatches.
  apply Forall_forRange. intros i line.
  destruct (_ || _); [constructor |].
  cbv zeta.
  apply Forall_app. split.
  - apply batchLoop_fields; [intros j code msg; same_severity | constructor].
  - apply Forall_app. split; apply Forall_when; same_severity.
Qed.

(** C6. An invoice with a foreign currency code, a tax-exclusive total that
    is set and no tax-exclusive total in the foreign currency gets a
    RequiredField diagnostic on
    [Invoice.LegalMonetaryTotal.TaxExclusiveAmountCurr]: of severity Warning
    when the options are not strict (the default options are not), of
    severity Error when they are; no diagnostic on that field has another
    severity.  The code takes a total as set when its text is not empty,
    which every total with a non-zero value is. *)
Theorem foreign_currency_pairing (inv : schema.Invoice) (opts : ValidateOptions) :
  schema.Invoice_ForeignCurrencyCode inv <> "" ->
  types.Decimal_IsZero
    (schema.LegalMonetaryTotal_TaxExclusiveAmount
       (schema.Invoice_LegalMonetaryTotal inv)) = false ->
  schema.LegalMonetaryTotal_TaxExclusiveAmountCurr
    (schema.Invoice_LegalMonetaryTotal inv) = "" ->
  (Strict opts = false ->
   taxExclusiveAmountCurrRequired SeverityWarning
     ∈ ValidateInvoiceWithOptions inv opts)
  /\ (Strict opts = true ->
      taxExclusiveAmountCurrRequired SeverityError
        ∈ ValidateInvoiceWithOptions inv opts)
  /\ taxExclusiveAmountCurrRequired SeverityWarning ∈ ValidateInvoice inv
  /\ Forall (fun e => Field e = Field (taxExclusiveAmountCurrRequired SeverityError) ->
                      Severity_ e = if Strict opts then SeverityError
                                    else SeverityWarning)
            (ValidateInvoiceWithOptions inv opts).
Proof.
  intros Hforeign Hset Hcurr.
  assert (Hin : forall o, taxExclusiveAmountCurrRequired (severityOf o)
                            ∈ ValidateInvoiceWithOptions inv o).
  { intros o.
    unfold ValidateInvoiceWithOptions, validateSemantic.
    apply elem_of_app. right. apply elem_of_app. right. apply elem_of_app. left.
    unfold validateCurrencyConsistency.
    replace (negb _) with true.
    2:{ symmetry. apply negb_true_iff. apply String.eqb_neq. exact Hforeign. }
    apply elem_of_app. right.
    unfold validateForeignCurrencyFieldsPresent. cbv zeta.
    apply elem_of_app. left.
    rewrite Hset, Hcurr. simpl. apply list_elem_of_singleton. reflexivity. }
  split; [| split; [| split]].
  - intros Hs. specialize (Hin opts). unfold severityOf in Hin.
    rewrite Hs in Hin. exact Hin.
  - intros Hs. specialize (Hin opts). unfold severityOf in Hin.
    rewrite Hs in Hin. exact Hin.
  - exact (Hin DefaultValidateOptions).
  - exact (TaxExclusiveAmountCurr_severity inv opts).
Qed.

Lemma original_document_link_rule_witness :
  exists e : ValidationError,
    e ∈ ValidateInvoiceWithOptions
          (sampleInvoice "6.0.2" 2 "" None schema.InvoiceLines_zero
                         schema.LegalMonetaryTotal_zero)
          DefaultValidateOptions
    /\ Field e = "Invoice.OriginalDocumentReferences"
    /\ Code e = ErrCodeRequiredField
    /\ Severity_ e = SeverityError.
Proof.
  apply (proj1 (original_document_link_rule
                  (sampleInvoice "6.0.2" 2 "" None schema.InvoiceLines_zero
                                 schema.LegalMonetaryTotal_zero)
                  DefaultValidateOptions)).
  - left. reflexivity.
  - simpl. exact I.
Defined.

Lemma foreign_currency_pairing_witness :
  taxExclusiveAmountCurrRequired SeverityWarning
    ∈ ValidateInvoice
        (sampleInvoice "6.0.2" 1 "EUR" None schema.InvoiceLines_zero
                       (sampleTotal "100.00" "")).
Proof.
  apply (foreign_currency_pairing
           (sampleInvoice "6.0.2" 1 "EUR" None schema.InvoiceLines_zero
                          (sampleTotal "100.00" ""))
           DefaultValidateOptions).
  - simpl. discriminate.
  - reflexivity.
  - reflexivity.
Defined.

(** ** The store-batch sum check *)

(** The check never reads the configured tolerance: two options values that
    agree on [Strict] give the same diagnostics. *)
Lemma validateStoreBatches_Tolerance_unused (inv : schema.Invoice)
    (opts : ValidateOptions) (allow : bool) (tolerance : types.Decimal) :
  validateStoreBatches inv
    {| Strict := Strict opts; AllowRoundingTolerance := allow;
       Tolerance := tolerance |}
  = validateStoreBatches inv opts.
Proof. reflexivity. Qed.

(** What the spec asks of the sum check: the distance between the sum of
    the batch quantities and the invoiced quantity exceeds the configured
    tolerance. *)
Definition exceedsConfiguredTolerance (opts : ValidateOptions)
    (line : schema.InvoiceLine) : bool :=
  let sum :=
    foldl (fun acc b =>
             float64.add acc
               (types.Decimal_Float64
                  (schema.Quantity_Value (schema.StoreBatch_Quantity b))))
          float64.zero (storeBatchesOf line) in
  let invoiced :=
    types.Decimal_Float64
      (schema.Quantity_Value (schema.InvoiceLine_InvoicedQuantity line)) in
  let tolerance := types.Decimal_Float64 (Tolerance opts) in
  let diff := float64.sub sum invoiced in
  float64.gtb diff tolerance || float64.ltb diff (float64.neg tolerance).

Definition reportsTotalMismatch (errs : ValidationErrors) : bool :=
  existsb (fun e => String.eqb (Code e) ErrCodeTotalMismatch) errs.

(** C1 (evaluation at the failing inputs). One line of 10 units with one
    batch of 10.005 units, under the default options (tolerance 0.01): the
    distance does not exceed the configured tolerance, and the check
    reports a TotalMismatch.  One line of 10 units with one batch of
    10.00005 units, under a configured tolerance of 0: the distance exceeds
    the configured tolerance, and the check reports nothing.  The threshold
    the check compares with is the constant 0.0001. *)
Theorem store_batch_sum_fixed_threshold :
  (exceedsConfiguredTolerance DefaultValidateOptions
     (sampleLine None (quantityOf "10")
        (Some {| schema.StoreBatches_StoreBatch :=
                   [sampleBatch (quantityOf "10.005")] |})) = false
   /\ reportsTotalMismatch
        (validateStoreBatches (oneBatchInvoice "10" "10.005")
                              DefaultValidateOptions) = true)
  /\ (exceedsConfiguredTolerance
        {| Strict := false; AllowRoundingTolerance := true; Tolerance := "0" |}
        (sampleLine None (quantityOf "10")
           (Some {| schema.StoreBatches_StoreBatch :=
                      [sampleBatch (quantityOf "10.00005")] |})) = true
      /\ validateStoreBatches (oneBatchInvoice "10" "10.00005")
           {| Strict := false; AllowRoundingTolerance := true; Tolerance := "0" |}
         = [])
  /\ storeBatchTolerance = (strconv.ParseFloat "0.0001").1.
Proof.
  split; [| split].
  - split; vm_compute; reflexivity.
  - split; vm_compute; reflexivity.
  - vm_compute. reflexivity.
Qed.

(** ** Encoding *)

(** The step of [extractFields]: the name under which a field is kept, if
    it is kept. *)
Definition keptName (xmlTag : string) : option string :=
  if String.eqb xmlTag "" || String.eqb xmlTag "-" then None
  else
    let elemName := elemNameOf xmlTag in
    if HasPrefix elemName "@" || String.eqb elemName "xmlns" then None
    else if String.eqb elemName "" then None
    else Some elemName.

Definition keep {A : Type} (m : gmap string A) (field : string * A) : gmap string A :=
  match keptName field.1 with
  | Some elemName => <[elemName := field.2]> m
  | None => m
  end.

Lemma extractFields_foldl {A : Type} (fields : list (string * A)) :
  extractFields fields = foldl keep ∅ fields.
Proof.
  unfold extractFields. generalize (∅ : gmap string A).
  induction fields as [|[xmlTag f] rest IH]; intros m; simpl; [reflexivity |].
  rewrite IH. f_equal.
  unfold keep, keptName. simpl.
  destruct (String.eqb xmlTag "" || String.eqb xmlTag "-"); [reflexivity |].
  destruct (HasPrefix (elemNameOf xmlTag) "@" || String.eqb (elemNameOf xmlTag) "xmlns");
    [reflexivity |].
  destruct (String.eqb (elemNameOf xmlTag) ""); reflexivity.
Qed.

(** [extractFields] only looks at the tags. *)
Lemma extractFields_fmap {A B : Type} (g : A -> B) (fields : list (string * A)) :
  extractFields ((fun '(xmlTag, f) => (xmlTag, g f)) <$> fields)
  = g <$> extractFields fields.
Proof.
  rewrite !extractFields_foldl.
  rewrite <- (fmap_empty g) at 1.
  generalize (∅ : gmap string A).
  induction fields as [|[xmlTag f] rest IH]; intros m; simpl; [reflexivity |].
  rewrite <- IH. f_equal.
  unfold keep. simpl. destruct (keptName xmlTag); [| reflexivity].
  rewrite fmap_insert. reflexivity.
Qed.

(** A field that is not kept under the name [k] does not change what is
    found under [k]. *)
Lemma foldl_keep_agree {A : Type} (k : string) (fields : list (string * A)) :
  forall m m' : gmap string A,
    m !! k = m' !! k -> foldl keep m fields !! k = foldl keep m' fields !! k.
Proof.
  induction fields as [|[xmlTag f] rest IH]; intros m m' H; simpl; [exact H |].
  apply IH. unfold keep. simpl.
  destruct (keptName xmlTag) as [n|]; [| exact H].
  destruct (decide (n = k)) as [-> | Hne].
  - rewrite !lookup_insert_eq. reflexivity.
  - rewrite !lookup_insert_ne by exact Hne. exact H.
Qed.

Lemma extractFields_remove {A : Type} (k : string)
    (before : list (string * A)) (xmlTag : string) (f : A)
    (after : list (string * A)) :
  keptName xmlTag <> Some k ->
  extractFields (before ++ (xmlTag, f) :: after) !! k
  = extractFields (before ++ after) !! k.
Proof.
  intros Hk. rewrite !extractFields_foldl, !foldl_app. simpl.
  apply foldl_keep_agree.
  unfold keep at 1. simpl.
  destruct (keptName xmlTag) as [n|]; [| reflexivity].
  apply lookup_insert_ne. congruence.
Qed.

(** A kept field is kept under [elemNameOf] of its tag. *)
Lemma keptName_elemNameOf (xmlTag k : string) :
  keptName xmlTag = Some k -> k = elemNameOf xmlTag.
Proof.
  unfold keptName.
  repeat match goal with |- context [if ?c then _ else _] => destruct c end;
    congruence.
Qed.

Lemma forEach_ext {A : Type} (f g : A -> result) (l : list A) :
  (forall x, x ∈ l -> f x = g x) -> forEach f l = forEach g l.
Proof.
  unfold forEach.
  induction l as [|x l IH]; intros H; simpl; [reflexivity |].
  rewrite (H x) by (left). rewrite IH; [reflexivity |].
  intros y Hy. apply H. right. exact Hy.
Qed.

Section EncodingFacts.

Variable Sequence : gmap string (list string).
Variable EscapeText : string -> string.
Variable Stringer : reflect.value -> option string.
Variable MarshalIndent : reflect.value -> string -> string -> string * option error.

Local Abbreviation encodeValue' :=
  (encodeValue Sequence EscapeText Stringer MarshalIndent).
Local Abbreviation encodeContent' :=
  (encodeContent Sequence EscapeText Stringer MarshalIndent).

(** The children a tabulated struct visits: for each name of the table
    entry, in order, the field [extractFields] keeps under that name. *)
Definition tableChildren (e : Encoder) (order : list string)
    (fs : list (string * reflect.value)) (depth : nat) : result :=
  forEach (fun elemName =>
             match extractFields fs !! elemName with
             | Some val => encodeValue' e elemName val depth
             | None => ok
             end) order.

(** The children an untabulated struct visits: its fields in declaration
    order. *)
Definition declaredChildren (e : Encoder)
    (fs : list (string * reflect.value)) (depth : nat) : result :=
  forEach (fun '(xmlTag, f) =>
             if String.eqb xmlTag "" || String.eqb xmlTag "-" then ok
             else
               let elemName := elemNameOf xmlTag in
               if String.eqb elemName "" || strings.Contains elemName ",attr"
               then ok
               else encodeValue' e elemName f depth) fs.

Definition openTag (e : Encoder) (name : string) (depth : nat) : string :=
  Repeat (indent e) depth +:+ "<" +:+ name +:+ ">" +:+ nl.

Definition closeTag (e : Encoder) (name : string) (depth : nat) : string :=
  Repeat (indent e) depth +:+ "</" +:+ name +:+ ">" +:+ nl.

(** A struct that is not omitted and has no [MarshalXML]. *)
Definition compositeStruct (m : reflect.methods) : Prop :=
  reflect.implements_Marshaler m = false
  /\ reflect.method_IsZero m <> Some true.

Lemma compositeStruct_isZero ty m fs :
  compositeStruct m -> isZero (reflect.VStruct ty m fs) = false.
Proof.
  intros [_ Hz]. simpl. destruct (reflect.method_IsZero m) as [[|]|]; congruence.
Qed.

Lemma encodeValue_struct (e : Encoder) (name ty : string) (m : reflect.methods)
    (fs : list (string * reflect.value)) (depth : nat) :
  compositeStruct m ->
  encodeValue' e name (reflect.VStruct ty m fs) depth
  = andThen (WriteString (openTag e name depth))
      (andThen
         match Sequence !! ty with
         | Some order => tableChildren e order fs (S depth)
         | None => declaredChildren e fs (S depth)
         end
         (WriteString (closeTag e name depth))).
Proof.
  intros Hc. pose proof (compositeStruct_isZero ty m fs Hc) as Hz.
  destruct Hc as [Hm _].
  cbn [encodeValue]. unfold encodeKind. rewrite Hz, Hm.
  unfold openTag, closeTag. f_equal. f_equal.
  destruct (Sequence !! ty) as [order|]; [| reflexivity].
  unfold tableChildren. apply forEach_ext. intros elemName _.
  rewrite (extractFields_fmap
             (fun (f : reflect.value) (elemName : string) =>
                encodeValue' e elemName f (S depth)) fs).
  rewrite lookup_fmap.
  destruct (extractFields fs !! elemName); reflexivity.
Qed.

Lemma encodeContent_table (e : Encoder) (root : string) (v : reflect.value)
    (depth : nat) :
  encodeContent' e root v depth
  = tableChildren e (default [] (Sequence !! root)) (fieldsOf v) depth.
Proof. reflexivity. Qed.

(** Without a table entry, a struct writes its fields in declaration
    order. *)
Lemma untabulated_struct_declaration_order (e : Encoder) (name ty : string)
    (m : reflect.methods) (fs : list (string * reflect.value)) (depth : nat) :
  Sequence !! ty = None ->
  compositeStruct m ->
  encodeValue' e name (reflect.VStruct ty m fs) depth
  = andThen (WriteString (openTag e name depth))
      (andThen (declaredChildren e fs (S depth))
               (WriteString (closeTag e name depth))).
Proof. intros Hty Hc. rewrite encodeValue_struct by exact Hc. rewrite Hty. reflexivity. Qed.

(** The children of a tabulated struct do not depend on a field that
    [extractFields] does not keep under a name of the table entry. *)
Lemma tableChildren_remove_unkept (e : Encoder) (order : list string)
    (before : list (string * reflect.value)) (xmlTag : string)
    (f : reflect.value) (after : list (string * reflect.value)) (depth : nat) :
  (forall k, k ∈ order -> keptName xmlTag <> Some k) ->
  tableChildren e order (before ++ (xmlTag, f) :: after) depth
  = tableChildren e order (before ++ after) depth.
Proof.
  intros Hnot. unfold tableChildren. apply forEach_ext. intros k Hk.
  rewrite extractFields_remove; [reflexivity | apply Hnot, Hk].
Qed.

Lemma tableChildren_remove (e : Encoder) (order : list string)
    (before : list (string * reflect.value)) (xmlTag : string)
    (f : reflect.value) (after : list (string * reflect.value)) (depth : nat) :
  elemNameOf xmlTag ∉ order ->
  tableChildren e order (before ++ (xmlTag, f) :: after) depth
  = tableChildren e order (before ++ after) depth.
Proof.
  intros Hnot. apply tableChildren_remove_unkept.
  intros k Hk Hkept. apply keptName_elemNameOf in Hkept. subst k. contradiction.
Qed.

(** C10. For a struct whose type name has an entry in the ordering table,
    the encoder writes, between the opening and the closing tag, the
    children the entry names, in the order of the entry, each looked up by
    its element name; a field whose element name the entry does not list
    has no part in the output, whatever it holds: the output is that of
    the struct without the field.  The same holds for the content of the
    root element, whose entry is looked up under the root's name. *)
Theorem tabulated_struct_emits_table_entry_only (e : Encoder) (name ty : string)
    (m : reflect.methods) (order : list string)
    (fs : list (string * reflect.value)) (depth : nat) :
  Sequence !! ty = Some order ->
  compositeStruct m ->
  encodeValue' e name (reflect.VStruct ty m fs) depth
  = andThen (WriteString (openTag e name depth))
      (andThen (tableChildren e order fs (S depth))
               (WriteString (closeTag e name depth)))
  /\ (forall before xmlTag f after,
        fs = before ++ (xmlTag, f) :: after ->
        elemNameOf xmlTag ∉ order ->
        encodeValue' e name (reflect.VStruct ty m fs) depth
        = encodeValue' e name (reflect.VStruct ty m (before ++ after)) depth
        /\ encodeContent' e ty (reflect.VStruct ty m fs) depth
           = encodeContent' e ty (reflect.VStruct ty m (before ++ after)) depth).
Proof.
  intros Hty Hc. split.
  - rewrite encodeValue_struct by exact Hc. rewrite Hty. reflexivity.
  - intros before xmlTag f after -> Hnot. split.
    + rewrite !encodeValue_struct by exact Hc. rewrite Hty.
      rewrite tableChildren_remove by exact Hnot. reflexivity.
    + rewrite !encodeContent_table. rewrite Hty. simpl.
      apply tableChildren_remove. exact Hnot.
Qed.

End EncodingFacts.

(** A table with one entry: a [Country] element holds an
    [IdentificationCode] only. *)
Definition countryTable : gmap string (list string) :=
  {[ "Country" := ["IdentificationCode"] ]}.

Definition noStringer (v : reflect.value) : option string := None.

Definition noMarshalIndent (v : reflect.value) (prefix ind : string)
  : string * option error :=
  ("", Some (External "xml: unsupported type")).

Lemma tabulated_struct_emits_table_entry_only_witness :
  encodeValue countryTable id noStringer noMarshalIndent NewEncoder "Country"
    (reflect.reflect_Country
       {| schema.Country_IdentificationCode := "CZ";
          schema.Country_Name := "Czechia" |}) 1
  = encodeValue countryTable id noStringer noMarshalIndent NewEncoder "Country"
      (reflect.VStruct "Country" reflect.no_methods
         [("IdentificationCode", reflect.VString "CZ")]) 1.
Proof.
  refine (proj1 (proj2 (tabulated_struct_emits_table_entry_only
                   countryTable id noStringer noMarshalIndent NewEncoder
                   "Country" "Country" reflect.no_methods ["IdentificationCode"]
                   _ 1 _ _)
                   [("IdentificationCode", reflect.VString "CZ")]
                   "Name,omitempty" (reflect.VString "Czechia") [] _ _)).
  - reflexivity.
  - split; [reflexivity | discriminate].
  - reflexivity.
  - simpl. intros H. apply list_elem_of_singleton in H. discriminate H.
Defined.

(** ** The omission rule *)

(** The zero values the spec lists: the empty string, the nil pointer, the
    empty slice, a scalar whose [IsZero] reports true, and the integer 0;
    a boolean is never one. *)
Definition semanticZero (v : reflect.value) : bool :=
  match v with
  | reflect.VString s => String.eqb s ""
  | reflect.VInt n => (n =? 0)%Z
  | reflect.VBool _ => false
  | reflect.VPtr None => true
  | reflect.VSlice [] => true
  | reflect.VStruct _ m _ =>
      match reflect.method_IsZero m with
      | Some true => true
      | _ => false
      end
  | _ => false
  end.

(** A struct type without an [IsZero] method. *)
Definition plainStruct (v : reflect.value) : bool :=
  match v with
  | reflect.VStruct _ m _ =>
      match reflect.method_IsZero m with None => true | Some _ => false end
  | _ => false
  end.

(** The shapes of the fields of the document model: strings, integers,
    booleans, structs, pointers to plain structs and slices of plain
    structs. *)
Definition schemaField (v : reflect.value) : bool :=
  match v with
  | reflect.VString _ | reflect.VInt _ | reflect.VBool _
  | reflect.VStruct _ _ _ => true
  | reflect.VPtr None => true
  | reflect.VPtr (Some x) => plainStruct x
  | reflect.VSlice elems => forallb plainStruct elems
  | _ => false
  end.

(** The omission rule as the spec states it, for every field of every
    composite value: the output of the composite is that of the composite
    without the field exactly when the field holds a zero value. *)
Definition omission_rule_as_stated : Prop :=
  forall (Sequence : gmap string (list string)) (EscapeText : string -> string)
         (Stringer : reflect.value -> option string)
         (MarshalIndent : reflect.value -> string -> string -> string * option error)
         (e : Encoder) (name ty : string) (m : reflect.methods)
         (before : list (string * reflect.value)) (xmlTag : string)
         (f : reflect.value) (after : list (string * reflect.value))
         (depth : nat),
    compositeStruct m ->
    schemaField f = true ->
    (encodeValue Sequence EscapeText Stringer MarshalIndent e name
       (reflect.VStruct ty m (before ++ (xmlTag, f) :: after)) depth
     = encodeValue Sequence EscapeText Stringer MarshalIndent e name
         (reflect.VStruct ty m (before ++ after)) depth
     <-> semanticZero f = true).

(** A call that appended at least one byte. *)
Definition emits (r : result) : Prop := r.1 <> "".

Lemma append_nonempty (a b : string) : b <> "" -> a +:+ b <> "".
Proof. destruct a; simpl; [auto | discriminate]. Qed.

Lemma element_nonempty (ind name text : string) : element ind name text <> "".
Proof. unfold element. apply append_nonempty. discriminate. Qed.

Lemma emits_not_ok (r : result) : emits r -> r <> ok.
Proof. intros H Hr. apply H. rewrite Hr. reflexivity. Qed.

Lemma WriteString_emits (s : string) : s <> "" -> emits (WriteString s).
Proof. intros H. exact H. Qed.

Lemma andThen_emits (a b : result) : emits a -> emits (andThen a b).
Proof.
  destruct a as [w [err|]]; unfold emits; simpl; intros H; [exact H |].
  destruct w; [contradiction | discriminate].
Qed.

Section OmissionFacts.

Variable Sequence : gmap string (list string).
Variable EscapeText : string -> string.
Variable Stringer : reflect.value -> option string.
Variable MarshalIndent : reflect.value -> string -> string -> string * option error.

Local Abbreviation encodeValue' :=
  (encodeValue Sequence EscapeText Stringer MarshalIndent).

(** A struct that is not zero is written, with or without [MarshalXML]. *)
Lemma struct_emits (e : Encoder) (name ty : string) (m : reflect.methods)
    (fs : list (string * reflect.value)) (depth : nat) :
  reflect.method_IsZero m <> Some true ->
  emits (encodeValue' e name (reflect.VStruct ty m fs) depth).
Proof.
  intros Hz.
  destruct (reflect.implements_Marshaler m) eqn:Hm.
  - cbn [encodeValue]. unfold encodeKind.
    replace (isZero (reflect.VStruct ty m fs)) with false.
    2:{ simpl. destruct (reflect.method_IsZero m) as [[|]|]; congruence. }
    rewrite Hm. apply WriteString_emits, element_nonempty.
  - rewrite encodeValue_struct by (split; assumption).
    apply andThen_emits, WriteString_emits.
    unfold openTag. apply append_nonempty. discriminate.
Qed.

Lemma plainStruct_emits (e : Encoder) (name : string) (x : reflect.value)
    (depth : nat) :
  plainStruct x = true -> emits (encodeValue' e name x depth).
Proof.
  destruct x; simpl; try discriminate.
  destruct (reflect.method_IsZero m) eqn:Hz; [discriminate |].
  intros _. apply struct_emits. rewrite Hz. discriminate.
Qed.

(** X19. What [encodeValue] does with one value of the shapes the document
    model has: nothing is written and no error is returned exactly when the
    value is zero (the empty string, the integer 0, the nil pointer, the
    empty slice, or a struct whose [IsZero] reports true).  A boolean is
    always written, as an element that holds the literal true or false. *)
Theorem omission_rule_for_visited_fields (e : Encoder) (name : string)
    (v : reflect.value) (depth : nat) :
  (schemaField v = true ->
   (encodeValue' e name v depth = ok <-> semanticZero v = true))
  /\ (forall b : bool,
        encodeValue' e name (reflect.VBool b) depth
        = WriteString (element (Repeat (indent e) depth) name
                               (if b then "true" else "false"))).
Proof.
  split; [| reflexivity].
  destruct v as [[x|] | | s | n | b | elems | | ty m fs |]; simpl schemaField;
    intros Hshape; try discriminate Hshape.
  - (* a pointer to a plain struct *)
    split; [| discriminate].
    intros Hok. exfalso. revert Hok.
    destruct x; try discriminate Hshape.
    apply emits_not_ok. apply (plainStruct_emits e name _ depth Hshape).
  - (* the nil pointer *)
    split; reflexivity.
  - (* a string *)
    cbn [encodeValue semanticZero]. unfold encodeKind. simpl isZero.
    destruct (String.eqb s ""); [split; reflexivity |].
    split; [| discriminate].
    intros Hok. exfalso. revert Hok.
    apply emits_not_ok, WriteString_emits, element_nonempty.
  - (* an integer *)
    cbn [encodeValue semanticZero]. unfold encodeKind. simpl isZero.
    destruct (n =? 0)%Z; [split; reflexivity |].
    split; [| discriminate].
    intros Hok. exfalso. revert Hok.
    apply emits_not_ok, WriteString_emits, element_nonempty.
  - (* a boolean *)
    split; [| discriminate].
    intros Hok. exfalso. revert Hok.
    apply emits_not_ok, WriteString_emits, element_nonempty.
  - (* a slice of plain structs *)
    destruct elems as [|x rest]; [split; reflexivity |].
    split; [| discriminate].
    intros Hok. exfalso. revert Hok.
    simpl in Hshape. apply andb_true_iff in Hshape as [Hx _].
    apply emits_not_ok.
    cbn [encodeValue]. unfold encodeKind. simpl isZero.
    unfold forEach. simpl foldr.
    apply andThen_emits. apply (plainStruct_emits e name x depth Hx).
  - (* a struct *)
    cbn [semanticZero].
    destruct (reflect.method_IsZero m) as [[|]|] eqn:Hz.
    + cbn [encodeValue]. unfold encodeKind. simpl isZero. rewrite Hz.
      split; reflexivity.
    + split; [| discriminate].
      intros Hok. exfalso. revert Hok.
      apply emits_not_ok, struct_emits. rewrite Hz. discriminate.
    + split; [| discriminate].
      intros Hok. exfalso. revert Hok.
      apply emits_not_ok, struct_emits. rewrite Hz. discriminate.
Qed.

End OmissionFacts.

(** The quantity of 10 kilograms: the field [Value] is character data. *)
Definition tenKilograms : schema.Quantity :=
  {| schema.Quantity_Value := "10"; schema.Quantity_UnitCode := "KGM" |}.

Lemma andThen_ok_l (r : result) : andThen ok r = r.
Proof. destruct r as [w err]. reflexivity. Qed.

(** Whatever the table, a quantity is written without its value. *)
Lemma quantity_value_not_written (Sequence : gmap string (list string))
    (EscapeText : string -> string) (Stringer : reflect.value -> option string)
    (MarshalIndent : reflect.value -> string -> string -> string * option error)
    (e : Encoder) (name : string) (depth : nat) :
  encodeValue Sequence EscapeText Stringer MarshalIndent e name
    (reflect.reflect_Quantity tenKilograms) depth
  = encodeValue Sequence EscapeText Stringer MarshalIndent e name
      (reflect.VStruct "Quantity" reflect.no_methods
         [("unitCode,attr,omitempty", reflect.VString "KGM")]) depth.
Proof.
  unfold reflect.reflect_Quantity, tenKilograms.
  cbn [schema.Quantity_Value schema.Quantity_UnitCode].
  assert (Hc : compositeStruct reflect.no_methods)
    by (split; [reflexivity | discriminate]).
  rewrite !encodeValue_struct by exact Hc.
  (* the field is skipped by [extractFields] and by the declaration-order
     loop alike, since its tag starts with a comma *)
  destruct (Sequence !! "Quantity") as [order|]; reflexivity.
Qed.

(** The rule as stated fails on the quantity of 10 kilograms: its field
    [Value] holds 10, which is not a zero value, and the output is that of
    the quantity without the field. *)
Lemma omission_rule_counterexample : ~ omission_rule_as_stated.
Proof.
  intros Hrule.
  assert (Hzero : semanticZero (reflect.VString "10") = true).
  { apply (Hrule ∅ id noStringer noMarshalIndent NewEncoder "InvoicedQuantity"
                 "Quantity" reflect.no_methods [] ",chardata"
                 (reflect.VString "10")
                 [("unitCode,attr,omitempty", reflect.VString "KGM")] 1).
    - split; [reflexivity | discriminate].
    - reflexivity.
    - apply (quantity_value_not_written ∅ id noStringer noMarshalIndent
               NewEncoder "InvoicedQuantity" 1). }
  discriminate Hzero.
Qed.

(** With the empty table the quantity is written with its unit code as a
    child element and without its value. *)
Example quantity_output :
  encodeValue ∅ id noStringer noMarshalIndent NewEncoder "InvoicedQuantity"
    (reflect.reflect_Quantity tenKilograms) 1
  = ("  <InvoicedQuantity>" +:+ nl
     +:+ "    <unitCode>KGM</unitCode>" +:+ nl
     +:+ "  </InvoicedQuantity>" +:+ nl, None).
Proof. vm_compute. reflexivity. Qed.

(** The quantity of an unset value in kilograms. *)
Definition unsetKilograms : schema.Quantity :=
  {| schema.Quantity_Value := ""; schema.Quantity_UnitCode := "KGM" |}.

(** C9 (evaluation at the failing input). The quantity of 10 kilograms,
    as the invoiced quantity of a line: whatever the ordering table, the
    indentation and the element name, the encoder writes for it what it
    writes for the quantity whose value is unset, so the value 10, which is
    not a zero value, is left out (no branch writes character data); with
    no table entry for [Quantity] the unit code, an attribute, comes out as
    a child element, since the tests that are to skip attributes look at
    the tag's text before its first comma. *)
Theorem quantity_value_never_written (Sequence : gmap string (list string))
    (EscapeText : string -> string) (Stringer : reflect.value -> option string)
    (MarshalIndent : reflect.value -> string -> string -> string * option error)
    (e : Encoder) (name : string) (depth : nat) :
  semanticZero (reflect.VString (schema.Quantity_Value tenKilograms)) = false
  /\ encodeValue Sequence EscapeText Stringer MarshalIndent e name
       (reflect.reflect_Quantity tenKilograms) depth
     = encodeValue Sequence EscapeText Stringer MarshalIndent e name
         (reflect.reflect_Quantity unsetKilograms) depth
  /\ encodeValue ∅ id noStringer noMarshalIndent NewEncoder "InvoicedQuantity"
       (reflect.reflect_Quantity tenKilograms) 1
     = ("  <InvoicedQuantity>" +:+ nl
        +:+ "    <unitCode>KGM</unitCode>" +:+ nl
        +:+ "  </InvoicedQuantity>" +:+ nl, None).
Proof.
  split; [reflexivity |]. split; [| vm_compute; reflexivity].
  unfold reflect.reflect_Quantity, tenKilograms, unsetKilograms.
  cbn [schema.Quantity_Value schema.Quantity_UnitCode].
  assert (Hc : compositeStruct reflect.no_methods)
    by (split; [reflexivity | discriminate]).
  rewrite !encodeValue_struct by exact Hc.
  destruct (Sequence !! "Quantity") as [order|]; reflexivity.
Qed.

Lemma omission_rule_for_visited_fields_witness :
  encodeValue ∅ id noStringer noMarshalIndent NewEncoder "Note"
    (reflect.VString "") 1 = ok
  <-> semanticZero (reflect.VString "") = true.
Proof.
  apply (proj1 (omission_rule_for_visited_fields ∅ id noStringer
                  noMarshalIndent NewEncoder "Note" (reflect.VString "") 1)).
  reflexivity.
Defined.

(** ** Reference resolution *)

(** The four kinds of references of an invoice. *)
Inductive refKind : Type :=
| OrderRef | DeliveryNoteRef | OriginalDocumentRef | ContractRef.

#[global] Instance refKind_eq_dec : EqDecision refKind.
Proof. solve_decision. Defined.

(** The path of the header collection of a kind, up to the index. *)
Definition collectionPath (k : refKind) : string :=
  match k with
  | OrderRef => "Invoice.OrderReferences.OrderReference"
  | DeliveryNoteRef => "Invoice.DeliveryNoteReferences.DeliveryNoteReference"
  | OriginalDocumentRef =>
      "Invoice.OriginalDocumentReferences.OriginalDocumentReference"
  | ContractRef => "Invoice.ContractReferences.ContractReference"
  end.

(** The name of the header collection in the message. *)
Definition headerName (k : refKind) : string :=
  match k with
  | OrderRef => "OrderReferences"
  | DeliveryNoteRef => "DeliveryNoteReferences"
  | OriginalDocumentRef => "OriginalDocumentReferences"
  | ContractRef => "ContractReferences"
  end.

(** The field of a line that holds its reference of a kind. *)
Definition lineField (k : refKind) : string :=
  match k with
  | OrderRef => ".OrderReference"
  | DeliveryNoteRef => ".DeliveryNoteReference"
  | OriginalDocumentRef => ".OriginalDocumentReference"
  | ContractRef => ".ContractReference"
  end.

(** The identifiers the entries of a header collection carry, in order;
    none when the collection is absent. *)
Definition declaredIDs (k : refKind) (inv : schema.Invoice) : list string :=
  match k with
  | OrderRef =>
      match schema.Invoice_OrderReferences inv with
      | Some c => schema.OrderReference_ID <$> schema.OrderReferences_OrderReference c
      | None => []
      end
  | DeliveryNoteRef =>
      match schema.Invoice_DeliveryNoteReferences inv with
      | Some c =>
          schema.DeliveryNoteReference_ID
            <$> schema.DeliveryNoteReferences_DeliveryNoteReference c
      | None => []
      end
  | OriginalDocumentRef =>
      match schema.Invoice_OriginalDocumentReferences inv with
      | Some c =>
          schema.OriginalDocumentReference_ID
            <$> schema.OriginalDocumentReferences_OriginalDocumentReference c
      | None => []
      end
  | ContractRef =>
      match schema.Invoice_ContractReferences inv with
      | Some c =>
          schema.ContractReference_ID
            <$> schema.ContractReferences_ContractReference c
      | None => []
      end
  end.

(** The reference token of a line, when the line has a reference of the
    kind. *)
Definition lineRef (k : refKind) (line : schema.InvoiceLine) : option string :=
  match k with
  | OrderRef =>
      schema.OrderLineReference_Ref <$> schema.InvoiceLine_OrderReference line
  | DeliveryNoteRef =>
      schema.DeliveryNoteLineReference_Ref
        <$> schema.InvoiceLine_DeliveryNoteReference line
  | OriginalDocumentRef =>
      schema.OriginalDocumentLineReference_Ref
        <$> schema.InvoiceLine_OriginalDocumentReference line
  | ContractRef =>
      schema.ContractLineReference_Ref <$> schema.InvoiceLine_ContractReference line
  end.

(** The diagnostics of the header collection of a kind, and the set of
    identifiers it declares. *)
Definition headerErrors (k : refKind) (inv : schema.Invoice) : DecodeErrors :=
  (collectIDs (collectionPath k) (declaredIDs k inv) 0 ∅ []).2.

Definition headerRefs (k : refKind) (inv : schema.Invoice) : gmap string bool :=
  (collectIDs (collectionPath k) (declaredIDs k inv) 0 ∅ []).1.

(** The diagnostics of one line. *)
Definition lineErrors (refs : refKind -> gmap string bool) (i : nat)
    (line : schema.InvoiceLine) (k : refKind) : DecodeErrors :=
  checkRef (indexed "Invoice.InvoiceLines.InvoiceLine" i) (lineField k)
           (headerName k) (lineRef k line) (refs k) [].

(** The two diagnostics of reference resolution. *)
Definition UnresolvedReference (i : nat) (k : refKind) (ref : string) : DecodeError :=
  NewDecodeError (indexed "Invoice.InvoiceLines.InvoiceLine" i +:+ lineField k)
    (Errorf ("ref %q not found in header " +:+ headerName k) [ArgString ref]).

Definition DuplicateID (k : refKind) (j : nat) (id : string) : DecodeError :=
  NewDecodeError (indexed (collectionPath k) j)
    (Errorf "duplicate id %q" [ArgString id]).

Fixpoint all_digits (s : string) : bool :=
  match s with
  | EmptyString => true
  | String c r => isDigit c && all_digits r
  end.

Lemma pretty_N_char_digit (x : N) : isDigit (pretty_N_char x) = true.
Proof. unfold pretty_N_char. repeat case_match; reflexivity. Qed.

Lemma pretty_N_go_digits (x : N) :
  forall s, all_digits s = true -> all_digits (pretty_N_go x s) = true.
Proof.
  induction (N.lt_wf_0 x) as [x _ IH]. intros s Hs.
  destruct (decide (x = 0)%N) as [-> | Hx].
  - rewrite pretty_N_go_0. exact Hs.
  - rewrite pretty_N_go_step by lia.
    apply IH; [apply N.div_lt; lia |].
    simpl. rewrite pretty_N_char_digit. exact Hs.
Qed.

Lemma fmt_d_digits (i : nat) : all_digits (fmt_d (Z.of_nat i)) = true.
Proof.
  unfold fmt_d, pretty, pretty_Z.
  destruct (Z.of_nat i) as [|p|p] eqn:E; [reflexivity | | lia].
  unfold pretty, pretty_positive, pretty, pretty_N.
  case_decide; [reflexivity |].
  apply pretty_N_go_digits. reflexivity.
Qed.

Lemma fmt_d_inj (i j : nat) : fmt_d (Z.of_nat i) = fmt_d (Z.of_nat j) -> i = j.
Proof.
  unfold fmt_d. intros H. apply (inj pretty) in H. lia.
Qed.

(** A run of digits is delimited by the bracket that follows it. *)
Lemma digits_bracket_inj (d1 d2 r1 r2 : string) :
  all_digits d1 = true -> all_digits d2 = true ->
  d1 +:+ String "]" r1 = d2 +:+ String "]" r2 -> d1 = d2 /\ r1 = r2.
Proof.
  revert d2. induction d1 as [|c d1 IH]; intros [|c' d2] H1 H2 H; simpl in *.
  - inversion H. auto.
  - inversion H; subst. discriminate H2.
  - inversion H; subst. discriminate H1.
  - apply andb_true_iff in H1 as [_ H1]. apply andb_true_iff in H2 as [_ H2].
    inversion H; subst. destruct (IH d2 H1 H2 H4) as [-> ->]. auto.
Qed.

Lemma append_String (c : ascii) (a b : string) :
  String c a +:+ b = String c (a +:+ b).
Proof. reflexivity. Qed.

Lemma append_assoc (a b c : string) : (a +:+ b) +:+ c = a +:+ (b +:+ c).
Proof.
  induction a as [|x a IH]; [reflexivity |].
  rewrite !append_String. f_equal. exact IH.
Qed.

(** Two indexed paths with the same prefix agree only at the same index
    and with the same suffix. *)
Lemma indexed_inj (prefix : string) (i j : nat) (s t : string) :
  indexed prefix i +:+ s = indexed prefix j +:+ t -> i = j /\ s = t.
Proof.
  unfold indexed. rewrite !append_assoc. intros H.
  apply (inj (String.app prefix)) in H.
  rewrite !append_String in H. inversion H as [H'].
  change ("" +:+ ?x) with x in H'.
  apply digits_bracket_inj in H' as [Hd Hs]; try apply fmt_d_digits.
  split; [apply fmt_d_inj, Hd | exact Hs].
Qed.

Lemma collectIDs_acc (c : string) (ids : list string) :
  forall (i : nat) (refs : gmap string bool) (errs : DecodeErrors),
    collectIDs c ids i refs errs
    = ((collectIDs c ids i refs []).1, errs ++ (collectIDs c ids i refs []).2).
Proof.
  induction ids as [|id rest IH]; intros i refs errs; simpl.
  - rewrite app_nil_r. reflexivity.
  - destruct (negb (String.eqb id "")); [| apply IH].
    destruct (index_bool refs id).
    + rewrite IH. rewrite (IH _ _ [_]). simpl.
      rewrite <- app_assoc. reflexivity.
    + apply IH.
Qed.

Lemma checkRef_acc path field header ref refs (errs : DecodeErrors) :
  checkRef path field header ref refs errs
  = errs ++ checkRef path field header ref refs [].
Proof.
  unfold checkRef. destruct ref as [r|]; [| now rewrite app_nil_r].
  destruct (negb (String.eqb r "")); [| now rewrite app_nil_r].
  destruct (negb (index_bool refs r)); [reflexivity | now rewrite app_nil_r].
Qed.

(** The maps of the four kinds, as one function of the kind. *)
Definition refsOf (m1 m2 m3 m4 : gmap string bool) (k : refKind) : gmap string bool :=
  match k with
  | OrderRef => m1
  | DeliveryNoteRef => m2
  | OriginalDocumentRef => m3
  | ContractRef => m4
  end.

(** All the diagnostics of a line, kind after kind. *)
Definition allLineErrors (refs : refKind -> gmap string bool) (i : nat)
    (line : schema.InvoiceLine) : DecodeErrors :=
  lineErrors refs i line OrderRef ++ lineErrors refs i line DeliveryNoteRef
  ++ lineErrors refs i line OriginalDocumentRef
  ++ lineErrors refs i line ContractRef.

Lemma checkLines_acc (lines : list schema.InvoiceLine) m1 m2 m3 m4 :
  forall (i : nat) (errs : DecodeErrors),
    checkLines lines i m1 m2 m3 m4 errs
    = errs ++ concat (imap (fun j line => allLineErrors (refsOf m1 m2 m3 m4) (i + j) line)
                           lines).
Proof.
  induction lines as [|line rest IH]; intros i errs; simpl.
  - now rewrite app_nil_r.
  - rewrite IH.
    rewrite (checkRef_acc _ ".ContractReference").
    rewrite (checkRef_acc _ ".OriginalDocumentReference").
    rewrite (checkRef_acc _ ".DeliveryNoteReference").
    rewrite (checkRef_acc _ ".OrderReference").
    rewrite Nat.add_0_r. unfold allLineErrors at 2, lineErrors. simpl refsOf.
    rewrite <- !app_assoc.
    do 5 (apply (f_equal2 app); [reflexivity |]).
    f_equal. apply imap_ext. intros j x _. simpl. f_equal. lia.
Qed.

Lemma resolveReferences_parts (inv : schema.Invoice) :
  resolveReferences inv
  = headerErrors OrderRef inv ++ headerErrors DeliveryNoteRef inv
    ++ headerErrors OriginalDocumentRef inv ++ headerErrors ContractRef inv
    ++ concat (imap (fun j line => allLineErrors (fun k => headerRefs k inv) j line)
                 (schema.InvoiceLines_InvoiceLine (schema.Invoice_InvoiceLines inv))).
Proof.
  unfold resolveReferences.
  replace (match schema.Invoice_OrderReferences inv with
           | Some c => collectIDs _ _ 0 ∅ []
           | None => (∅, [])
           end)
    with (collectIDs (collectionPath OrderRef) (declaredIDs OrderRef inv) 0 ∅ [])
    by (simpl; destruct (schema.Invoice_OrderReferences inv); reflexivity).
  rewrite (collectIDs_acc _ _ 0 ∅ []). cbv iota beta.
  fold (headerErrors OrderRef inv) (headerRefs OrderRef inv).
  replace (match schema.Invoice_DeliveryNoteReferences inv with
           | Some c => collectIDs _ _ 0 ∅ _
           | None => (∅, _)
           end)
    with (collectIDs (collectionPath DeliveryNoteRef)
                     (declaredIDs DeliveryNoteRef inv) 0 ∅
                     ([] ++ headerErrors OrderRef inv))
    by (simpl; destruct (schema.Invoice_DeliveryNoteReferences inv); reflexivity).
  rewrite (collectIDs_acc _ _ 0 ∅ (_ ++ _)). cbv iota beta.
  fold (headerErrors DeliveryNoteRef inv) (headerRefs DeliveryNoteRef inv).
  replace (match schema.Invoice_OriginalDocumentReferences inv with
           | Some c => collectIDs _ _ 0 ∅ _
           | None => (∅, _)
           end)
    with (collectIDs (collectionPath OriginalDocumentRef)
                     (declaredIDs OriginalDocumentRef inv) 0 ∅
                     (([] ++ headerErrors OrderRef inv)
                      ++ headerErrors DeliveryNoteRef inv))
    by (simpl; destruct (schema.Invoice_OriginalDocumentReferences inv); reflexivity).
  rewrite (collectIDs_acc _ _ 0 ∅ (_ ++ _)). cbv iota beta.
  fold (headerErrors OriginalDocumentRef inv) (headerRefs OriginalDocumentRef inv).
  replace (match schema.Invoice_ContractReferences inv with
           | Some c => collectIDs _ _ 0 ∅ _
           | None => (∅, _)
           end)
    with (collectIDs (collectionPath ContractRef)
                     (declaredIDs ContractRef inv) 0 ∅
                     ((([] ++ headerErrors OrderRef inv)
                       ++ headerErrors DeliveryNoteRef inv)
                      ++ headerErrors OriginalDocumentRef inv))
    by (simpl; destruct (schema.Invoice_ContractReferences inv); reflexivity).
  rewrite (collectIDs_acc _ _ 0 ∅ (_ ++ _)). cbv iota beta.
  fold (headerErrors ContractRef inv) (headerRefs ContractRef inv).
  rewrite checkLines_acc. simpl app.
  rewrite <- !app_assoc. reflexivity.
Qed.

(** The diagnostics at a path, and the diagnostics under a header
    collection. *)
Definition atPath (p : string) (errs : list DecodeError) : list DecodeError :=
  filter (fun d => Path d = p) errs.

Definition underCollection (k : refKind) (errs : list DecodeError)
  : list DecodeError :=
  filter (fun d => HasPrefix (Path d) (collectionPath k +:+ "[") = true) errs.

Lemma filter_none {A : Type} (P : A -> Prop) `{forall x, Decision (P x)} (l : list A) :
  Forall (fun x => ~ P x) l -> filter P l = [].
Proof.
  induction 1 as [|x l Hx _ IH]; [reflexivity |].
  rewrite filter_cons_False by exact Hx. exact IH.
Qed.

Lemma filter_all {A : Type} (P : A -> Prop) `{forall x, Decision (P x)} (l : list A) :
  Forall P l -> filter P l = l.
Proof.
  induction 1 as [|x l Hx _ IH]; [reflexivity |].
  rewrite filter_cons_True by exact Hx. now rewrite IH.
Qed.

Lemma Forall_concat_imap {A B : Type} (Q : B -> Prop) (g : nat -> A -> list B)
    (l : list A) :
  (forall j x, l !! j = Some x -> Forall Q (g j x)) ->
  Forall Q (concat (imap g l)).
Proof.
  revert g. induction l as [|x l IH]; intros g H; simpl; [constructor |].
  apply Forall_app. split; [apply (H 0 x); reflexivity |].
  apply IH. intros j y Hy. apply (H (S j) y). exact Hy.
Qed.

(** Every diagnostic of a header collection sits at an entry of that
    collection. *)
Lemma collectIDs_paths (c : string) (ids : list string) :
  forall (i : nat) (refs : gmap string bool),
    Forall (fun d => exists j, Path d = indexed c j)
           (collectIDs c ids i refs []).2.
Proof.
  induction ids as [|id rest IH]; intros i refs; simpl; [constructor |].
  destruct (negb (String.eqb id "")); [| apply IH].
  destruct (index_bool refs id); [| apply IH].
  rewrite collectIDs_acc. simpl.
  constructor; [exists i; reflexivity | apply IH].
Qed.

(** An identifier found in the set was declared by an entry. *)
Lemma collectIDs_declared (c : string) (ids : list string) (x : string) :
  forall (i : nat) (refs : gmap string bool),
    index_bool (collectIDs c ids i refs []).1 x = true ->
    index_bool refs x = true \/ x ∈ ids.
Proof.
  induction ids as [|id rest IH]; intros i refs; simpl; [auto |].
  destruct (negb (String.eqb id "")).
  - rewrite collectIDs_acc. simpl. intros H. apply IH in H as [H | H].
    + destruct (decide (id = x)) as [-> | Hne]; [right; left |].
      left. unfold index_bool in *. rewrite lookup_insert_ne in H by exact Hne.
      exact H.
    + right. right. exact H.
  - intros H. apply IH in H as [H | H]; [left | right; right]; exact H.
Qed.

Lemma headerRefs_undeclared (k : refKind) (inv : schema.Invoice) (ref : string) :
  ref ∉ declaredIDs k inv -> index_bool (headerRefs k inv) ref = false.
Proof.
  intros Hnot. destruct (index_bool (headerRefs k inv) ref) eqn:E; [| reflexivity].
  apply collectIDs_declared in E as [E | E]; [discriminate E | contradiction].
Qed.

Lemma lineErrors_unresolved (refs : refKind -> gmap string bool) (i : nat)
    (line : schema.InvoiceLine) (k : refKind) (ref : string) :
  lineRef k line = Some ref -> ref <> "" -> index_bool (refs k) ref = false ->
  lineErrors refs i line k = [UnresolvedReference i k ref].
Proof.
  intros Href Hne Hidx. unfold lineErrors, checkRef. rewrite Href.
  apply String.eqb_neq in Hne. rewrite Hne, Hidx. reflexivity.
Qed.

Lemma lineErrors_paths (refs : refKind -> gmap string bool) (i : nat)
    (line : schema.InvoiceLine) (k : refKind) :
  Forall (fun d => Path d = indexed "Invoice.InvoiceLines.InvoiceLine" i +:+ lineField k)
         (lineErrors refs i line k).
Proof.
  unfold lineErrors, checkRef.
  destruct (lineRef k line) as [r|]; [| constructor].
  destruct (negb (String.eqb r "")); [| constructor].
  destruct (negb (index_bool (refs k) r)); repeat constructor.
Qed.

Lemma lineField_inj (k k' : refKind) : lineField k = lineField k' -> k = k'.
Proof. destruct k, k'; simpl; intros H; first [reflexivity | discriminate H]. Qed.

(** The diagnostics of line [j] for kind [k'], seen from the path of line
    [i] and kind [k]. *)
Lemma atPath_lineErrors (refs : refKind -> gmap string bool) (i j : nat)
    (line : schema.InvoiceLine) (k k' : refKind) :
  atPath (indexed "Invoice.InvoiceLines.InvoiceLine" i +:+ lineField k)
         (lineErrors refs j line k')
  = if decide (i = j /\ k = k') then lineErrors refs j line k' else [].
Proof.
  unfold atPath. pose proof (lineErrors_paths refs j line k') as Hp.
  case_decide as Hd.
  - destruct Hd as [-> ->]. apply filter_all. exact Hp.
  - apply filter_none. eapply Forall_impl; [exact Hp |].
    intros d Hd1 Hd2. simpl in Hd1, Hd2. rewrite Hd1 in Hd2.
    apply indexed_inj in Hd2 as [-> Hf]. apply lineField_inj in Hf.
    apply Hd. auto.
Qed.

Lemma atPath_app (p : string) (a b : list DecodeError) :
  atPath p (a ++ b) = atPath p a ++ atPath p b.
Proof. apply filter_app. Qed.

Lemma underCollection_app (k : refKind) (a b : list DecodeError) :
  underCollection k (a ++ b) = underCollection k a ++ underCollection k b.
Proof. apply filter_app. Qed.

Lemma atPath_allLineErrors (refs : refKind -> gmap string bool) (i j : nat)
    (line : schema.InvoiceLine) (k : refKind) :
  atPath (indexed "Invoice.InvoiceLines.InvoiceLine" i +:+ lineField k)
         (allLineErrors refs j line)
  = if decide (i = j) then lineErrors refs j line k else [].
Proof.
  unfold allLineErrors. rewrite !atPath_app, !atPath_lineErrors.
  destruct (decide (i = j)) as [-> | Hne].
  - destruct k; repeat case_decide; try reflexivity;
      try (exfalso; intuition congruence);
      rewrite ?app_nil_r; reflexivity.
  - repeat case_decide; try reflexivity; exfalso; intuition congruence.
Qed.

(** A header diagnostic is not at the path of a line. *)
Lemma atPath_headerErrors (inv : schema.Invoice) (i : nat) (k k' : refKind) :
  atPath (indexed "Invoice.InvoiceLines.InvoiceLine" i +:+ lineField k)
         (headerErrors k' inv) = [].
Proof.
  apply filter_none. eapply Forall_impl; [apply collectIDs_paths |].
  intros d [j Hj] Hd. simpl in Hd. rewrite Hj in Hd.
  destruct k'; unfold indexed, collectionPath in Hd; discriminate Hd.
Qed.

Lemma atPath_concat_imap_none {A : Type} (p : string)
    (g : nat -> A -> list DecodeError) (l : list A) :
  (forall j x, l !! j = Some x -> atPath p (g j x) = []) ->
  atPath p (concat (imap g l)) = [].
Proof.
  revert g. induction l as [|x l IH]; intros g H; simpl; [reflexivity |].
  rewrite atPath_app, (H 0 x) by reflexivity. simpl.
  apply IH. intros j y Hy. apply (H (S j) y). exact Hy.
Qed.

(** Among the diagnostics of all the lines, those at the path of line [i]
    and kind [k] are the diagnostics of that line for that kind. *)
Lemma atPath_lines (refs : refKind -> gmap string bool)
    (lines : list schema.InvoiceLine) (i : nat) (line : schema.InvoiceLine)
    (k : refKind) :
  lines !! i = Some line ->
  atPath (indexed "Invoice.InvoiceLines.InvoiceLine" i +:+ lineField k)
         (concat (imap (fun j l => allLineErrors refs j l) lines))
  = lineErrors refs i line k.
Proof.
  intros Hi.
  assert (Hlen : length (take i lines) = i).
  { rewrite length_take. apply lookup_lt_Some in Hi. lia. }
  rewrite <- (take_drop_middle lines i line Hi) at 1.
  rewrite imap_app, imap_cons, concat_app. simpl concat.
  rewrite !atPath_app.
  rewrite atPath_concat_imap_none.
  2:{ intros j x Hj. rewrite atPath_allLineErrors.
      apply lookup_lt_Some in Hj. rewrite Hlen in Hj.
      case_decide; [lia | reflexivity]. }
  rewrite atPath_concat_imap_none.
  2:{ intros j x _. simpl. rewrite atPath_allLineErrors.
      case_decide; [lia | reflexivity]. }
  rewrite atPath_allLineErrors, Hlen, Nat.add_0_r.
  case_decide; [| lia]. simpl. apply app_nil_r.
Qed.

Lemma prefix_append (p s : string) : String.prefix p (p +:+ s) = true.
Proof.
  induction p as [|a p IH]; [destruct s; reflexivity |].
  rewrite append_String. simpl.
  destruct (ascii_dec a a) as [_ | Hne]; [exact IH | contradiction].
Qed.

Lemma indexed_prefix (c : string) (j : nat) :
  HasPrefix (indexed c j) (c +:+ "[") = true.
Proof.
  unfold HasPrefix, indexed.
  replace (c +:+ "[" +:+ fmt_d (Z.of_nat j) +:+ "]")
    with ((c +:+ "[") +:+ (fmt_d (Z.of_nat j) +:+ "]"))
    by (rewrite append_assoc; reflexivity).
  apply prefix_append.
Qed.

Lemma underCollection_headerErrors (inv : schema.Invoice) (k k' : refKind) :
  underCollection k (headerErrors k' inv)
  = if decide (k = k') then headerErrors k' inv else [].
Proof.
  pose proof (collectIDs_paths (collectionPath k') (declaredIDs k' inv) 0 ∅) as Hp.
  fold (headerErrors k' inv) in Hp.
  case_decide as Hd.
  - subst k'. apply filter_all. eapply Forall_impl; [exact Hp |].
    intros d [j Hj]. simpl. rewrite Hj. apply indexed_prefix.
  - apply filter_none. eapply Forall_impl; [exact Hp |].
    intros d [j Hj]. simpl. rewrite Hj.
    destruct k, k'; first [congruence | discriminate].
Qed.

Lemma underCollection_lines (refs : refKind -> gmap string bool)
    (lines : list schema.InvoiceLine) (k : refKind) :
  underCollection k (concat (imap (fun j l => allLineErrors refs j l) lines)) = [].
Proof.
  apply filter_none. apply Forall_concat_imap. intros j line _.
  unfold allLineErrors. rewrite !Forall_app. repeat split.
  all: eapply Forall_impl; [apply lineErrors_paths |].
  all: intros d Hd; simpl in *; rewrite Hd; destruct k; discriminate.
Qed.

(** Two entries that share a non-empty identifier: one diagnostic, at the
    second entry. *)
Lemma headerErrors_pair (inv : schema.Invoice) (k : refKind) (id : string) :
  id <> "" -> declaredIDs k inv = [id; id] ->
  headerErrors k inv = [DuplicateID k 1 id].
Proof.
  intros Hne Hids. unfold headerErrors. rewrite Hids. simpl.
  apply String.eqb_neq in Hne. rewrite Hne. simpl.
  replace (index_bool (<[id:=true]> ∅) id) with true
    by (unfold index_bool; rewrite lookup_insert_eq; reflexivity).
  replace (index_bool ∅ id) with false
    by (unfold index_bool; rewrite lookup_empty; reflexivity).
  reflexivity.
Qed.

(** C4. A line whose reference token of some kind is set, is not empty and
    is not among the identifiers that the header collection of that kind
    declares gets exactly one diagnostic at the path of that line and
    reference, the one that reports the token as not found.  A header
    collection that declares exactly two identifiers, equal and not empty,
    gets exactly one diagnostic, the duplicate reported at its second
    entry. *)
Theorem reference_integrity (inv : schema.Invoice) (k : refKind) :
  (forall (i : nat) (line : schema.InvoiceLine) (ref : string),
      schema.InvoiceLines_InvoiceLine (schema.Invoice_InvoiceLines inv) !! i
      = Some line ->
      lineRef k line = Some ref ->
      ref <> "" ->
      ref ∉ declaredIDs k inv ->
      atPath (indexed "Invoice.InvoiceLines.InvoiceLine" i +:+ lineField k)
             (resolveReferences inv)
      = [UnresolvedReference i k ref])
  /\ (forall id : string,
        id <> "" ->
        declaredIDs k inv = [id; id] ->
        underCollection k (resolveReferences inv) = [DuplicateID k 1 id]).
Proof.
  split.
  - intros i line ref Hline Href Hne Hnot.
    rewrite resolveReferences_parts. rewrite !atPath_app.
    rewrite !atPath_headerErrors. simpl.
    rewrite (atPath_lines _ _ i line k Hline).
    apply lineErrors_unresolved; [exact Href | exact Hne |].
    apply headerRefs_undeclared. exact Hnot.
  - intros id Hne Hids.
    rewrite resolveReferences_parts. rewrite !underCollection_app.
    rewrite !underCollection_headerErrors, underCollection_lines.
    rewrite <- (headerErrors_pair inv k id Hne Hids).
    destruct k; repeat case_decide; try congruence;
      simpl; rewrite ?app_nil_r; reflexivity.
Qed.

(** An invoice whose header declares the order identifier A twice and
    whose only line refers to the order X. *)
Definition danglingOrderLine : schema.InvoiceLine :=
  sampleLine
    (Some {| schema.OrderLineReference_Ref := "X";
             schema.OrderLineReference_LineID := "" |})
    (quantityOf "1") None.

Definition danglingOrderInvoice : schema.Invoice :=
  sampleInvoice "6.0.2" 1 ""
    (Some {| schema.OrderReferences_OrderReference :=
               [sampleOrderReference "A"; sampleOrderReference "A"] |})
    {| schema.InvoiceLines_InvoiceLine := [danglingOrderLine] |}
    schema.LegalMonetaryTotal_zero.

Lemma reference_integrity_witness :
  atPath (indexed "Invoice.InvoiceLines.InvoiceLine" 0 +:+ lineField OrderRef)
         (resolveReferences danglingOrderInvoice)
  = [UnresolvedReference 0 OrderRef "X"]
  /\ underCollection OrderRef (resolveReferences danglingOrderInvoice)
     = [DuplicateID OrderRef 1 "A"].
Proof.
  split.
  - apply (proj1 (reference_integrity danglingOrderInvoice OrderRef)
                 0 danglingOrderLine "X").
    + reflexivity.
    + reflexivity.
    + discriminate.
    + simpl. intros H. apply list_elem_of_In in H. simpl in H.
      destruct H as [H | [H | []]]; discriminate H.
  - apply (proj2 (reference_integrity danglingOrderInvoice OrderRef) "A").
    + discriminate.
    + reflexivity.
Defined.

(** An [xml.Unmarshal] on two inputs: the truncated document [<Invoice] is
    a syntax error and leaves the invoice empty; any other input is taken
    for the document of [danglingOrderInvoice]. *)
Definition unmarshal_sample (data : string) : schema.Invoice * option error :=
  if String.eqb data "<Invoice"
  then (schema.Invoice_zero,
        Some (External "XML syntax error on line 1: unexpected EOF"))
  else (danglingOrderInvoice, None).

Lemma DecodeBytes_total_witness :
  DecodeBytes unmarshal_sample "<Invoice"
  = (None,
     Some (one_DecodeError
             (NewDecodeError ""
                (Errorf "XML parsing: %w"
                   [ArgError (External "XML syntax error on line 1: unexpected EOF")]))))
  /\ DecodeBytes unmarshal_sample "<Invoice>...</Invoice>"
     = (Some danglingOrderInvoice,
        Some (many_DecodeErrors
                [DuplicateID OrderRef 1 "A"; UnresolvedReference 0 OrderRef "X"])).
Proof.
  split.
  - apply (proj1 (proj2 (DecodeBytes_total unmarshal_sample "<Invoice"))
                 schema.Invoice_zero).
    reflexivity.
  - rewrite (proj2 (proj2 (DecodeBytes_total unmarshal_sample
                             "<Invoice>...</Invoice>"))
                   danglingOrderInvoice eq_refl).
    vm_compute. reflexivity.
Defined.

(** ** The root element *)

(** An invoice as decoding leaves it behind for a document whose root has
    the attribute [version] written with an escaped ampersand between A
    and B: the version holds the three bytes A, ampersand, B. *)
Definition ampersandVersionInvoice : schema.Invoice :=
  sampleInvoice "A&B" 0 "" None schema.InvoiceLines_zero
                schema.LegalMonetaryTotal_zero.

(** The first two lines of its encoding. *)
Definition ampersandVersionHeader : string :=
  "<?xml version=" +:+ dq +:+ "1.0" +:+ dq +:+ " encoding=" +:+ dq +:+ "UTF-8"
  +:+ dq +:+ "?>" +:+ nl
  +:+ "<Invoice xmlns=" +:+ dq +:+ "http://isdoc.cz/namespace/2013" +:+ dq
  +:+ " version=" +:+ dq +:+ "A&B" +:+ dq +:+ ">" +:+ nl.

Section RootFacts.

Variable Sequence : gmap string (list string).
Variable EscapeText : string -> string.
Variable Stringer : reflect.value -> option string.
Variable MarshalIndent : reflect.value -> string -> string -> string * option error.

(** The text of an element goes through [EscapeText]. *)
Lemma element_text_escaped (e : Encoder) (name s : string) (depth : nat) :
  s <> "" ->
  encodeValue Sequence EscapeText Stringer MarshalIndent e name
    (reflect.VString s) depth
  = WriteString (element (Repeat (indent e) depth) name (EscapeText s)).
Proof.
  intros Hs. apply String.eqb_neq in Hs.
  cbn [encodeValue]. unfold encodeKind. simpl isZero. rewrite Hs. reflexivity.
Qed.

(** C3 (evaluation at the failing input). Whatever the ordering table and
    the escaping function, the bytes [EncodeBytes] returns for an invoice
    whose version is A, ampersand, B start with the XML declaration and a
    root tag whose [version] attribute holds the ampersand as it is: the
    version never goes through [EscapeText], which the text of an element
    does. *)
Theorem EncodeBytes_version_not_escaped (inv : schema.Invoice) (bytes : string) :
  schema.Invoice_Version inv = "A&B" ->
  (EncodeBytes Sequence EscapeText Stringer MarshalIndent inv).1 = Some bytes ->
  HasPrefix bytes ampersandVersionHeader = true
  /\ encodeValue Sequence EscapeText Stringer MarshalIndent NewEncoder "ID"
       (reflect.VString "A&B") 1
     = WriteString (element "  " "ID" (EscapeText "A&B")).
Proof.
  intros Hversion Hbytes. split; [| apply element_text_escaped; discriminate].
  unfold EncodeBytes, Encode in Hbytes. rewrite Hversion in Hbytes.
  destruct (encodeInvoiceContent _ _ _ _ _ _ _) as [content [err|]];
    simpl in Hbytes; [discriminate Hbytes |].
  inversion Hbytes as [Hb]. clear Hbytes Hb.
  unfold HasPrefix.
  replace (((xmlDeclaration +:+ rootTag "Invoice" "A&B") +:+ nl)
           +:+ content +:+ "</Invoice>" +:+ nl)
    with (ampersandVersionHeader +:+ (content +:+ "</Invoice>" +:+ nl)).
  - apply prefix_append.
  - unfold ampersandVersionHeader, xmlDeclaration, rootTag, schema.Namespace.
    rewrite !append_assoc. reflexivity.
Qed.

End RootFacts.

Lemma EncodeBytes_version_not_escaped_witness :
  (EncodeBytes ∅ id noStringer noMarshalIndent ampersandVersionInvoice).1
  = Some (ampersandVersionHeader +:+ "</Invoice>" +:+ nl)
  /\ HasPrefix (ampersandVersionHeader +:+ "</Invoice>" +:+ nl)
               ampersandVersionHeader = true.
Proof.
  split; [vm_compute; reflexivity |].
  refine (proj1 (EncodeBytes_version_not_escaped ∅ id noStringer noMarshalIndent
                   ampersandVersionInvoice
                   (ampersandVersionHeader +:+ "</Invoice>" +:+ nl) _ _)).
  - reflexivity.
  - vm_compute. reflexivity.
Defined.

(* ===================================================================== *)
(** * Further properties: validation *)
(* ===================================================================== *)

(** A diagnostic with its severity raised to Error. *)
Definition raised (e : ValidationError) : ValidationError :=
  {| Field := Field e; Code := Code e; Severity_ := SeverityError; Msg := Msg e |}.

Lemma fmap_when (f : ValidationError -> ValidationError) (c : bool)
    (e : ValidationError) :
  f <$> when c e = when c (f e).
Proof. destruct c; reflexivity. Qed.

Lemma fmap_forRange {A : Type} (f : ValidationError -> ValidationError)
    (body body' : nat -> A -> ValidationErrors) (l : list A) :
  (forall i x, body' i x = f <$> body i x) ->
  forRange body' l = f <$> forRange body l.
Proof.
  unfold forRange. revert body body'.
  induction l as [|x l IH]; intros body body' H; simpl; [reflexivity |].
  rewrite fmap_app, H. f_equal. apply IH. intros i y. apply H.
Qed.

(** Relates the two sides of a rule, rule by rule. *)
Ltac rule_by_rule :=
  repeat match goal with
    | |- _ ++ _ = _ <$> (_ ++ _) => rewrite fmap_app; apply (f_equal2 app)
    | |- when ?c _ = _ <$> when ?c _ => destruct c; reflexivity
    | |- forRange _ ?l = _ <$> forRange _ ?l => apply fmap_forRange; intros ? ?
    | |- (if ?c then _ else _) = _ <$> (if ?c then _ else _) => destruct c
    | |- match ?o with Some _ => _ | None => _ end = _ <$> _ => destruct o
    | |- (let _ := _ in _) = _ => cbv zeta
    | |- [] = _ <$> [] => reflexivity
    | |- [_] = _ <$> [_] => reflexivity
    end.

Lemma validateParty_raised (path : string) (party : schema.Party)
    (o1 o2 : ValidateOptions) :
  Strict o1 = true -> Strict o2 = false ->
  validateParty path party o1 = raised <$> validateParty path party o2.
Proof.
  intros H1 H2. unfold validateParty, severityOf. rewrite H1, H2.
  rule_by_rule.
Qed.

Lemma validateStructural_raised (inv : schema.Invoice) (o1 o2 : ValidateOptions) :
  Strict o1 = true -> Strict o2 = false ->
  validateStructural inv o1 = raised <$> validateStructural inv o2.
Proof.
  intros H1 H2. unfold validateStructural, validateInvoiceLine, severityOf.
  rewrite H1, H2. cbv zeta.
  rule_by_rule; try (apply validateParty_raised; assumption).
Qed.

Lemma batchLoop_raised (path unit : string) (batches : list schema.StoreBatch) :
  forall (st st' : batchState) (j : nat),
    batchQuantitySum st' = batchQuantitySum st ->
    seenUnitCodes st' = seenUnitCodes st ->
    batchErrs st' = raised <$> batchErrs st ->
    batchQuantitySum (batchLoop SeverityError path unit st' j batches)
    = batchQuantitySum (batchLoop SeverityWarning path unit st j batches)
    /\ seenUnitCodes (batchLoop SeverityError path unit st' j batches)
       = seenUnitCodes (batchLoop SeverityWarning path unit st j batches)
    /\ batchErrs (batchLoop SeverityError path unit st' j batches)
       = raised <$> batchErrs (batchLoop SeverityWarning path unit st j batches).
Proof.
  induction batches as [|b rest IH]; intros st st' j Hsum Hseen Herrs; simpl.
  - auto.
  - apply IH; unfold batchStep; simpl.
    + rewrite Hsum. reflexivity.
    + rewrite Hseen. reflexivity.
    + rewrite Herrs, fmap_app, fmap_when. reflexivity.
Qed.

Lemma validateStoreBatches_raised (inv : schema.Invoice) (o1 o2 : ValidateOptions) :
  Strict o1 = true -> Strict o2 = false ->
  validateStoreBatches inv o1 = raised <$> validateStoreBatches inv o2.
Proof.
  intros H1 H2. unfold validateStoreBatches, severityOf. rewrite H1, H2.
  cbv zeta. apply fmap_forRange. intros i line.
  destruct (_ || _); [reflexivity |].
  destruct (batchLoop_raised (indexed "Invoice.InvoiceLines.InvoiceLine" i)
              (schema.Quantity_UnitCode (schema.InvoiceLine_InvoicedQuantity line))
              (storeBatchesOf line)
              {| batchQuantitySum := float64.zero; seenUnitCodes := [];
                 batchErrs := [] |}
              {| batchQuantitySum := float64.zero; seenUnitCodes := [];
                 batchErrs := [] |} 0 eq_refl eq_refl eq_refl)
    as (Hsum & Hseen & Herrs).
  rewrite Hsum, Hseen, Herrs, !fmap_app, !fmap_when. reflexivity.
Qed.

Lemma validateSemantic_raised (inv : schema.Invoice) (o1 o2 : ValidateOptions) :
  Strict o1 = true -> Strict o2 = false ->
  validateSemantic inv o1 = raised <$> validateSemantic inv o2.
Proof.
  intros H1 H2. unfold validateSemantic.
  rewrite !fmap_app. repeat apply (f_equal2 app).
  - unfold validateOriginalDocumentLink. rule_by_rule.
  - unfold validateCurrencyConsistency, validateForeignCurrencyFieldsPresent,
      validateNoForeignCurrencyFields, severityOf.
    rewrite H1, H2. cbv zeta. rule_by_rule.
  - unfold validateVATConsistency. rule_by_rule.
  - unfold validateItemIdentificationHierarchy, severityOf. rewrite H1, H2.
    cbv zeta. rule_by_rule.
  - apply validateStoreBatches_raised; assumption.
Qed.

(** X1. Strict options change severities and nothing else: the diagnostics of
    a strict validation are those of a validation that is not strict, in
    the same order, on the same fields, with the same codes and messages,
    each with severity Error.  So a strict validation reports no
    warning. *)
Theorem strict_raises_severities_only (inv : schema.Invoice)
    (o1 o2 : ValidateOptions) :
  Strict o1 = true -> Strict o2 = false ->
  ValidateInvoiceWithOptions inv o1
  = raised <$> ValidateInvoiceWithOptions inv o2
  /\ HasWarnings (ValidateInvoiceWithOptions inv o1) = false.
Proof.
  intros H1 H2.
  assert (Heq : ValidateInvoiceWithOptions inv o1
                = raised <$> ValidateInvoiceWithOptions inv o2).
  { unfold ValidateInvoiceWithOptions. rewrite fmap_app.
    rewrite (validateStructural_raised inv o1 o2 H1 H2).
    rewrite (validateSemantic_raised inv o1 o2 H1 H2). reflexivity. }
  split; [exact Heq |].
  rewrite Heq. clear Heq. unfold HasWarnings.
  induction (ValidateInvoiceWithOptions inv o2) as [|e l IH]; [reflexivity |].
  simpl. exact IH.
Qed.

(** X2. Validation reads the options through [Strict] only: neither
    [AllowRoundingTolerance] nor [Tolerance] changes any diagnostic. *)
Theorem validation_reads_Strict_only (inv : schema.Invoice)
    (o1 o2 : ValidateOptions) :
  Strict o1 = Strict o2 ->
  ValidateInvoiceWithOptions inv o1 = ValidateInvoiceWithOptions inv o2.
Proof.
  destruct o1 as [s1 a1 t1], o2 as [s2 a2 t2]. simpl. intros ->. reflexivity.
Qed.

(** ** Blocking issues *)

Lemma HasErrors_app (a b : ValidationErrors) :
  HasErrors (a ++ b) = HasErrors a || HasErrors b.
Proof. apply existsb_app. Qed.

Lemma HasErrors_when (c : bool) (e : ValidationError) :
  HasErrors (when c e) = c && Severity_eqb (Severity_ e) SeverityError.
Proof. destruct c; simpl; [apply orb_false_r | reflexivity]. Qed.

Lemma HasErrors_forRange {A : Type} (body : nat -> A -> ValidationErrors)
    (g : A -> bool) (l : list A) :
  (forall i x, HasErrors (body i x) = g x) ->
  HasErrors (forRange body l) = existsb g l.
Proof.
  unfold forRange. revert body.
  induction l as [|x l IH]; intros body H; simpl; [reflexivity |].
  rewrite HasErrors_app, H. f_equal. apply IH. intros i y. apply H.
Qed.

Lemma HasErrors_warnings (l : ValidationErrors) :
  Forall (fun e => Severity_ e = SeverityWarning) l -> HasErrors l = false.
Proof.
  induction 1 as [|e l He _ IH]; [reflexivity |].
  simpl. rewrite He. exact IH.
Qed.

(** A party without its identification or without its name. *)
Definition partyIncomplete (party : schema.Party) : bool :=
  String.eqb (schema.PartyIdentification_ID
                (schema.Party_PartyIdentification party)) ""
  || String.eqb (schema.PartyName_Name (schema.Party_PartyName party)) "".

(** The conditions under which the validator reports a diagnostic of
    severity Error whatever the options. *)
Definition blockingIssue (inv : schema.Invoice) : bool :=
  let lines := schema.InvoiceLines_InvoiceLine (schema.Invoice_InvoiceLines inv) in
  String.eqb (schema.Invoice_Version inv) ""
  || ((schema.Invoice_DocumentType inv <? 1)%Z
      || (7 <? schema.Invoice_DocumentType inv)%Z)
  || String.eqb (schema.Invoice_ID inv) ""
  || String.eqb (schema.Invoice_UUID inv) ""
  || types.Date_IsZero (schema.Invoice_IssueDate inv)
  || String.eqb (schema.Invoice_LocalCurrencyCode inv) ""
  || String.eqb (schema.Invoice_CurrRate inv) ""
  || String.eqb (schema.Invoice_RefCurrRate inv) ""
  || partyIncomplete (schema.AccountingSupplierParty_Party
                        (schema.Invoice_AccountingSupplierParty inv))
  || match schema.Invoice_AccountingCustomerParty inv,
           schema.Invoice_AnonymousCustomerParty inv with
     | None, None => negb (schema.Invoice_DocumentType inv =? 7)%Z
     | Some customer, _ =>
         partyIncomplete (schema.AccountingCustomerParty_Party customer)
     | None, Some _ => false
     end
  || (length lines =? 0)%nat
  || existsb (fun line => String.eqb (schema.InvoiceLine_ID line) "") lines
  || (((schema.Invoice_DocumentType inv =? 2)%Z
       || (schema.Invoice_DocumentType inv =? 3)%Z
       || (schema.Invoice_DocumentType inv =? 6)%Z)
      && match schema.Invoice_OriginalDocumentReferences inv with
         | None => true
         | Some refs =>
             (length (schema.OriginalDocumentReferences_OriginalDocumentReference refs)
              =? 0)%nat
         end)
  || (negb (String.eqb (schema.Invoice_ForeignCurrencyCode inv) "")
      && String.eqb (schema.Invoice_ForeignCurrencyCode inv)
                    (schema.Invoice_LocalCurrencyCode inv))
  || (negb (schema.Invoice_VATApplicable inv)
      && existsb (fun line =>
                    schema.ClassifiedTaxCategory_VATApplicable
                      (schema.InvoiceLine_ClassifiedTaxCategory line)) lines).

Ltac by_options := simpl; reflexivity.

Lemma validateParty_blocking (path : string) (party : schema.Party)
    (opts : ValidateOptions) :
  Strict opts = false ->
  HasErrors (validateParty path party opts) = partyIncomplete party.
Proof.
  intros Hs. unfold validateParty, partyIncomplete, severityOf. rewrite Hs.
  cbv zeta. rewrite !HasErrors_app, !HasErrors_when. simpl.
  rewrite !andb_true_r, !andb_false_r, !orb_false_r. reflexivity.
Qed.

Lemma validateInvoiceLine_blocking (path : string) (line : schema.InvoiceLine)
    (opts : ValidateOptions) :
  Strict opts = false ->
  HasErrors (validateInvoiceLine path line opts)
  = String.eqb (schema.InvoiceLine_ID line) "".
Proof.
  intros Hs. unfold validateInvoiceLine, severityOf. rewrite Hs. cbv zeta.
  rewrite !HasErrors_app, !HasErrors_when. simpl.
  rewrite !andb_false_r, !orb_false_r.
  destruct (String.eqb (schema.InvoiceLine_ID line) ""); [reflexivity |].
  destruct (36 <? _)%Z; reflexivity.
Qed.

Lemma validateStructural_blocking (inv : schema.Invoice) (opts : ValidateOptions) :
  Strict opts = false ->
  HasErrors (validateStructural inv opts)
  = (String.eqb (schema.Invoice_Version inv) ""
     || ((schema.Invoice_DocumentType inv <? 1)%Z
         || (7 <? schema.Invoice_DocumentType inv)%Z)
     || String.eqb (schema.Invoice_ID inv) ""
     || String.eqb (schema.Invoice_UUID inv) ""
     || types.Date_IsZero (schema.Invoice_IssueDate inv)
     || String.eqb (schema.Invoice_LocalCurrencyCode inv) ""
     || String.eqb (schema.Invoice_CurrRate inv) ""
     || String.eqb (schema.Invoice_RefCurrRate inv) ""
     || partyIncomplete (schema.AccountingSupplierParty_Party
                           (schema.Invoice_AccountingSupplierParty inv))
     || match schema.Invoice_AccountingCustomerParty inv,
              schema.Invoice_AnonymousCustomerParty inv with
        | None, None => negb (schema.Invoice_DocumentType inv =? 7)%Z
        | Some customer, _ =>
            partyIncomplete (schema.AccountingCustomerParty_Party customer)
        | None, Some _ => false
        end
     || (length (schema.InvoiceLines_InvoiceLine
                   (schema.Invoice_InvoiceLines inv)) =? 0)%nat
     || existsb (fun line => String.eqb (schema.InvoiceLine_ID line) "")
                (schema.InvoiceLines_InvoiceLine (schema.Invoice_InvoiceLines inv))).
Proof.
  intros Hs. unfold validateStructural.
  rewrite !HasErrors_app, !HasErrors_when.
  rewrite (validateParty_blocking _ _ _ Hs).
  rewrite (HasErrors_forRange _ (fun line => String.eqb (schema.InvoiceLine_ID line) ""))
    by (intros i x; apply validateInvoiceLine_blocking; exact Hs).
  unfold severityOf. rewrite Hs. simpl Severity_. simpl Severity_eqb.
  rewrite !andb_true_r, !andb_false_r, !orb_false_r.
  unfold types.UUID_IsZero, types.Decimal_IsZero.
  rewrite <- !orb_assoc.
  repeat (f_equal; []).
  f_equal.
  { destruct (String.eqb (schema.Invoice_LocalCurrencyCode inv) "");
      [reflexivity |]. destruct (negb _); reflexivity. }
  do 3 f_equal.
  destruct (schema.Invoice_AccountingCustomerParty inv) as [c|],
           (schema.Invoice_AnonymousCustomerParty inv) as [a|];
    rewrite ?HasErrors_when, ?(validateParty_blocking _ _ _ Hs); simpl;
    rewrite ?andb_true_r; reflexivity.
Qed.

Lemma batchLoop_severity (severity : Severity) (path unit : string)
    (batches : list schema.StoreBatch) :
  forall (st : batchState) (j : nat),
    Forall (fun e => Severity_ e = severity) (batchErrs st) ->
    Forall (fun e => Severity_ e = severity)
           (batchErrs (batchLoop severity path unit st j batches)).
Proof.
  induction batches as [|b rest IH]; intros st j Hst; simpl; [exact Hst |].
  apply IH. unfold batchStep. simpl.
  apply Forall_app. split; [exact Hst |]. apply Forall_when. reflexivity.
Qed.

(** The rules that take their severity from the options alone. *)
Lemma optional_rules_severity (inv : schema.Invoice) (opts : ValidateOptions) :
  Forall (fun e => Severity_ e = severityOf opts)
         (validateForeignCurrencyFieldsPresent inv opts
          ++ validateNoForeignCurrencyFields inv opts
          ++ validateItemIdentificationHierarchy inv opts
          ++ validateStoreBatches inv opts).
Proof.
  rewrite !Forall_app. repeat split.
  - unfold validateForeignCurrencyFieldsPresent. each_diagnostic by_options.
  - unfold validateNoForeignCurrencyFields. each_diagnostic by_options.
  - unfold validateItemIdentificationHierarchy. each_diagnostic by_options.
  - unfold validateStoreBatches. apply Forall_forRange. intros i line.
    destruct (_ || _); [constructor |]. cbv zeta.
    apply Forall_app. split; [apply batchLoop_severity; constructor |].
    apply Forall_app. split; apply Forall_when; reflexivity.
Qed.

Lemma validateSemantic_blocking (inv : schema.Invoice) (opts : ValidateOptions) :
  Strict opts = false ->
  HasErrors (validateSemantic inv opts)
  = ((((schema.Invoice_DocumentType inv =? 2)%Z
       || (schema.Invoice_DocumentType inv =? 3)%Z
       || (schema.Invoice_DocumentType inv =? 6)%Z)
      && match schema.Invoice_OriginalDocumentReferences inv with
         | None => true
         | Some refs =>
             (length (schema.OriginalDocumentReferences_OriginalDocumentReference refs)
              =? 0)%nat
         end)
     || (negb (String.eqb (schema.Invoice_ForeignCurrencyCode inv) "")
         && String.eqb (schema.Invoice_ForeignCurrencyCode inv)
                       (schema.Invoice_LocalCurrencyCode inv))
     || (negb (schema.Invoice_VATApplicable inv)
         && existsb (fun line =>
                       schema.ClassifiedTaxCategory_VATApplicable
                         (schema.InvoiceLine_ClassifiedTaxCategory line))
                    (schema.InvoiceLines_InvoiceLine
                       (schema.Invoice_InvoiceLines inv)))).
Proof.
  intros Hs.
  pose proof (optional_rules_severity inv opts) as Hopt.
  unfold severityOf in Hopt. rewrite Hs in Hopt.
  rewrite !Forall_app in Hopt. destruct Hopt as (Hpresent & Habsent & Hitem & Hbatch).
  unfold validateSemantic. rewrite !HasErrors_app.
  rewrite (HasErrors_warnings _ Hitem), (HasErrors_warnings _ Hbatch).
  rewrite !orb_false_r. rewrite <- orb_assoc. f_equal; [| f_equal].
  - unfold validateOriginalDocumentLink.
    destruct (_ || _ || _); [| reflexivity].
    rewrite HasErrors_when. simpl. rewrite andb_true_r. reflexivity.
  - unfold validateCurrencyConsistency, severityOf. rewrite Hs.
    destruct (negb (String.eqb (schema.Invoice_ForeignCurrencyCode inv) ""));
      cbv zeta.
    + rewrite HasErrors_app, HasErrors_when, (HasErrors_warnings _ Hpresent).
      simpl. rewrite andb_true_r, orb_false_r. reflexivity.
    + rewrite !HasErrors_app, !HasErrors_when, (HasErrors_warnings _ Habsent).
      simpl. rewrite !andb_false_r. reflexivity.
  - unfold validateVATConsistency, types.Bool_Bool.
    destruct (negb (schema.Invoice_VATApplicable inv)); [| reflexivity].
    simpl. apply HasErrors_forRange. intros i line.
    rewrite HasErrors_when. simpl. apply andb_true_r.
Qed.

(** X3. Under options that are not strict, the validator reports a diagnostic
    of severity Error exactly on a blocking issue: a missing version,
    identifier, UUID, issue date, local currency code or rate, a document
    type outside 1..7, a supplier or customer party without identification
    or name, no customer party on a document that is not of type 7, no
    invoice line, a line without identifier, a document of type 2, 3 or 6
    without original document, a foreign currency equal to the local one,
    or a line subject to VAT on an invoice that is not. *)
Theorem errors_are_blocking_issues (inv : schema.Invoice) (opts : ValidateOptions) :
  Strict opts = false ->
  HasErrors (ValidateInvoiceWithOptions inv opts) = blockingIssue inv.
Proof.
  intros Hs. unfold ValidateInvoiceWithOptions. rewrite HasErrors_app.
  rewrite (validateStructural_blocking inv opts Hs).
  rewrite (validateSemantic_blocking inv opts Hs).
  unfold blockingIssue. cbv zeta. rewrite <- !orb_assoc. reflexivity.
Qed.

(** ** Common documents *)

(** A party with its identification, name, city and country code. *)
Definition partyComplete (party : schema.Party) : bool :=
  negb (String.eqb (schema.PartyIdentification_ID
                      (schema.Party_PartyIdentification party)) "")
  && negb (String.eqb (schema.PartyName_Name (schema.Party_PartyName party)) "")
  && negb (String.eqb (schema.PostalAddress_CityName
                         (schema.Party_PostalAddress party)) "")
  && negb (String.eqb (schema.Country_IdentificationCode
                         (schema.PostalAddress_Country
                            (schema.Party_PostalAddress party))) "").

Definition commonDocumentComplete (doc : schema.CommonDocument) : bool :=
  negb (String.eqb (schema.CommonDocument_Version doc) "")
  && negb (String.eqb (schema.CommonDocument_SubDocumentType doc) "")
  && negb (String.eqb (schema.CommonDocument_SubDocumentTypeOrigin doc) "")
  && negb (String.eqb (schema.CommonDocument_ID doc) "")
  && negb (String.eqb (schema.CommonDocument_UUID doc) "")
  && negb (types.Date_IsZero (schema.CommonDocument_IssueDate doc))
  && partyComplete (schema.AccountingSupplierParty_Party
                      (schema.CommonDocument_AccountingSupplierParty doc))
  && partyComplete (schema.AccountingCustomerParty_Party
                      (schema.CommonDocument_AccountingCustomerParty doc)).

Lemma when_nil (c : bool) (e : ValidationError) : when c e = [] <-> c = false.
Proof. destruct c; simpl; split; congruence. Qed.

Lemma validateParty_nil (path : string) (party : schema.Party)
    (opts : ValidateOptions) :
  validateParty path party opts = [] <-> partyComplete party = true.
Proof.
  unfold validateParty, partyComplete, ValidationErrors. cbv zeta.
  rewrite !app_nil, !when_nil, !andb_true_iff, !negb_true_iff. tauto.
Qed.

(** X4. A common document passes validation without any diagnostic, under any
    options, exactly when its version, sub-document type and origin,
    identifier, UUID and issue date are set and both its parties have their
    identification, name, city and country code. *)
Theorem common_document_clean_iff (doc : schema.CommonDocument)
    (opts : ValidateOptions) :
  ValidateCommonDocumentWithOptions doc opts = []
  <-> commonDocumentComplete doc = true.
Proof.
  unfold ValidateCommonDocumentWithOptions, validateCommonDocumentStructural,
    commonDocumentComplete, types.UUID_IsZero, ValidationErrors.
  rewrite !app_nil, !when_nil, !validateParty_nil, !andb_true_iff,
    !negb_true_iff.
  tauto.
Qed.

(** ** The diagnostics on one field *)

Definition onField (f : string) (errs : list ValidationError)
  : list ValidationError :=
  filter (fun e => Field e = f) errs.

Lemma onField_app (f : string) (a b : list ValidationError) :
  onField f (a ++ b) = onField f a ++ onField f b.
Proof. apply filter_app. Qed.

Lemma onField_none (f : string) (errs : list ValidationError) :
  Forall (fun e => Field e <> f) errs -> onField f errs = [].
Proof. apply filter_none. Qed.

Lemma onField_when (f : string) (c : bool) (e : ValidationError) :
  Field e = f -> onField f (when c e) = when c e.
Proof.
  intros H. destruct c; [| reflexivity].
  unfold onField. simpl. rewrite filter_cons_True by exact H. reflexivity.
Qed.

(** The diagnostic of the rule that forbids the tax-exclusive amount in a
    foreign currency on a document without foreign currency. *)
Definition taxExclusiveAmountCurrForbidden (severity : Severity) : ValidationError :=
  {| Field := "Invoice.LegalMonetaryTotal.TaxExclusiveAmountCurr";
     Code := ErrCodeSchemaViolation;
     Severity_ := severity;
     Msg := Text "TaxExclusiveAmountCurr must not be set without ForeignCurrencyCode" |}.

Ltac not_that_field := simpl; discriminate.

(** X5. All the validator ever says about the tax-exclusive amount in the
    foreign currency: with a foreign currency code, that it is required
    when the tax-exclusive amount is set and it is not; without one, that
    it must not be set when it is; the severity is the one the options
    select, and no other rule reports on that field. *)
Theorem TaxExclusiveAmountCurr_diagnostics (inv : schema.Invoice)
    (opts : ValidateOptions) :
  let lmt := schema.Invoice_LegalMonetaryTotal inv in
  onField "Invoice.LegalMonetaryTotal.TaxExclusiveAmountCurr"
          (ValidateInvoiceWithOptions inv opts)
  = if negb (String.eqb (schema.Invoice_ForeignCurrencyCode inv) "")
    then when (negb (types.Decimal_IsZero
                       (schema.LegalMonetaryTotal_TaxExclusiveAmount lmt))
               && types.Decimal_IsZero
                    (schema.LegalMonetaryTotal_TaxExclusiveAmountCurr lmt))
              (taxExclusiveAmountCurrRequired (severityOf opts))
    else when (negb (types.Decimal_IsZero
                       (schema.LegalMonetaryTotal_TaxExclusiveAmountCurr lmt)))
              (taxExclusiveAmountCurrForbidden (severityOf opts)).
Proof.
  cbv zeta. unfold ValidateInvoiceWithOptions, validateSemantic.
  rewrite !onField_app.
  rewrite (onField_none _ (validateStructural inv opts)).
  2:{ unfold validateStructural, validateParty, validateInvoiceLine.
      each_diagnostic not_that_field. }
  rewrite (onField_none _ (validateOriginalDocumentLink inv opts)).
  2:{ unfold validateOriginalDocumentLink. each_diagnostic not_that_field. }
  rewrite (onField_none _ (validateVATConsistency inv opts)).
  2:{ unfold validateVATConsistency. each_diagnostic not_that_field. }
  rewrite (onField_none _ (validateItemIdentificationHierarchy inv opts)).
  2:{ unfold validateItemIdentificationHierarchy. each_diagnostic not_that_field. }
  rewrite (onField_none _ (validateStoreBatches inv opts)).
  2:{ unfold validateStoreBatches. apply Forall_forRange. intros i line.
      destruct (_ || _); [constructor |]. cbv zeta.
      apply Forall_app. split.
      - apply batchLoop_fields; [intros; not_that_field | constructor].
      - apply Forall_app. split; apply Forall_when; not_that_field. }
  simpl app. rewrite app_nil_r.
  unfold validateCurrencyConsistency.
  destruct (negb (String.eqb (schema.Invoice_ForeignCurrencyCode inv) ""));
    cbv zeta.
  - rewrite onField_app. rewrite (onField_none _ (when _ _))
      by (apply Forall_when; not_that_field).
    unfold validateForeignCurrencyFieldsPresent. cbv zeta.
    rewrite onField_app, onField_when by reflexivity.
    rewrite onField_none; [apply app_nil_r |].
    each_diagnostic not_that_field.
  - rewrite !onField_app. rewrite !(onField_none _ (when _ _))
      by (apply Forall_when; not_that_field).
    unfold validateNoForeignCurrencyFields. cbv zeta.
    rewrite onField_app, onField_when by reflexivity.
    rewrite onField_none; [apply app_nil_r |].
    each_diagnostic not_that_field.
Qed.

(** ** Codes and paths *)

(** The codes the validator uses, out of those errors.go declares. *)
Definition validatorCodes : list string :=
  [ErrCodeRequiredField; ErrCodeInvalidEnum; ErrCodeInvalidLength;
   ErrCodeTotalMismatch; ErrCodeVATMismatch; ErrCodeSchemaViolation].

Definition wellFormedDiagnostic (e : ValidationError) : bool :=
  existsb (String.eqb (Code e)) validatorCodes
  && HasPrefix (Field e) "Invoice.".

Lemma batchLoop_violations (P : ValidationError -> Prop) severity path unit :
  (forall j msg,
      P {| Field := indexed (path +:+ ".Item.StoreBatches.StoreBatch") j +:+ ".Quantity";
           Code := ErrCodeSchemaViolation; Severity_ := severity; Msg := msg |}) ->
  forall batches st j,
    Forall P (batchErrs st) ->
    Forall P (batchErrs (batchLoop severity path unit st j batches)).
Proof.
  intros HP batches.
  induction batches as [|b rest IH]; intros st j Hst; simpl; [exact Hst |].
  apply IH. unfold batchStep. simpl.
  apply Forall_app. split; [exact Hst |].
  apply Forall_when. apply HP.
Qed.

Ltac well_formed := simpl; reflexivity.

(** X6. Every diagnostic of the validator carries one of six codes
    (REQUIRED_FIELD, INVALID_ENUM, INVALID_LENGTH, TOTAL_MISMATCH,
    VAT_MISMATCH, SCHEMA_VIOLATION) and a field path that starts at the
    root of the invoice. *)
Theorem diagnostics_well_formed (inv : schema.Invoice) (opts : ValidateOptions) :
  Forall (fun e => wellFormedDiagnostic e = true)
         (ValidateInvoiceWithOptions inv opts).
Proof.
  unfold ValidateInvoiceWithOptions, validateSemantic.
  rewrite !Forall_app. repeat split.
  - unfold validateStructural, validateParty, validateInvoiceLine.
    each_diagnostic well_formed.
  - unfold validateOriginalDocumentLink. each_diagnostic well_formed.
  - unfold validateCurrencyConsistency, validateForeignCurrencyFieldsPresent,
      validateNoForeignCurrencyFields.
    each_diagnostic well_formed.
  - unfold validateVATConsistency. each_diagnostic well_formed.
  - unfold validateItemIdentificationHierarchy. each_diagnostic well_formed.
  - unfold validateStoreBatches. apply Forall_forRange. intros i line.
    destruct (_ || _); [constructor |]. cbv zeta.
    apply Forall_app. split.
    + apply batchLoop_violations; [intros; well_formed | constructor].
    + apply Forall_app. split; apply Forall_when; well_formed.
Qed.

(** The default options made strict. *)
Definition strictOptions : ValidateOptions :=
  {| Strict := true; AllowRoundingTolerance := true; Tolerance := "0.01" |}.

Lemma strict_raises_severities_only_witness :
  ValidateInvoiceWithOptions (oneBatchInvoice "10" "10.005") strictOptions
  = raised <$> ValidateInvoiceWithOptions (oneBatchInvoice "10" "10.005")
                 DefaultValidateOptions
  /\ HasWarnings (ValidateInvoiceWithOptions (oneBatchInvoice "10" "10.005")
                    strictOptions) = false.
Proof.
  apply (strict_raises_severities_only (oneBatchInvoice "10" "10.005")
           strictOptions DefaultValidateOptions); reflexivity.
Defined.

Lemma validation_reads_Strict_only_witness :
  ValidateInvoiceWithOptions (oneBatchInvoice "10" "10.005")
    {| Strict := false; AllowRoundingTolerance := false; Tolerance := "5" |}
  = ValidateInvoiceWithOptions (oneBatchInvoice "10" "10.005")
      DefaultValidateOptions.
Proof.
  apply (validation_reads_Strict_only (oneBatchInvoice "10" "10.005")
           {| Strict := false; AllowRoundingTolerance := false; Tolerance := "5" |}
           DefaultValidateOptions).
  reflexivity.
Defined.

Lemma errors_are_blocking_issues_witness :
  HasErrors (ValidateInvoiceWithOptions (oneBatchInvoice "10" "10.005")
               DefaultValidateOptions)
  = blockingIssue (oneBatchInvoice "10" "10.005").
Proof.
  apply (errors_are_blocking_issues (oneBatchInvoice "10" "10.005")
           DefaultValidateOptions).
  reflexivity.
Defined.

(* ===================================================================== *)
(** * Further properties: reference resolution *)
(* ===================================================================== *)

Lemma index_bool_insert (refs : gmap string bool) (id x : string) :
  index_bool (<[id := true]> refs) x
  = if decide (id = x) then true else index_bool refs x.
Proof.
  unfold index_bool. case_decide as H.
  - subst. rewrite lookup_insert_eq. reflexivity.
  - rewrite lookup_insert_ne by exact H. reflexivity.
Qed.

(** The identifiers the set holds after a header loop: those it held
    before and the identifiers of the entries that are not empty. *)
Lemma collectIDs_refs (c : string) (ids : list string) (x : string) :
  forall (i : nat) (refs : gmap string bool),
    index_bool (collectIDs c ids i refs []).1 x = true
    <-> index_bool refs x = true \/ (x <> "" /\ x ∈ ids).
Proof.
  induction ids as [|id rest IH]; intros i refs; simpl.
  - split; [auto | intros [H | [_ H]]; [exact H | inversion H]].
  - destruct (String.eqb_spec id "") as [-> | Hne]; simpl.
    + rewrite IH. split.
      * intros [H | [Hx H]]; [auto |]. right. split; [exact Hx |]. now right.
      * intros [H | [Hx H]]; [auto |].
        apply elem_of_cons in H as [-> | H]; [contradiction |]. auto.
    + rewrite collectIDs_acc. simpl. rewrite IH, index_bool_insert.
      case_decide as Hd.
      * subst x. split; [| auto]. intros _. right. split; [exact Hne | now left].
      * split.
        -- intros [H | [Hx H]]; [auto |]. right. split; [exact Hx | now right].
        -- intros [H | [Hx H]]; [auto |].
           apply elem_of_cons in H as [-> | H]; [contradiction |]. auto.
Qed.

(** The diagnostics of a header loop: one for each entry whose identifier
    is not empty and is in the set already or is carried by an earlier
    entry. *)
Lemma collectIDs_duplicates (c : string) (ids : list string) (d : DecodeError) :
  forall (i : nat) (refs : gmap string bool),
    d ∈ (collectIDs c ids i refs []).2
    <-> exists (j : nat) (id : string),
          d = NewDecodeError (indexed c (i + j))
                (Errorf "duplicate id %q" [ArgString id])
          /\ ids !! j = Some id /\ id <> ""
          /\ (index_bool refs id = true
              \/ exists j', j' < j /\ ids !! j' = Some id).
Proof.
  induction ids as [|id rest IH]; intros i refs; simpl.
  - split; [intros H; inversion H | intros (j & id & _ & H & _); discriminate H].
  - assert (Hshift : forall refs' : gmap string bool,
      (forall y, y <> "" -> index_bool refs' y = true
                 <-> index_bool refs y = true \/ (id <> "" /\ id = y)) ->
      d ∈ (collectIDs c rest (S i) refs' []).2
      <-> exists (j : nat) (id' : string),
            d = NewDecodeError (indexed c (i + S j))
                  (Errorf "duplicate id %q" [ArgString id'])
            /\ rest !! j = Some id' /\ id' <> ""
            /\ (index_bool refs id' = true
                \/ exists j', j' < S j /\ (id :: rest) !! j' = Some id')).
    { intros refs' Hrefs'. rewrite IH. split.
      - intros (j & id' & -> & Hj & Hne & Hdup). exists j, id'.
        replace (i + S j) with (S i + j) by lia.
        repeat split; try assumption.
        destruct Hdup as [Hdup | (j' & Hlt & Hj')].
        + apply Hrefs' in Hdup as [Hdup | [_ ->]]; [auto | | exact Hne].
          right. exists 0. split; [lia | reflexivity].
        + right. exists (S j'). split; [lia | exact Hj'].
      - intros (j & id' & -> & Hj & Hne & Hdup). exists j, id'.
        replace (S i + j) with (i + S j) by lia.
        repeat split; try assumption.
        destruct Hdup as [Hdup | (j' & Hlt & Hj')].
        + left. apply Hrefs'; auto.
        + destruct j' as [|j'].
          * simpl in Hj'. inversion Hj'; subst. left. apply Hrefs'; auto.
          * right. exists j'. split; [lia | exact Hj']. }
    destruct (String.eqb_spec id "") as [-> | Hne]; simpl.
    + rewrite (Hshift refs).
      2:{ intros y Hy. split; [auto | intros [H | [H _]]; [exact H | contradiction]]. }
      split.
      * intros (j & id' & Hd & Hj & Hne' & Hdup). exists (S j), id'. auto.
      * intros (j & id' & Hd & Hj & Hne' & Hdup).
        destruct j as [|j]; [simpl in Hj; inversion Hj; subst; contradiction |].
        exists j, id'. auto.
    + assert (Hrefs' : forall y, y <> "" ->
                index_bool (<[id:=true]> refs) y = true
                <-> index_bool refs y = true \/ (id <> "" /\ id = y)).
      { intros y _. rewrite index_bool_insert. case_decide; [| tauto].
        split; [auto | reflexivity]. }
      destruct (index_bool refs id) eqn:Hseen.
      * rewrite collectIDs_acc. simpl. rewrite elem_of_cons, (Hshift _ Hrefs').
        split.
        -- intros [-> | (j & id' & Hd & Hj & Hne' & Hdup)].
           ++ exists 0, id. rewrite Nat.add_0_r. auto.
           ++ exists (S j), id'. auto.
        -- intros (j & id' & Hd & Hj & Hne' & Hdup). destruct j as [|j].
           ++ simpl in Hj. inversion Hj; subst. rewrite Nat.add_0_r. now left.
           ++ right. exists j, id'. auto.
      * rewrite (Hshift _ Hrefs'). split.
        -- intros (j & id' & Hd & Hj & Hne' & Hdup). exists (S j), id'. auto.
        -- intros (j & id' & Hd & Hj & Hne' & Hdup). destruct j as [|j].
           ++ simpl in Hj. inversion Hj; subst.
              destruct Hdup as [Hdup | (j' & Hlt & _)]; [congruence | lia].
           ++ exists j, id'. auto.
Qed.

Lemma underCollection_resolveReferences (inv : schema.Invoice) (k : refKind) :
  underCollection k (resolveReferences inv) = headerErrors k inv.
Proof.
  rewrite resolveReferences_parts. rewrite !underCollection_app.
  rewrite !underCollection_headerErrors, underCollection_lines.
  destruct k; repeat case_decide; try congruence;
    simpl; rewrite ?app_nil_r; reflexivity.
Qed.

Lemma atPath_resolveReferences (inv : schema.Invoice) (k : refKind) (i : nat)
    (line : schema.InvoiceLine) :
  schema.InvoiceLines_InvoiceLine (schema.Invoice_InvoiceLines inv) !! i
  = Some line ->
  atPath (indexed "Invoice.InvoiceLines.InvoiceLine" i +:+ lineField k)
         (resolveReferences inv)
  = lineErrors (fun k' => headerRefs k' inv) i line k.
Proof.
  intros Hline. rewrite resolveReferences_parts. rewrite !atPath_app.
  rewrite !atPath_headerErrors. simpl.
  apply (atPath_lines _ _ i line k Hline).
Qed.

(** X7. The duplicates of a header collection, in general: the diagnostics
    under the collection are the duplicates reported at exactly those
    entries whose identifier is not empty and is carried by an earlier
    entry of the same collection. *)
Theorem duplicate_reported_iff (inv : schema.Invoice) (k : refKind)
    (d : DecodeError) :
  d ∈ underCollection k (resolveReferences inv)
  <-> exists (j : nat) (id : string),
        d = DuplicateID k j id
        /\ declaredIDs k inv !! j = Some id
        /\ id <> ""
        /\ exists j', j' < j /\ declaredIDs k inv !! j' = Some id.
Proof.
  rewrite underCollection_resolveReferences. unfold headerErrors.
  rewrite collectIDs_duplicates. split.
  - intros (j & id & Hd & Hj & Hne & [Hseen | Hdup]).
    + unfold index_bool in Hseen. rewrite lookup_empty in Hseen. discriminate Hseen.
    + exists j, id. auto.
  - intros (j & id & Hd & Hj & Hne & Hdup). exists j, id. auto.
Qed.

(** X8. A line reference is reported exactly when it is set, not empty and not
    declared: a line whose reference is nil, empty or declared by the header
    collection of its kind gets no diagnostic at the path of that
    reference. *)
Theorem line_reference_reported_iff (inv : schema.Invoice) (k : refKind)
    (i : nat) (line : schema.InvoiceLine) :
  schema.InvoiceLines_InvoiceLine (schema.Invoice_InvoiceLines inv) !! i
  = Some line ->
  atPath (indexed "Invoice.InvoiceLines.InvoiceLine" i +:+ lineField k)
         (resolveReferences inv)
  = match lineRef k line with
    | Some ref =>
        if decide (ref <> "" /\ ref ∉ declaredIDs k inv)
        then [UnresolvedReference i k ref] else []
    | None => []
    end.
Proof.
  intros Hline. rewrite (atPath_resolveReferences inv k i line Hline).
  unfold lineErrors, checkRef.
  destruct (lineRef k line) as [ref|]; [| reflexivity].
  destruct (String.eqb_spec ref "") as [-> | Hne]; cbn [negb].
  - case_decide as Hd; [destruct Hd as [Hd _]; contradiction | reflexivity].
  - destruct (index_bool (headerRefs k inv) ref) eqn:Hidx; cbn [negb].
    + apply collectIDs_refs in Hidx as [Hidx | [_ Hin]].
      * unfold index_bool in Hidx. rewrite lookup_empty in Hidx. discriminate Hidx.
      * case_decide as Hd; [destruct Hd as [_ Hd]; contradiction | reflexivity].
    + case_decide as Hd; [reflexivity |].
      exfalso. apply Hd. split; [exact Hne |]. intros Hin.
      assert (index_bool (headerRefs k inv) ref = true) as Htrue
        by (apply collectIDs_refs; auto).
      congruence.
Qed.

Lemma line_reference_reported_iff_witness :
  atPath (indexed "Invoice.InvoiceLines.InvoiceLine" 0 +:+ lineField OrderRef)
         (resolveReferences danglingOrderInvoice)
  = match lineRef OrderRef danglingOrderLine with
    | Some ref =>
        if decide (ref <> "" /\ ref ∉ declaredIDs OrderRef danglingOrderInvoice)
        then [UnresolvedReference 0 OrderRef ref] else []
    | None => []
    end.
Proof.
  apply (line_reference_reported_iff danglingOrderInvoice OrderRef 0
           danglingOrderLine).
  reflexivity.
Defined.

Lemma concat_imap_nil {A B : Type} (g : nat -> A -> list B) (l : list A) :
  concat (imap g l) = [] <-> forall j x, l !! j = Some x -> g j x = [].
Proof.
  revert g. induction l as [|x l IH]; intros g; simpl.
  - split; [intros _ j y H; discriminate H | reflexivity].
  - rewrite app_nil, IH. split.
    + intros [H0 HS] [|j] y Hy; [inversion Hy; subst; exact H0 | apply (HS j y Hy)].
    + intros H. split; [apply (H 0 x); reflexivity |].
      intros j y Hy. apply (H (S j) y Hy).
Qed.

Lemma headerErrors_nil (inv : schema.Invoice) (k : refKind) :
  headerErrors k inv = []
  <-> forall j j' id, j' < j -> declaredIDs k inv !! j = Some id ->
                      declaredIDs k inv !! j' = Some id -> id = "".
Proof.
  split.
  - intros Hnil j j' id Hlt Hj Hj'.
    destruct (String.eqb_spec id "") as [-> | Hne]; [reflexivity | exfalso].
    assert (DuplicateID k j id ∈ headerErrors k inv) as Hin.
    { unfold headerErrors. apply collectIDs_duplicates.
      exists j, id. repeat split; [exact Hj | exact Hne |].
      right. exists j'. auto. }
    rewrite Hnil in Hin. inversion Hin.
  - intros Hall. destruct (headerErrors k inv) as [|d ds] eqn:E; [reflexivity |].
    exfalso. assert (d ∈ headerErrors k inv) as Hin by (rewrite E; left).
    unfold headerErrors in Hin.
    apply collectIDs_duplicates in Hin as (j & id & _ & Hj & Hne & [Hseen | Hdup]).
    + unfold index_bool in Hseen. rewrite lookup_empty in Hseen. discriminate Hseen.
    + destruct Hdup as (j' & Hlt & Hj'). apply Hne. apply (Hall j j' id Hlt Hj Hj').
Qed.

Lemma allLineErrors_nil (inv : schema.Invoice) (i : nat) (line : schema.InvoiceLine) :
  allLineErrors (fun k => headerRefs k inv) i line = []
  <-> forall k ref, lineRef k line = Some ref -> ref <> "" ->
                    ref ∈ declaredIDs k inv.
Proof.
  assert (Hone : forall k,
    lineErrors (fun k => headerRefs k inv) i line k = []
    <-> forall ref, lineRef k line = Some ref -> ref <> "" ->
                    ref ∈ declaredIDs k inv).
  { intros k. unfold lineErrors, checkRef.
    destruct (lineRef k line) as [r|]; [| split; [intros _ ref H; discriminate H | reflexivity]].
    destruct (String.eqb_spec r "") as [-> | Hne]; simpl.
    - split; [| reflexivity]. intros _ ref Href Hne. inversion Href; subst. contradiction.
    - destruct (index_bool (headerRefs k inv) r) eqn:Hidx; simpl.
      + split; [| reflexivity]. intros _ ref Href _. inversion Href; subst.
        apply collectIDs_refs in Hidx as [Hidx | [_ Hin]]; [| exact Hin].
        unfold index_bool in Hidx. rewrite lookup_empty in Hidx. discriminate Hidx.
      + split; [intros H; discriminate H |]. intros H. exfalso.
        assert (index_bool (headerRefs k inv) r = true) as Htrue
          by (apply collectIDs_refs; right; split; [exact Hne | apply H; auto]).
        congruence. }
  unfold allLineErrors, DecodeErrors in *. rewrite !app_nil, !Hone. split.
  - intros (H1 & H2 & H3 & H4) [] ref; auto.
  - intros H. repeat split; intros ref; apply H.
Qed.

(** X9. Reference resolution produces no diagnostic exactly when no two
    entries of a header collection carry the same identifier (empty
    identifiers apart) and every reference of a line that is set and not
    empty is declared by the header collection of its kind. *)
Theorem references_clean_iff (inv : schema.Invoice) :
  resolveReferences inv = []
  <-> (forall k j j' id, j' < j -> declaredIDs k inv !! j = Some id ->
                         declaredIDs k inv !! j' = Some id -> id = "")
      /\ (forall i line k ref,
            schema.InvoiceLines_InvoiceLine (schema.Invoice_InvoiceLines inv) !! i
            = Some line ->
            lineRef k line = Some ref -> ref <> "" ->
            ref ∈ declaredIDs k inv).
Proof.
  rewrite resolveReferences_parts. unfold DecodeErrors.
  rewrite !app_nil, concat_imap_nil, !headerErrors_nil. split.
  - intros (H1 & H2 & H3 & H4 & Hlines). split.
    + intros []; assumption.
    + intros i line k ref Hline.
      apply (proj1 (allLineErrors_nil inv i line) (Hlines i line Hline)).
  - intros [Hheaders Hlines]. repeat split; try apply Hheaders.
    intros i line Hline. apply (proj2 (allLineErrors_nil inv i line)).
    intros k ref. apply (Hlines i line k ref Hline).
Qed.

(* ===================================================================== *)
(** * Further properties: errors.go *)
(* ===================================================================== *)








(* ===================================================================== *)
(** * Further properties: the scalar types *)
(* ===================================================================== *)

(** ** The language of a pattern *)

Import regexp.

(** The strings a pattern stands for. *)
Inductive matches : re -> string -> Prop :=
| matches_eps : matches Eps ""
| matches_class (p : ascii -> bool) (c : ascii) :
    p c = true -> matches (Class p) (String c "")
| matches_cat (a b : re) (s1 s2 : string) :
    matches a s1 -> matches b s2 -> matches (Cat a b) (s1 +:+ s2)
| matches_alt_l (a b : re) (s : string) : matches a s -> matches (Alt a b) s
| matches_alt_r (a b : re) (s : string) : matches b s -> matches (Alt a b) s
| matches_star_nil (a : re) : matches (Star a) ""
| matches_star_app (a : re) (s1 s2 : string) :
    matches a s1 -> matches (Star a) s2 -> matches (Star a) (s1 +:+ s2).

Lemma append_nil_r (s : string) : s +:+ "" = s.
Proof. induction s as [|c s IH]; [reflexivity |]. rewrite append_String, IH. reflexivity. Qed.

Lemma append_eq_nil (a b : string) : a +:+ b = "" -> a = "" /\ b = "".
Proof. destruct a; [auto | rewrite append_String; discriminate]. Qed.

Lemma nullable_matches (r : re) : nullable r = true <-> matches r "".
Proof.
  split.
  - induction r; simpl; intros H; try discriminate H.
    + constructor.
    + apply andb_true_iff in H as [H1 H2].
      change "" with ("" +:+ ""). constructor; auto.
    + apply orb_true_iff in H as [H | H];
        [apply matches_alt_l | apply matches_alt_r]; auto.
    + constructor.
  - intros H. remember "" as s eqn:Hs.
    induction H; simpl; try reflexivity; try discriminate Hs.
    + apply append_eq_nil in Hs as [-> ->]. rewrite IHmatches1, IHmatches2; reflexivity.
    + rewrite IHmatches by exact Hs. reflexivity.
    + rewrite IHmatches by exact Hs. apply orb_true_r.
Qed.

(** A non-empty string of a starred pattern starts with a non-empty
    string of the pattern. *)
Lemma matches_star_cons (a : re) (c : ascii) (s : string) :
  matches (Star a) (String c s) ->
  exists s1 s2, s = s1 +:+ s2 /\ matches a (String c s1) /\ matches (Star a) s2.
Proof.
  intros H. remember (Star a) as r eqn:Hr. remember (String c s) as t eqn:Ht.
  revert s Ht. induction H; intros s0 Ht; try discriminate Hr; try discriminate Ht.
  inversion Hr; subst a0. clear Hr IHmatches1.
  destruct s1 as [|c1 s1].
  - apply IHmatches2; [reflexivity | exact Ht].
  - rewrite append_String in Ht. inversion Ht; subst. exists s1, s2. auto.
Qed.

Lemma deriv_matches (c : ascii) (r : re) :
  forall s, matches (deriv c r) s <-> matches r (String c s).
Proof.
  induction r as [| | p | a IHa b IHb | a IHa b IHb | a IHa]; intros s; simpl.
  - split; intros H; inversion H.
  - split; intros H; inversion H.
  - destruct (p c) eqn:Hp; split; intros H; inversion H; subst.
    + constructor. exact Hp.
    + constructor.
    + congruence.
  - assert (Hcat : matches (Cat (deriv c a) b) s
                   <-> exists s1 s2, s = s1 +:+ s2 /\ matches a (String c s1)
                                     /\ matches b s2).
    { split.
      - intros H. inversion H; subst. exists s1, s2.
        repeat split; [apply IHa |]; assumption.
      - intros (s1 & s2 & -> & H1 & H2). constructor; [apply IHa |]; assumption. }
    assert (Hsplit : matches (Cat a b) (String c s)
                     <-> (exists s1 s2, s = s1 +:+ s2 /\ matches a (String c s1)
                                        /\ matches b s2)
                         \/ (matches a "" /\ matches b (String c s))).
    { split.
      - intros H. inversion H as [| | a' b' s1 s2 H1 H2 [Ha Hb] Hs | | | |]; subst.
        destruct s1 as [|c1 s1].
        + right. simpl in Hs. change ("" +:+ s2) with s2 in Hs. subst s2. auto.
        + left. rewrite append_String in Hs. inversion Hs; subst.
          exists s1, s2. auto.
      - intros [(s1 & s2 & -> & H1 & H2) | [H1 H2]].
        + rewrite <- append_String. constructor; assumption.
        + change (String c s) with ("" +:+ String c s). constructor; assumption. }
    rewrite Hsplit. destruct (nullable a) eqn:Hn.
    + split.
      * intros H. inversion H; subst.
        -- left. apply Hcat. assumption.
        -- right. split; [apply nullable_matches, Hn | apply IHb; assumption].
      * intros [H | [_ H]].
        -- apply matches_alt_l, Hcat, H.
        -- apply matches_alt_r, IHb, H.
    + rewrite Hcat. split; [auto |]. intros [H | [H _]]; [exact H |].
      apply nullable_matches in H. congruence.
  - split; intros H; inversion H; subst;
      first [apply matches_alt_l, IHa; assumption
            | apply matches_alt_r, IHb; assumption].
  - split.
    + intros H. inversion H; subst. rewrite <- append_String.
      constructor; [apply IHa |]; assumption.
    + intros H. apply matches_star_cons in H as (s1 & s2 & -> & H1 & H2).
      constructor; [apply IHa |]; assumption.
Qed.

Lemma matches_Void (s : string) : ~ matches Void s.
Proof. intros H. inversion H. Qed.

Lemma matches_cat_Eps (b : re) (s : string) : matches (Cat Eps b) s <-> matches b s.
Proof.
  split.
  - intros H. inversion H as [| | a' b' s1 s2 H1 H2 | | | |]; subst.
    inversion H1; subst. exact H2.
  - intros H. change s with ("" +:+ s). constructor; [constructor | exact H].
Qed.

Lemma prune_matches (r : re) : forall s, matches (prune r) s <-> matches r s.
Proof.
  induction r as [| | p | a IHa b IHb | a IHa b IHb | a IHa]; intros s;
    try reflexivity.
  - assert (Hcat : matches (Cat a b) s <-> matches (Cat (prune a) (prune b)) s).
    { split; intros H; inversion H; subst; constructor;
        first [apply IHa | apply IHb]; assumption. }
    rewrite Hcat. simpl.
    destruct (prune a) eqn:Ea, (prune b) eqn:Eb;
      try reflexivity;
      try (split; intros H; [exfalso; revert H; apply matches_Void |];
           inversion H; subst;
           match goal with Hv : matches Void _ |- _ => inversion Hv end);
      try (symmetry; apply matches_cat_Eps).
  - assert (Halt : matches (Alt a b) s <-> matches (Alt (prune a) (prune b)) s).
    { split; intros H; inversion H; subst;
        first [apply matches_alt_l, IHa; assumption
              | apply matches_alt_r, IHb; assumption]. }
    rewrite Halt. simpl.
    destruct (prune a) eqn:Ea, (prune b) eqn:Eb;
      try reflexivity;
      split; intros H;
      try (inversion H; subst; try assumption;
           match goal with Hv : matches Void _ |- _ => inversion Hv end);
      try (apply matches_alt_l; exact H);
      try (apply matches_alt_r; exact H).
Qed.

(** [MatchString] decides the language of the pattern. *)
Lemma MatchString_matches (s : string) :
  forall r, MatchString r s = true <-> matches r s.
Proof.
  induction s as [|c s IH]; intros r; simpl.
  - apply nullable_matches.
  - rewrite IH, prune_matches. apply deriv_matches.
Qed.

Lemma matches_cat_inv (a b : re) (s : string) :
  matches (Cat a b) s
  <-> exists s1 s2, s = s1 +:+ s2 /\ matches a s1 /\ matches b s2.
Proof.
  split.
  - intros H. inversion H; subst. eauto.
  - intros (s1 & s2 & -> & H1 & H2). constructor; assumption.
Qed.

Lemma matches_alt_inv (a b : re) (s : string) :
  matches (Alt a b) s <-> matches a s \/ matches b s.
Proof.
  split.
  - intros H. inversion H; subst; auto.
  - intros [H | H]; [apply matches_alt_l | apply matches_alt_r]; exact H.
Qed.

Lemma matches_class_inv (p : ascii -> bool) (s : string) :
  matches (Class p) s <-> exists c, s = String c "" /\ p c = true.
Proof.
  split.
  - intros H. inversion H; subst. eauto.
  - intros (c & -> & H). constructor. exact H.
Qed.

Lemma matches_lit_inv (c : ascii) (s : string) :
  matches (Lit c) s <-> s = String c "".
Proof.
  unfold Lit. rewrite matches_class_inv. split.
  - intros (c' & -> & H). apply Ascii.eqb_eq in H. subst. reflexivity.
  - intros ->. exists c. split; [reflexivity | apply Ascii.eqb_refl].
Qed.

Lemma matches_opt_lit (c : ascii) (s : string) :
  matches (Opt (Lit c)) s
  <-> exists present : bool, s = if present then String c "" else "".
Proof.
  unfold Opt. rewrite matches_alt_inv, matches_lit_inv. split.
  - intros [-> | H]; [exists true; reflexivity |].
    inversion H; subst. exists false. reflexivity.
  - intros [[|] ->]; [left; reflexivity | right; constructor].
Qed.

(** Every byte of the string satisfies [p]. *)
Fixpoint every (p : ascii -> bool) (s : string) : bool :=
  match s with
  | EmptyString => true
  | String c r => p c && every p r
  end.

Lemma every_app (p : ascii -> bool) (a b : string) :
  every p (a +:+ b) = every p a && every p b.
Proof.
  induction a as [|c a IH]; [reflexivity |].
  rewrite append_String. simpl. rewrite IH. apply andb_assoc.
Qed.

Lemma matches_star_class (p : ascii -> bool) (s : string) :
  matches (Star (Class p)) s <-> every p s = true.
Proof.
  split.
  - intros H. remember (Star (Class p)) as r eqn:Hr.
    induction H; try discriminate Hr; [reflexivity |].
    inversion Hr; subst a. rewrite every_app.
    apply matches_class_inv in H as (c & -> & Hc). simpl.
    rewrite Hc, IHmatches2 by reflexivity. reflexivity.
  - induction s as [|c s IH]; simpl; intros H; [constructor |].
    apply andb_true_iff in H as [Hc Hs].
    change (String c s) with (String c "" +:+ s).
    constructor; [constructor; exact Hc | apply IH, Hs].
Qed.

Lemma matches_plus_class (p : ascii -> bool) (s : string) :
  matches (Plus (Class p)) s <-> every p s = true /\ s <> "".
Proof.
  unfold Plus. rewrite matches_cat_inv. split.
  - intros (s1 & s2 & -> & H1 & H2).
    apply matches_class_inv in H1 as (c & -> & Hc).
    apply matches_star_class in H2.
    change (String c "" +:+ s2) with (String c s2). simpl.
    rewrite Hc. split; [exact H2 | discriminate].
  - intros [H Hne]. destruct s as [|c s]; [contradiction |].
    simpl in H. apply andb_true_iff in H as [Hc Hs].
    exists (String c ""), s. repeat split.
    + constructor. exact Hc.
    + apply matches_star_class, Hs.
Qed.

(** ** Decimal *)

(** A decimal literal: an optional minus sign, digits, an optional point
    and digits, with a digit on at least one side of the point. *)
Definition decimalLiteral (s : string) : Prop :=
  exists (neg point : bool) (a b : string),
    s = (if neg then "-" else "") +:+ a +:+ (if point then "." else "") +:+ b
    /\ every isDigit a = true /\ every isDigit b = true
    /\ (a <> "" \/ b <> "").

Lemma decimalPattern_language (s : string) :
  matches types.decimalPattern s <-> decimalLiteral s.
Proof.
  unfold types.decimalPattern, types.digit, decimalLiteral.
  rewrite matches_cat_inv. split.
  - intros (s1 & s2 & -> & Hsign & Hbody).
    apply matches_opt_lit in Hsign as [neg ->].
    apply matches_alt_inv in Hbody as [Hbody | Hbody];
      apply matches_cat_inv in Hbody as (a & t & -> & Ha & Ht);
      apply matches_cat_inv in Ht as (dot & b & -> & Hdot & Hb);
      apply matches_opt_lit in Hdot as [point ->];
      exists neg, point, a, b.
    + apply matches_plus_class in Ha as [Ha Hne].
      apply matches_star_class in Hb. auto.
    + apply matches_star_class in Ha.
      apply matches_plus_class in Hb as [Hb Hne]. auto.
  - intros (neg & point & a & b & -> & Ha & Hb & Hne).
    exists (if neg then "-" else ""), (a +:+ (if point then "." else "") +:+ b).
    split; [reflexivity |]. split; [apply matches_opt_lit; exists neg; reflexivity |].
    apply matches_alt_inv.
    destruct (decide (a = "")) as [Hempty | Hfull].
    + right. destruct Hne as [Hne | Hne]; [contradiction |].
      constructor; [apply matches_star_class, Ha |].
      constructor; [apply matches_opt_lit; exists point; reflexivity |].
      apply matches_plus_class. auto.
    + left.
      constructor; [apply matches_plus_class; auto |].
      constructor; [apply matches_opt_lit; exists point; reflexivity |].
      apply matches_star_class, Hb.
Qed.

(** X11. [NewDecimal] accepts exactly the decimal literals, and returns an
    accepted literal as it is; on everything else it returns the empty
    decimal and an error. *)
Theorem NewDecimal_accepts_iff (s : string) :
  (decimalLiteral s -> types.NewDecimal s = (s, None))
  /\ (~ decimalLiteral s ->
      types.NewDecimal s
      = ("", Some (Errorf "invalid decimal format: %q" [ArgString s]))).
Proof.
  unfold types.NewDecimal.
  destruct (MatchString types.decimalPattern s) eqn:Hm; simpl.
  - apply MatchString_matches, decimalPattern_language in Hm.
    split; [reflexivity | contradiction].
  - split; [| reflexivity]. intros Hlit.
    apply decimalPattern_language, MatchString_matches in Hlit. congruence.
Qed.

Lemma NewDecimal_accepts_iff_witness :
  types.NewDecimal "-12.50" = ("-12.50", None).
Proof.
  apply (proj1 (NewDecimal_accepts_iff "-12.50")).
  exists true, true, "12", "50".
  split; [reflexivity |]. split; [reflexivity |]. split; [reflexivity |].
  left. discriminate.
Defined.

(** ** UUID *)

Definition isHex (c : ascii) : bool :=
  isDigit c || in_range "A" "F" c || in_range "a" "f" c.

(** A group of [n] hexadecimal digits. *)
Definition hexGroup (n : nat) (x : string) : Prop :=
  String.length x = n /\ every isHex x = true.

(** A UUID literal: groups of 8, 4, 4, 4 and 12 hexadecimal digits,
    separated by dashes. *)
Definition uuidLiteral (s : string) : Prop :=
  exists a b c d e : string,
    s = a +:+ "-" +:+ b +:+ "-" +:+ c +:+ "-" +:+ d +:+ "-" +:+ e
    /\ hexGroup 8 a /\ hexGroup 4 b /\ hexGroup 4 c /\ hexGroup 4 d
    /\ hexGroup 12 e.

Lemma matches_times_class (p : ascii -> bool) (n : nat) :
  forall s, matches (Times n (Class p)) s
            <-> String.length s = n /\ every p s = true.
Proof.
  induction n as [|n IH]; intros s; simpl.
  - split.
    + intros H. inversion H; subst. auto.
    + intros [H _]. destruct s; [constructor | discriminate H].
  - rewrite matches_cat_inv. split.
    + intros (s1 & s2 & -> & H1 & H2).
      apply matches_class_inv in H1 as (c & -> & Hc).
      apply IH in H2 as [Hlen Hall].
      change (String c "" +:+ s2) with (String c s2). simpl.
      rewrite Hc, Hlen, Hall. auto.
    + intros [Hlen Hall]. destruct s as [|c s]; [discriminate Hlen |].
      simpl in Hlen, Hall. apply andb_true_iff in Hall as [Hc Hall].
      exists (String c ""), s. repeat split.
      * constructor. exact Hc.
      * apply IH. split; [lia | exact Hall].
Qed.

Lemma uuidPattern_language (s : string) :
  matches types.uuidPattern s <-> uuidLiteral s.
Proof.
  unfold types.uuidPattern, types.hexdigit, uuidLiteral, hexGroup.
  split.
  - intros H.
    apply matches_cat_inv in H as (a & t & -> & Ha & H).
    apply matches_cat_inv in H as (d1 & t1 & -> & Hd1 & H).
    apply matches_cat_inv in H as (b & t2 & -> & Hb & H).
    apply matches_cat_inv in H as (d2 & t3 & -> & Hd2 & H).
    apply matches_cat_inv in H as (c & t4 & -> & Hc & H).
    apply matches_cat_inv in H as (d3 & t5 & -> & Hd3 & H).
    apply matches_cat_inv in H as (d & t6 & -> & Hd & H).
    apply matches_cat_inv in H as (d4 & e & -> & Hd4 & He).
    apply matches_lit_inv in Hd1, Hd2, Hd3, Hd4. subst.
    apply (matches_times_class isHex) in Ha, Hb, Hc, Hd, He.
    exists a, b, c, d, e. split; [reflexivity | auto 10].
  - intros (a & b & c & d & e & -> & Ha & Hb & Hc & Hd & He).
    apply (matches_times_class isHex) in Ha, Hb, Hc, Hd, He.
    repeat (constructor; [first [assumption | apply matches_lit_inv; reflexivity] |]).
    exact He.
Qed.

Lemma chars_app (a b : string) : chars (a +:+ b) = chars a ++ chars b.
Proof.
  induction a as [|c a IH]; [reflexivity |].
  rewrite append_String. simpl. rewrite IH. reflexivity.
Qed.

Lemma trim_left_fixed (n : nat) (l : list ascii) :
  strings.leading_space l = None -> strings.trim_left n l = l.
Proof. intros H. destruct n; simpl; [| rewrite H]; reflexivity. Qed.

Lemma trim_right_fixed (n : nat) (l : list ascii) :
  strings.trailing_space l = None -> strings.trim_right n l = l.
Proof. intros H. destruct n; simpl; [| rewrite H]; reflexivity. Qed.

(** [TrimSpace] leaves a string alone that neither starts nor ends with
    white space. *)
Lemma TrimSpace_fixed (s : string) :
  strings.leading_space (chars s) = None ->
  strings.trailing_space (rev (chars s)) = None ->
  strings.TrimSpace s = s.
Proof.
  intros Hl Hr.
  assert (El : strings.trim_left (String.length s) (chars s) = chars s)
    by (apply trim_left_fixed; exact Hl).
  assert (Er : strings.trim_right (length (chars s)) (rev (chars s))
               = rev (chars s))
    by (apply trim_right_fixed; exact Hr).
  unfold strings.TrimSpace. cbv zeta.
  rewrite El, Er, rev_involutive. apply unchars_chars.
Qed.

(** No white-space rune starts or ends with a hexadecimal digit. *)
Lemma hex_not_space (c : ascii) (l : list ascii) :
  isHex c = true ->
  strings.leading_space (c :: l) = None
  /\ strings.trailing_space (c :: l) = None.
Proof.
  destruct c as [[] [] [] [] [] [] [] []]; intros H;
    first [discriminate H | split; reflexivity].
Qed.

Lemma every_last (p : ascii -> bool) (e : string) :
  every p e = true -> e <> "" ->
  exists c l, rev (chars e) = c :: l /\ p c = true.
Proof.
  induction e as [|c e IH]; [contradiction |]. simpl.
  intros H _. apply andb_true_iff in H as [Hc He].
  destruct e as [|c' e'].
  - exists c, []. auto.
  - destruct (IH He ltac:(discriminate)) as (x & l & Hrev & Hx).
    exists x, (l ++ [c]). rewrite Hrev. auto.
Qed.

Lemma uuidLiteral_trimmed (s : string) : uuidLiteral s -> strings.TrimSpace s = s.
Proof.
  intros (a & b & c & d & e & -> & [Hla Ha] & _ & _ & _ & [Hle He]).
  apply TrimSpace_fixed.
  - destruct a as [|x a]; [discriminate Hla |].
    simpl in Ha. apply andb_true_iff in Ha as [Hx _].
    rewrite append_String.
    exact (proj1 (hex_not_space x (chars (a +:+ "-" +:+ b +:+ "-" +:+ c +:+ "-"
                                          +:+ d +:+ "-" +:+ e)) Hx)).
  - destruct (every_last isHex e He) as (x & l & Hrev & Hx).
    { destruct e; [discriminate Hle | discriminate]. }
    rewrite !chars_app, !rev_app_distr, Hrev. rewrite <- !app_assoc.
    rewrite <- app_comm_cons.
    exact (proj2 (hex_not_space x _ Hx)).
Qed.

(** X12. [NewUUID] accepts every UUID literal as it is; whatever it accepts, it
    returns the empty UUID or a UUID literal; and it accepts its own
    results unchanged. *)
Theorem NewUUID_accepts_literals (s : string) :
  (uuidLiteral s -> types.NewUUID s = (s, None))
  /\ (forall u, types.NewUUID s = (u, None) ->
        (u = "" \/ uuidLiteral u) /\ types.NewUUID u = (u, None)).
Proof.
  assert (Hlit : forall t, uuidLiteral t -> types.NewUUID t = (t, None)).
  { intros t Ht. unfold types.NewUUID. rewrite (uuidLiteral_trimmed t Ht).
    cbv zeta.
    destruct (String.eqb_spec t "") as [-> | Hne]; [reflexivity |].
    apply uuidPattern_language, MatchString_matches in Ht. rewrite Ht.
    reflexivity. }
  split; [apply Hlit |].
  intros u. unfold types.NewUUID at 1. cbv zeta.
  destruct (String.eqb_spec (strings.TrimSpace s) "") as [He | Hne].
  - intros H. inversion H; subst. split; [left; reflexivity | reflexivity].
  - destruct (MatchString types.uuidPattern (strings.TrimSpace s)) eqn:Hm;
      simpl; intros H; inversion H; subst.
    apply MatchString_matches, uuidPattern_language in Hm.
    split; [right; exact Hm | apply Hlit, Hm].
Qed.

Lemma NewUUID_accepts_literals_witness :
  types.NewUUID "00000000-0000-0000-0000-000000007777"
  = ("00000000-0000-0000-0000-000000007777", None).
Proof.
  apply (proj1 (NewUUID_accepts_literals "00000000-0000-0000-0000-000000007777")).
  exists "00000000", "0000", "0000", "0000", "000000007777".
  repeat split.
Defined.


(** ** Date *)

(** The ten digits. *)
Definition digitChars : list ascii :=
  ["0"; "1"; "2"; "3"; "4"; "5"; "6"; "7"; "8"; "9"]%char.

Lemma isDigit_digitChars (c : ascii) : isDigit c = true -> In c digitChars.
Proof.
  destruct c as [[] [] [] [] [] [] [] []]; intros H;
    first [discriminate H | simpl; tauto].
Qed.

Definition fourDigits (a b c d : ascii) : string :=
  String a (String b (String c (String d ""))).

Definition twoDigits (a b : ascii) : string := String a (String b "").

Definition valueOf4 (a b c d : ascii) : Z :=
  (((digit_val a * 10 + digit_val b) * 10 + digit_val c) * 10 + digit_val d)%Z.

Definition valueOf2 (a b : ascii) : Z := (digit_val a * 10 + digit_val b)%Z.

(** Padding the value of four (two) digits gives the digits back. *)
Lemma pad_valueOf4 (a b c d : ascii) :
  isDigit a = true -> isDigit b = true -> isDigit c = true -> isDigit d = true ->
  time.pad 4 (valueOf4 a b c d) = fourDigits a b c d.
Proof.
  intros Ha Hb Hc Hd.
  assert (Hall : forallb (fun a => forallb (fun b => forallb (fun c => forallb
            (fun d => String.eqb (time.pad 4 (valueOf4 a b c d)) (fourDigits a b c d))
            digitChars) digitChars) digitChars) digitChars = true)
    by (vm_compute; reflexivity).
  rewrite forallb_forall in Hall.
  specialize (Hall a (isDigit_digitChars a Ha)). rewrite forallb_forall in Hall.
  specialize (Hall b (isDigit_digitChars b Hb)). rewrite forallb_forall in Hall.
  specialize (Hall c (isDigit_digitChars c Hc)). rewrite forallb_forall in Hall.
  specialize (Hall d (isDigit_digitChars d Hd)).
  apply String.eqb_eq, Hall.
Qed.

Lemma pad_valueOf2 (a b : ascii) :
  isDigit a = true -> isDigit b = true ->
  time.pad 2 (valueOf2 a b) = twoDigits a b.
Proof.
  intros Ha Hb.
  assert (Hall : forallb (fun a => forallb
            (fun b => String.eqb (time.pad 2 (valueOf2 a b)) (twoDigits a b))
            digitChars) digitChars = true)
    by (vm_compute; reflexivity).
  rewrite forallb_forall in Hall.
  specialize (Hall a (isDigit_digitChars a Ha)). rewrite forallb_forall in Hall.
  specialize (Hall b (isDigit_digitChars b Hb)).
  apply String.eqb_eq, Hall.
Qed.

(** The digit that stands for a number below ten. *)
Definition digitOf (k : Z) : ascii := nth (Z.to_nat k) digitChars "0"%char.

Lemma digitOf_spec (k : Z) :
  (0 <= k <= 9)%Z -> isDigit (digitOf k) = true /\ digit_val (digitOf k) = k.
Proof.
  intros Hk.
  assert (Hcases : (k = 0 \/ k = 1 \/ k = 2 \/ k = 3 \/ k = 4 \/ k = 5 \/ k = 6
                    \/ k = 7 \/ k = 8 \/ k = 9)%Z) by lia.
  repeat (destruct Hcases as [-> | Hcases]; [split; reflexivity |]).
  subst k. split; reflexivity.
Qed.

(** Every number of at most four (two) digits is the value of four (two)
    digits. *)
Lemma valueOf4_onto (y : Z) :
  (0 <= y <= 9999)%Z ->
  exists a b c d, isDigit a = true /\ isDigit b = true /\ isDigit c = true
                  /\ isDigit d = true /\ valueOf4 a b c d = y.
Proof.
  intros Hy.
  destruct (digitOf_spec (y / 1000)) as [Ha Va];
    [Z.to_euclidean_division_equations; lia |].
  destruct (digitOf_spec ((y / 100) mod 10)) as [Hb Vb];
    [Z.to_euclidean_division_equations; lia |].
  destruct (digitOf_spec ((y / 10) mod 10)) as [Hc Vc];
    [Z.to_euclidean_division_equations; lia |].
  destruct (digitOf_spec (y mod 10)) as [Hd Vd];
    [Z.to_euclidean_division_equations; lia |].
  exists (digitOf (y / 1000)), (digitOf ((y / 100) mod 10)),
         (digitOf ((y / 10) mod 10)), (digitOf (y mod 10)).
  repeat split; try assumption.
  unfold valueOf4. rewrite Va, Vb, Vc, Vd.
  Z.to_euclidean_division_equations; lia.
Qed.

Lemma valueOf2_onto (m : Z) :
  (0 <= m <= 99)%Z ->
  exists a b, isDigit a = true /\ isDigit b = true /\ valueOf2 a b = m.
Proof.
  intros Hm.
  destruct (digitOf_spec (m / 10)) as [Ha Va];
    [Z.to_euclidean_division_equations; lia |].
  destruct (digitOf_spec (m mod 10)) as [Hb Vb];
    [Z.to_euclidean_division_equations; lia |].
  exists (digitOf (m / 10)), (digitOf (m mod 10)).
  repeat split; try assumption.
  unfold valueOf2. rewrite Va, Vb.
  Z.to_euclidean_division_equations; lia.
Qed.

(** A calendar day whose year has at most four digits. *)
Definition validDay (d : types.Date) : Prop :=
  (0 <= types.year d <= 9999)%Z
  /\ (1 <= types.month d <= 12)%Z
  /\ (1 <= types.day d <= time.daysIn (types.month d) (types.year d))%Z.

Lemma digit_val_range (c : ascii) : isDigit c = true -> (0 <= digit_val c <= 9)%Z.
Proof.
  intros H. apply isDigit_digitChars in H. simpl in H.
  repeat (destruct H as [<- | H]; [vm_compute; split; discriminate |]).
  destruct H.
Qed.

(** What [time.Parse] accepts, [Format] writes back. *)
Lemma Parse_then_Format (s : string) (y m d : Z) :
  time.Parse_2006_01_02 s = Some (y, m, d) ->
  time.Format_2006_01_02 y m d = s
  /\ (0 <= y <= 9999)%Z /\ (1 <= m <= 12)%Z /\ (1 <= d <= time.daysIn m y)%Z.
Proof.
  unfold time.Parse_2006_01_02.
  destruct (chars s)
    as [|y1 [|y2 [|y3 [|y4 [|d1 [|m1 [|m2 [|d2 [|a1 [|a2 [|x l]]]]]]]]]]] eqn:Hs;
    try discriminate.
  destruct (isDigit y1 && isDigit y2 && isDigit y3 && isDigit y4
            && eqb_ascii d1 "-" && isDigit m1 && isDigit m2
            && eqb_ascii d2 "-" && isDigit a1 && isDigit a2) eqn:Hshape;
    [| discriminate].
  do 9 (apply andb_true_iff in Hshape as [Hshape ?]).
  fold (valueOf4 y1 y2 y3 y4) (valueOf2 m1 m2) (valueOf2 a1 a2).
  destruct ((1 <=? valueOf2 m1 m2)%Z && (valueOf2 m1 m2 <=? 12)%Z
            && (1 <=? valueOf2 a1 a2)%Z
            && (valueOf2 a1 a2 <=? time.daysIn (valueOf2 m1 m2) (valueOf4 y1 y2 y3 y4))%Z)
    eqn:Hrange; [| discriminate].
  intros Hsome. inversion Hsome; subst y m d. clear Hsome.
  do 3 (apply andb_true_iff in Hrange as [Hrange ?]).
  split.
  - unfold time.Format_2006_01_02.
    rewrite pad_valueOf4, !pad_valueOf2 by assumption.
    rewrite <- (unchars_chars s), Hs.
    match goal with H : eqb_ascii d1 _ = true |- _ => apply Ascii.eqb_eq in H; subst d1 end.
    match goal with H : eqb_ascii d2 _ = true |- _ => apply Ascii.eqb_eq in H; subst d2 end.
    reflexivity.
  - assert (0 <= digit_val y1 <= 9)%Z by (apply digit_val_range; assumption).
    assert (0 <= digit_val y2 <= 9)%Z by (apply digit_val_range; assumption).
    assert (0 <= digit_val y3 <= 9)%Z by (apply digit_val_range; assumption).
    assert (0 <= digit_val y4 <= 9)%Z by (apply digit_val_range; assumption).
    unfold valueOf4 at 1 2. lia.
Qed.

(** What [Format] writes for a calendar day, [time.Parse] reads back. *)
Lemma Format_then_Parse (y m d : Z) :
  (0 <= y <= 9999)%Z -> (1 <= m <= 12)%Z -> (1 <= d <= time.daysIn m y)%Z ->
  time.Parse_2006_01_02 (time.Format_2006_01_02 y m d) = Some (y, m, d).
Proof.
  intros Hy Hm Hd.
  assert (Hd31 : (time.daysIn m y <= 31)%Z).
  { unfold time.daysIn. repeat case_match; lia. }
  destruct (valueOf4_onto y Hy) as (y1 & y2 & y3 & y4 & Hy1 & Hy2 & Hy3 & Hy4 & <-).
  destruct (valueOf2_onto m ltac:(lia)) as (m1 & m2 & Hm1 & Hm2 & <-).
  destruct (valueOf2_onto d ltac:(lia)) as (a1 & a2 & Ha1 & Ha2 & <-).
  unfold time.Format_2006_01_02.
  rewrite pad_valueOf4, !pad_valueOf2 by assumption.
  unfold time.Parse_2006_01_02.
  change (chars (fourDigits y1 y2 y3 y4 +:+ "-" +:+ twoDigits m1 m2 +:+ "-"
                 +:+ twoDigits a1 a2))
    with [y1; y2; y3; y4; "-"%char; m1; m2; "-"%char; a1; a2].
  cbv beta iota.
  rewrite Hy1, Hy2, Hy3, Hy4, Hm1, Hm2, Ha1, Ha2. cbn [andb eqb_ascii].
  rewrite !Ascii.eqb_refl. cbn [andb].
  fold (valueOf4 y1 y2 y3 y4) (valueOf2 m1 m2) (valueOf2 a1 a2).
  replace ((1 <=? valueOf2 m1 m2)%Z && (valueOf2 m1 m2 <=? 12)%Z
           && (1 <=? valueOf2 a1 a2)%Z
           && (valueOf2 a1 a2 <=? time.daysIn (valueOf2 m1 m2) (valueOf4 y1 y2 y3 y4))%Z)
    with true; [reflexivity |].
  symmetry. rewrite !andb_true_iff, !Z.leb_le. lia.
Qed.

(** X13. Parsing and then printing a date gives the text back: when
    [ParseDate] accepts a text that is not empty, the date is a calendar
    day of a year of four digits, and [String] of it is the text, except
    for the text 0001-01-01, whose date is the zero date and prints as the
    empty string. *)
Theorem ParseDate_then_String (s : string) (d : types.Date) :
  types.ParseDate s = (d, None) -> s <> "" ->
  validDay d
  /\ (types.Date_IsZero d = false -> types.Date_String d = s)
  /\ (types.Date_IsZero d = true -> s = "0001-01-01").
Proof.
  unfold types.ParseDate. intros Hparse Hne.
  apply String.eqb_neq in Hne. rewrite Hne in Hparse.
  destruct (time.Parse_2006_01_02 s) as [[[y m] a]|] eqn:Hs; [| discriminate Hparse].
  inversion Hparse; subst d. clear Hparse.
  apply Parse_then_Format in Hs as (Hformat & Hy & Hm & Ha).
  split; [unfold validDay; simpl; auto |]. split.
  - intros Hz. unfold types.Date_String. rewrite Hz. exact Hformat.
  - unfold types.Date_IsZero. simpl. intros Hz.
    apply andb_true_iff in Hz as [Hz Hz3]. apply andb_true_iff in Hz as [Hz1 Hz2].
    apply Z.eqb_eq in Hz1, Hz2, Hz3. subst y m a. rewrite <- Hformat.
    vm_compute. reflexivity.
Qed.

Lemma ParseDate_then_String_witness :
  validDay {| types.year := 2024; types.month := 2; types.day := 29 |}
  /\ (types.Date_IsZero {| types.year := 2024; types.month := 2; types.day := 29 |}
      = false ->
      types.Date_String {| types.year := 2024; types.month := 2; types.day := 29 |}
      = "2024-02-29")
  /\ (types.Date_IsZero {| types.year := 2024; types.month := 2; types.day := 29 |}
      = true -> "2024-02-29" = "0001-01-01").
Proof.
  apply (ParseDate_then_String "2024-02-29"
           {| types.year := 2024; types.month := 2; types.day := 29 |}).
  - vm_compute. reflexivity.
  - discriminate.
Defined.

(** X14. Printing and then parsing a date gives the date back: for every
    calendar day of a year of at most four digits, the zero date
    included, [ParseDate] accepts what [String] returns and returns that
    day. *)
Theorem String_then_ParseDate (d : types.Date) :
  validDay d -> types.ParseDate (types.Date_String d) = (d, None).
Proof.
  intros (Hy & Hm & Hd). destruct d as [y m a]. simpl in Hy, Hm, Hd.
  unfold types.Date_String.
  destruct (types.Date_IsZero {| types.year := y; types.month := m; types.day := a |})
    eqn:Hz.
  - unfold types.Date_IsZero in Hz. simpl in Hz.
    apply andb_true_iff in Hz as [Hz Hz3]. apply andb_true_iff in Hz as [Hz1 Hz2].
    apply Z.eqb_eq in Hz1, Hz2, Hz3. subst. reflexivity.
  - simpl. unfold types.ParseDate.
    pose proof (Format_then_Parse y m a Hy Hm Hd) as Hparse.
    destruct (String.eqb_spec (time.Format_2006_01_02 y m a) "") as [Hempty | _].
    + rewrite Hempty in Hparse. discriminate Hparse.
    + rewrite Hparse. reflexivity.
Qed.

Lemma String_then_ParseDate_witness :
  types.ParseDate
    (types.Date_String {| types.year := 2024; types.month := 2; types.day := 29 |})
  = ({| types.year := 2024; types.month := 2; types.day := 29 |}, None).
Proof.
  apply (String_then_ParseDate
           {| types.year := 2024; types.month := 2; types.day := 29 |}).
  vm_compute. repeat split; discriminate.
Defined.

(** ** Decimal equality as a relation *)

Lemma sameFloat_sym (x y : float64.t) : sameFloat x y -> sameFloat y x.
Proof.
  destruct x, y; simpl; intros H; try exact H; try (symmetry; exact H);
    try discriminate H.
Qed.

Lemma sameFloat_trans (x y z : float64.t) :
  sameFloat x y -> sameFloat y z -> sameFloat x z.
Proof.
  destruct x, y, z; simpl; intros H1 H2;
    try exact I; try contradiction; try discriminate H1; try discriminate H2;
    congruence.
Qed.

Lemma sameFloat_refl (x : float64.t) : sameFloat x x <-> x <> S754_nan.
Proof.
  destruct x; simpl; split; intros H; try exact I; try reflexivity;
    try discriminate; try contradiction.
Qed.

(** X15. [Equal] is symmetric and transitive on all decimals, and a decimal
    is equal to itself exactly when its float64 value is not a NaN.  The
    unset decimal and a text that [strconv.ParseFloat] rejects both stand
    for 0 and are equal to the decimal 0, while the text NaN, which
    [NewDecimal] rejects but a conversion can build, is not equal to
    itself. *)
Theorem Decimal_Equal_partial_equivalence :
  (forall a b : types.Decimal, types.Decimal_Equal a b = types.Decimal_Equal b a)
  /\ (forall a b c : types.Decimal,
        types.Decimal_Equal a b = true -> types.Decimal_Equal b c = true ->
        types.Decimal_Equal a c = true)
  /\ (forall a : types.Decimal,
        types.Decimal_Equal a a = true <-> types.Decimal_Float64 a <> S754_nan)
  /\ types.Decimal_Equal "" "0" = true
  /\ types.Decimal_Equal "1,5" "0" = true
  /\ types.Decimal_Equal "NaN" "NaN" = false.
Proof.
  split; [| split; [| split]].
  - intros a b. apply eq_true_iff_eq. unfold types.Decimal_Equal.
    rewrite !float64_eqb_sameFloat. split; apply sameFloat_sym.
  - intros a b c. unfold types.Decimal_Equal.
    rewrite !float64_eqb_sameFloat. apply sameFloat_trans.
  - intros a. unfold types.Decimal_Equal.
    rewrite float64_eqb_sameFloat. apply sameFloat_refl.
  - repeat split; vm_compute; reflexivity.
Qed.

(** ** Bool *)

(** X16. [ParseBool] and [String] of a [Bool] are inverse to each other:
    parsing the text of a boolean gives it back; the texts [ParseBool]
    accepts are true, false and the empty text, and apart from the empty
    text, which reads as false, an accepted text is the text of the
    boolean returned; a rejected text comes with the boolean false. *)
Theorem ParseBool_round_trip :
  (forall b : types.Bool, types.ParseBool (types.Bool_String b) = (b, None))
  /\ (forall s : string,
        (types.ParseBool s).2 = None <-> s = "true" \/ s = "false" \/ s = "")
  /\ (forall (s : string) (b : types.Bool),
        types.ParseBool s = (b, None) -> s <> "" -> types.Bool_String b = s)
  /\ (forall s : string,
        (types.ParseBool s).2 <> None ->
        types.ParseBool s
        = (false, Some (Errorf "invalid boolean %q: must be 'true' or 'false'"
                               [ArgString s]))).
Proof.
  split; [| split; [| split]].
  - intros [|]; reflexivity.
  - intros s. unfold types.ParseBool.
    destruct (String.eqb_spec s "true") as [-> | H1]; [simpl; tauto |].
    destruct (String.eqb_spec s "false") as [-> | H2]; [simpl; tauto |].
    destruct (String.eqb_spec s "") as [-> | H3]; [simpl; tauto |].
    simpl. split; [discriminate | intros [H | [H | H]]; contradiction].
  - intros s b. unfold types.ParseBool.
    destruct (String.eqb_spec s "true") as [-> | H1];
      [intros H _; inversion H; reflexivity |].
    destruct (String.eqb_spec s "false") as [-> | H2];
      [intros H _; inversion H; reflexivity |].
    destruct (String.eqb_spec s "") as [-> | H3]; [intros _ H; contradiction |].
    discriminate.
  - intros s. unfold types.ParseBool.
    destruct (String.eqb s "true"); [intros H; contradiction H; reflexivity |].
    destruct (String.eqb s "false"); [intros H; contradiction H; reflexivity |].
    destruct (String.eqb s ""); [intros H; contradiction H; reflexivity |].
    reflexivity.
Qed.

(* ===================================================================== *)
(** * Further properties: the encoder *)
(* ===================================================================== *)

(** ** Induction on reflected values *)

Section value_induction.

Variable P : reflect.value -> Prop.

Hypothesis HPtrNil : P (reflect.VPtr None).
Hypothesis HPtr : forall x, P x -> P (reflect.VPtr (Some x)).
Hypothesis HInterfaceNil : P (reflect.VInterface None).
Hypothesis HInterface : forall x, P x -> P (reflect.VInterface (Some x)).
Hypothesis HString : forall s, P (reflect.VString s).
Hypothesis HInt : forall n, P (reflect.VInt n).
Hypothesis HBool : forall b, P (reflect.VBool b).
Hypothesis HSlice : forall elems, Forall P elems -> P (reflect.VSlice elems).
Hypothesis HMap : forall size, P (reflect.VMap size).
Hypothesis HStruct :
  forall ty m fs, Forall (fun f => P f.2) fs -> P (reflect.VStruct ty m fs).
Hypothesis HUint : forall n, P (reflect.VUint n).


End value_induction.

(** ** Where encoding can fail *)




Section EncoderErrors.

Variable Sequence : gmap string (list string).
Variable EscapeText : string -> string.
Variable Stringer : reflect.value -> option string.
Variable MarshalIndent : reflect.value -> string -> string -> string * option error.

Local Abbreviation encodeValue' :=
  (encodeValue Sequence EscapeText Stringer MarshalIndent).
Local Abbreviation encodeKind' :=
  (encodeKind Sequence EscapeText Stringer MarshalIndent).












End EncoderErrors.


(** ** The order of the fields of a tabulated struct *)

(** The element names under which [extractFields] keeps the fields. *)
Definition keptNames {A : Type} (fs : list (string * A)) : list string :=
  omap (fun f => keptName f.1) fs.

Lemma keptNames_elem {A : Type} (fs : list (string * A)) (xmlTag k : string) (v : A) :
  (xmlTag, v) ∈ fs -> keptName xmlTag = Some k -> k ∈ keptNames fs.
Proof.
  intros Hin Hk. unfold keptNames. apply list_elem_of_omap.
  exists (xmlTag, v). split; [exact Hin | exact Hk].
Qed.

Lemma keptNames_cons {A : Type} (xmlTag : string) (f : A) (rest : list (string * A)) :
  keptNames ((xmlTag, f) :: rest)
  = match keptName xmlTag with
    | Some n => n :: keptNames rest
    | None => keptNames rest
    end.
Proof. reflexivity. Qed.

Lemma foldl_keep_lookup {A : Type} (k : string) (v : A) (fs : list (string * A)) :
  forall m : gmap string A,
    NoDup (keptNames fs) ->
    foldl keep m fs !! k = Some v
    <-> (exists xmlTag, (xmlTag, v) ∈ fs /\ keptName xmlTag = Some k)
        \/ (m !! k = Some v /\ k ∉ keptNames fs).
Proof.
  induction fs as [|[xmlTag f] rest IH]; intros m Hnd.
  - simpl. split.
    + intros H. right. split; [exact H | apply not_elem_of_nil].
    + intros [(t & Ht & _) | [H _]]; [| exact H].
      apply elem_of_nil in Ht. destruct Ht.
  - simpl foldl. rewrite keptNames_cons in Hnd |- *. unfold keep at 2. simpl.
    destruct (keptName xmlTag) as [n|] eqn:Hn.
    + apply NoDup_cons in Hnd as [Hfresh Hnd].
      rewrite (IH _ Hnd).
      split.
      * intros [(t & Ht & Hk) | [Hl Hk]].
        -- left. exists t. split; [right; exact Ht | exact Hk].
        -- destruct (decide (n = k)) as [-> | Hne].
           ++ rewrite lookup_insert_eq in Hl. inversion Hl; subst f.
              left. exists xmlTag. split; [left | exact Hn].
           ++ rewrite lookup_insert_ne in Hl by exact Hne.
              right. split; [exact Hl |].
              intros Hin. apply elem_of_cons in Hin as [-> | Hin];
                [apply Hne; reflexivity | apply Hk; exact Hin].
      * intros [(t & Ht & Hk) | [Hl Hk]].
        -- apply elem_of_cons in Ht as [Ht | Ht].
           ++ inversion Ht; subst t f.
              assert (n = k) by congruence. subst n.
              right. split; [apply lookup_insert_eq | exact Hfresh].
           ++ left. exists t. split; assumption.
        -- right.
           assert (Hne : n <> k) by (intros ->; apply Hk; left).
           split; [rewrite lookup_insert_ne by exact Hne; exact Hl |].
           intros Hin. apply Hk. right. exact Hin.
    + rewrite (IH _ Hnd).
      split.
      * intros [(t & Ht & Hk) | H]; [| right; exact H].
        left. exists t. split; [right; exact Ht | exact Hk].
      * intros [(t & Ht & Hk) | H]; [| right; exact H].
        apply elem_of_cons in Ht as [Ht | Ht].
        -- inversion Ht; subst t f. congruence.
        -- left. exists t. split; assumption.
Qed.

Lemma extractFields_lookup {A : Type} (k : string) (v : A) (fs : list (string * A)) :
  NoDup (keptNames fs) ->
  extractFields fs !! k = Some v
  <-> exists xmlTag, (xmlTag, v) ∈ fs /\ keptName xmlTag = Some k.
Proof.
  intros Hnd. rewrite extractFields_foldl, (foldl_keep_lookup k v fs ∅ Hnd).
  split; [| intros H; left; exact H].
  intros [H | [H _]]; [exact H |]. rewrite lookup_empty in H. discriminate H.
Qed.

(** With distinct element names, [extractFields] does not depend on the
    order of the fields. *)
Lemma extractFields_Permutation {A : Type} (fs fs' : list (string * A)) :
  fs ≡ₚ fs' -> NoDup (keptNames fs) -> extractFields fs = extractFields fs'.
Proof.
  intros Hp Hnd.
  assert (Hnd' : NoDup (keptNames fs')).
  { unfold keptNames in *. rewrite <- Hp. exact Hnd. }
  apply map_eq. intros k. apply option_eq. intros v.
  rewrite (extractFields_lookup k v fs Hnd), (extractFields_lookup k v fs' Hnd').
  split; intros (t & Ht & Hk); exists t; (split; [| exact Hk]).
  - rewrite <- Hp. exact Ht.
  - rewrite Hp. exact Ht.
Qed.

(** X18. The output of a tabulated struct does not depend on the order in
    which its fields are declared: when the type has an entry in the
    ordering table and no two of its fields are kept under the same
    element name, the struct and the struct with its fields permuted are
    written alike; so is the content of a document root, whose order is
    always that of the table. *)
Theorem tabulated_struct_field_order_irrelevant
    (Sequence : gmap string (list string)) (EscapeText : string -> string)
    (Stringer : reflect.value -> option string)
    (MarshalIndent : reflect.value -> string -> string -> string * option error)
    (e : Encoder) (name ty : string) (m : reflect.methods)
    (order : list string) (fs fs' : list (string * reflect.value)) (depth : nat) :
  Sequence !! ty = Some order ->
  compositeStruct m ->
  fs ≡ₚ fs' ->
  NoDup (keptNames fs) ->
  encodeValue Sequence EscapeText Stringer MarshalIndent e name
    (reflect.VStruct ty m fs) depth
  = encodeValue Sequence EscapeText Stringer MarshalIndent e name
      (reflect.VStruct ty m fs') depth
  /\ encodeContent Sequence EscapeText Stringer MarshalIndent e name
       (reflect.VStruct ty m fs) depth
     = encodeContent Sequence EscapeText Stringer MarshalIndent e name
         (reflect.VStruct ty m fs') depth.
Proof.
  intros Hty Hc Hp Hnd.
  pose proof (extractFields_Permutation fs fs' Hp Hnd) as Heq.
  split.
  - rewrite !encodeValue_struct by exact Hc. rewrite Hty.
    unfold tableChildren. rewrite Heq. reflexivity.
  - unfold encodeContent. simpl fieldsOf. rewrite Heq. reflexivity.
Qed.

(** A table that lists both children of a [Country]. *)
Definition wholeCountryTable : gmap string (list string) :=
  {[ "Country" := ["IdentificationCode"; "Name"] ]}.

Lemma tabulated_struct_field_order_irrelevant_witness :
  encodeValue wholeCountryTable id noStringer noMarshalIndent NewEncoder "Country"
    (reflect.VStruct "Country" reflect.no_methods
       [("IdentificationCode", reflect.VString "CZ");
        ("Name,omitempty", reflect.VString "Czechia")]) 1
  = encodeValue wholeCountryTable id noStringer noMarshalIndent NewEncoder "Country"
      (reflect.VStruct "Country" reflect.no_methods
         [("Name,omitempty", reflect.VString "Czechia");
          ("IdentificationCode", reflect.VString "CZ")]) 1.
Proof.
  refine (proj1 (tabulated_struct_field_order_irrelevant
                   wholeCountryTable id noStringer noMarshalIndent NewEncoder
                   "Country" "Country" reflect.no_methods
                   ["IdentificationCode"; "Name"] _ _ 1 _ _ _ _)).
  - reflexivity.
  - split; [reflexivity | discriminate].
  - apply Permutation_swap.
  - apply (bool_decide_unpack _). vm_compute. reflexivity.
Defined.
